(** * Camera HAL 3.4 over V4L2: a shallow embedding and its properties

    The development follows the sources of the HAL:
    - [modules/camera/3_4/camera.cpp]       (class [default_camera_hal::Camera]),
    - [modules/camera/3_4/v4l2_camera.cpp]  (class [v4l2_camera_hal::V4L2Camera]),
    - [v4l2_wrapper.cpp]                    (class [v4l2_camera_hal::V4L2Wrapper]),
    - the unit tests of [Control] and [MenuControlOptions].

    Machine integers are [Z] with the wrap-around written out, objects
    reached through pointers live in finite maps, the kernel and the
    gralloc helper are oracles, and every method that touches the device
    is a function in a small state monad. *)

From Stdlib Require Import ZArith List Bool Lia String.
From stdpp Require Import base option list gmap.
Import ListNotations.

Local Open Scope Z_scope.

(** ** Error numbers and fixed-width integers *)

Definition ENOENT : Z := 2.
Definition EIO    : Z := 5.
Definition EBUSY  : Z := 16.
Definition ENODEV : Z := 19.
Definition EINVAL : Z := 22.
Definition ENOTTY : Z := 25.
Definition ETIME  : Z := 62.

(** Conversions between the C integer types, on mathematical integers. *)
Definition to_uint32 (x : Z) : Z := x mod 2 ^ 32.
Definition to_int32  (x : Z) : Z := (x + 2 ^ 31) mod 2 ^ 32 - 2 ^ 31.
Definition to_uint64 (x : Z) : Z := x mod 2 ^ 64.
Definition to_int64  (x : Z) : Z := (x + 2 ^ 63) mod 2 ^ 64 - 2 ^ 63.

Definition INT32_MAX : Z := 2 ^ 31 - 1.
Definition INT64_MAX : Z := 2 ^ 63 - 1.

Definition is_int32 (x : Z) : Prop := - 2 ^ 31 <= x < 2 ^ 31.
Definition is_int64 (x : Z) : Prop := - 2 ^ 63 <= x < 2 ^ 63.

(** ** A state monad for code that threads the device through calls *)

Definition M (S A : Type) : Type := S -> A * S.

Definition ret {S A : Type} (a : A) : M S A := fun s => (a, s).

Definition bind {S A B : Type} (c : M S A) (k : A -> M S B) : M S B :=
  fun s => let (a, s') := c s in k a s'.

Definition gets {S A : Type} (f : S -> A) : M S A := fun s => (f s, s).

Definition modify {S : Type} (f : S -> S) : M S unit := fun s => (tt, f s).

(** Code that may leave defined behaviour ([None]): a read of an
    indeterminate value, a dereference of a pointer to no live object, a
    division by zero. *)
Definition P (S A : Type) : Type := S -> option (A * S).

Definition pret {S A : Type} (a : A) : P S A := fun s => Some (a, s).
Definition pbind {S A B : Type} (c : P S A) (k : A -> P S B) : P S B :=
  fun s => match c s with Some (a, s') => k a s' | None => None end.
Definition undefined {S A : Type} : P S A := fun _ => None.
Definition pgets {S A : Type} (f : S -> A) : P S A := fun s => Some (f s, s).
Definition pmodify {S : Type} (f : S -> S) : P S unit := fun s => Some (tt, f s).
Definition total {S A : Type} (c : M S A) : P S A := fun s => Some (c s).

(** Whenever [m] returns, [R] relates the state before to the state after. *)
Definition pkeeps {S A : Type} (R : relation S) (m : P S A) : Prop :=
  forall s a s', m s = Some (a, s') -> R s s'.

Declare Scope hal_scope.
Delimit Scope hal_scope with hal.
Notation "'let*' x ':=' c 'in' k" :=
  (bind c (fun x => k))
  (at level 10, x name, c at level 100, k at level 200) : hal_scope.
Notation "'let*' ' p ':=' c 'in' k" :=
  (bind c (fun x => match x with p => k end))
  (at level 10, p pattern, c at level 100, k at level 200) : hal_scope.
Notation "c1 ';;' c2" :=
  (bind c1 (fun _ => c2))
  (at level 100, c2 at level 200, right associativity) : hal_scope.

Declare Scope part_scope.
Delimit Scope part_scope with part.
Notation "'let*' x ':=' c 'in' k" :=
  (pbind c (fun x => k))
  (at level 10, x name, c at level 100, k at level 200) : part_scope.
Notation "'let*' ' p ':=' c 'in' k" :=
  (pbind c (fun x => match x with p => k end))
  (at level 10, p pattern, c at level 100, k at level 200) : part_scope.
Notation "c1 ';;' c2" :=
  (pbind c1 (fun _ => c2))
  (at level 100, c2 at level 200, right associativity) : part_scope.

(** ** Streams (class [default_camera_hal::Stream])

    [stream.h] is not part of the sources at hand; the record keeps the
    members the HAL reads and writes through the accessors it calls. *)

Inductive camera3_stream_type := CAMERA3_STREAM_OUTPUT | CAMERA3_STREAM_INPUT
                                | CAMERA3_STREAM_BIDIRECTIONAL.

#[global] Instance camera3_stream_type_eq_dec : EqDecision camera3_stream_type.
Proof. solve_decision. Defined.

Record Stream := mkStream {
  mReuse     : bool;
  mType      : camera3_stream_type;
  mWidth     : Z;
  mHeight    : Z;
  mFormat    : Z;
  mUsage     : Z;
  mMaxBuffers : Z;
  mRotation  : Z;
  mDataSpace : Z
}.

Definition isInputType (s : Stream) : bool :=
  match mType s with
  | CAMERA3_STREAM_INPUT | CAMERA3_STREAM_BIDIRECTIONAL => true
  | CAMERA3_STREAM_OUTPUT => false
  end.

Definition isOutputType (s : Stream) : bool :=
  match mType s with
  | CAMERA3_STREAM_OUTPUT | CAMERA3_STREAM_BIDIRECTIONAL => true
  | CAMERA3_STREAM_INPUT => false
  end.

Definition setReuse (b : bool) (s : Stream) : Stream :=
  mkStream b (mType s) (mWidth s) (mHeight s) (mFormat s) (mUsage s)
           (mMaxBuffers s) (mRotation s) (mDataSpace s).

Definition setUsage (u : Z) (s : Stream) : Stream :=
  mkStream (mReuse s) (mType s) (mWidth s) (mHeight s) (mFormat s) u
           (mMaxBuffers s) (mRotation s) (mDataSpace s).

Definition setMaxBuffers (n : Z) (s : Stream) : Stream :=
  mkStream (mReuse s) (mType s) (mWidth s) (mHeight s) (mFormat s) (mUsage s)
           n (mRotation s) (mDataSpace s).

Definition setDataSpace (d : Z) (s : Stream) : Stream :=
  mkStream (mReuse s) (mType s) (mWidth s) (mHeight s) (mFormat s) (mUsage s)
           (mMaxBuffers s) (mRotation s) d.

(** ** The V4L2 wrapper ([v4l2_wrapper.cpp]) *)

Module V4L2.

(** *** Kernel structures of [linux/videodev2.h] *)

Definition V4L2_CTRL_TYPE_INTEGER64 : Z := 5.
Definition V4L2_CTRL_TYPE_STRING    : Z := 7.
Definition V4L2_CTRL_TYPE_BITMASK   : Z := 8.
Definition V4L2_MEMORY_USERPTR      : Z := 2.
Definition V4L2_CTRL_FLAG_NEXT_CTRL     : Z := 0x80000000.
Definition V4L2_CTRL_FLAG_NEXT_COMPOUND : Z := 0x40000000.

Inductive ioctl_request :=
| VIDIOC_QUERY_EXT_CTRL | VIDIOC_QUERYCTRL | VIDIOC_G_CTRL | VIDIOC_S_CTRL
| VIDIOC_S_FMT | VIDIOC_REQBUFS | VIDIOC_QUERYBUF | VIDIOC_QBUF | VIDIOC_DQBUF
| VIDIOC_STREAMON | VIDIOC_STREAMOFF.

#[global] Instance ioctl_request_eq_dec : EqDecision ioctl_request.
Proof. solve_decision. Defined.

(** [struct v4l2_queryctrl]: the signed members are 32 bits wide. *)
Record v4l2_queryctrl := mkQueryctrl {
  qc_id : Z; qc_type : Z; qc_name : list Z;
  qc_minimum : Z; qc_maximum : Z; qc_step : Z; qc_default_value : Z;
  qc_flags : Z
}.

(** [struct v4l2_query_ext_ctrl]: minimum, maximum and default_value are
    signed 64-bit members, step is unsigned 64-bit. *)
Record v4l2_query_ext_ctrl := mkQueryExtCtrl {
  qe_id : Z; qe_type : Z; qe_name : list Z;
  qe_minimum : Z; qe_maximum : Z; qe_step : Z; qe_default_value : Z;
  qe_flags : Z; qe_elem_size : Z; qe_elems : Z
}.

Record v4l2_control := mkControl { ctl_id : Z; ctl_value : Z }.

Record v4l2_format := mkFormat {
  fmt_type : Z; fmt_pixelformat : Z; fmt_width : Z; fmt_height : Z;
  fmt_bytesperline : Z
}.

Record v4l2_requestbuffers := mkReqbufs {
  rb_count : Z; rb_type : Z; rb_memory : Z
}.

Record v4l2_buffer := mkBuffer {
  buf_index : Z; buf_type : Z; buf_memory : Z; buf_userptr : Z; buf_length : Z
}.

(** The third argument of [ioctl], by the structure it points to. *)
Inductive ioctl_data :=
| D_type (t : Z)
| D_query_ext_ctrl (q : v4l2_query_ext_ctrl)
| D_queryctrl (q : v4l2_queryctrl)
| D_control (c : v4l2_control)
| D_format (f : v4l2_format)
| D_requestbuffers (r : v4l2_requestbuffers)
| D_buffer (b : v4l2_buffer).

(** What one (retried) [ioctl] call leaves behind: its return value, the
    value of [errno] if it set one, and the structure as the driver
    filled it. *)
Record ioctl_reply := mkReply {
  r_ret : Z; r_errno : option Z; r_data : ioctl_data
}.

(** The driver behind the device path.  [sys_open] stands for
    [TEMP_FAILURE_RETRY(open(path, O_RDWR))] and yields a descriptor or
    the [errno] of the failure; [sys_ioctl] stands for
    [TEMP_FAILURE_RETRY(ioctl(fd, request, data))]: the reply is that of
    the attempt that was not interrupted. *)
Class Kernel := {
  kstate : Type;
  sys_open : kstate -> (Z + Z) * kstate;
  sys_ioctl : kstate -> Z -> ioctl_request -> ioctl_data -> ioctl_reply * kstate
}.

(** The gralloc helper ([v4l2_gralloc.h], not part of the sources at
    hand): it locks framework buffers into user pointers. *)
Class Gralloc := {
  gstate : Type;
  gralloc_lock : gstate -> Z -> Z -> v4l2_buffer -> (Z * v4l2_buffer) * gstate;
  gralloc_unlock : gstate -> v4l2_buffer -> Z * gstate;
  gralloc_unlockAllBuffers : gstate -> Z * gstate
}.

(** Class [StreamFormat] ([stream_format.h], not part of the sources at
    hand): built from a stream or from the driver's [v4l2_format],
    compared with [operator==], written back by [FillFormatRequest]. *)
Class StreamFormatOps := {
  StreamFormat : Type;
  StreamFormat_of_stream : Stream -> StreamFormat;
  StreamFormat_of_v4l2 : v4l2_format -> StreamFormat;
  sf_eqb : StreamFormat -> StreamFormat -> bool;
  sf_type : StreamFormat -> Z;
  sf_bytes_per_line : StreamFormat -> Z;
  FillFormatRequest : StreamFormat -> v4l2_format
}.

Section Wrapper.
Context `{KN : Kernel} `{GR : Gralloc} `{SF : StreamFormatOps}.

(** The members of the wrapper, and around it what its methods reach:
    the driver, the gralloc helper, [errno], and the ioctls issued so
    far (most recent first). *)
Record V4L2Wrapper := mkWrapper {
  device_fd_ : option Z;
  format_ : option StreamFormat;
  max_buffers_ : Z;
  extended_query_supported_ : bool
}.

Record World := mkWorld {
  wrapper : V4L2Wrapper;
  kernel : kstate;
  gralloc_ : gstate;
  errno : Z;
  issued : list (ioctl_request * ioctl_data)
}.

Definition connected (w : V4L2Wrapper) : bool :=
  match device_fd_ w with Some _ => true | None => false end.

Definition set_wrapper (f : V4L2Wrapper -> V4L2Wrapper) (s : World) : World :=
  mkWorld (f (wrapper s)) (kernel s) (gralloc_ s) (errno s) (issued s).

Definition set_format_ (f : option StreamFormat) (w : V4L2Wrapper) :=
  mkWrapper (device_fd_ w) f (max_buffers_ w) (extended_query_supported_ w).

Definition set_max_buffers_ (n : Z) (w : V4L2Wrapper) :=
  mkWrapper (device_fd_ w) (format_ w) n (extended_query_supported_ w).

(** The system call itself: the driver answers, [errno] is overwritten
    when the driver sets it, and the call is recorded. *)
Definition do_ioctl (fd : Z) (request : ioctl_request) (data : ioctl_data)
  : M World (Z * ioctl_data) :=
  fun s =>
    let (reply, k') := sys_ioctl (kernel s) fd request data in
    ((r_ret reply, r_data reply),
     mkWorld (wrapper s) k' (gralloc_ s)
             (match r_errno reply with Some e => e | None => errno s end)
             ((request, data) :: issued s)).

Definition unlockAllBuffers : M World Z :=
  fun s =>
    let (r, g') := gralloc_unlockAllBuffers (gralloc_ s) in
    (r, mkWorld (wrapper s) (kernel s) g' (errno s) (issued s)).

Definition unlock (b : v4l2_buffer) : M World Z :=
  fun s =>
    let (r, g') := gralloc_unlock (gralloc_ s) b in
    (r, mkWorld (wrapper s) (kernel s) g' (errno s) (issued s)).

Definition lock (camera_buffer : Z) (bytes_per_line : Z) (b : v4l2_buffer)
  : M World (Z * v4l2_buffer) :=
  fun s =>
    let (r, g') := gralloc_lock (gralloc_ s) camera_buffer bytes_per_line b in
    (r, mkWorld (wrapper s) (kernel s) g' (errno s) (issued s)).

Local Open Scope hal_scope.

Definition do_open : M World (Z + Z) :=
  fun s =>
    let (r, k') := sys_open (kernel s) in
    (r, mkWorld (wrapper s) k' (gralloc_ s)
                (match r with inr e => e | inl _ => errno s end) (issued s)).

(** [V4L2Wrapper::Connect]. *)
Definition Connect : M World Z :=
  let* w := gets wrapper in
  if connected w then ret (- EIO)
  else
    let* opened := do_open in
    match opened with
       | inr e => ret (- e)
       | inl fd =>
           modify (set_wrapper (fun w =>
             mkWrapper (Some fd) (format_ w) (max_buffers_ w)
                       (extended_query_supported_ w)));;
           let query := mkQueryExtCtrl
             (Z.lor V4L2_CTRL_FLAG_NEXT_CTRL V4L2_CTRL_FLAG_NEXT_COMPOUND)
             0 [] 0 0 0 0 0 0 0 in
           let* '(res, _) :=
             do_ioctl fd VIDIOC_QUERY_EXT_CTRL (D_query_ext_ctrl query) in
           modify (set_wrapper (fun w =>
             mkWrapper (device_fd_ w) (format_ w) (max_buffers_ w)
                       (res =? 0)));;
           ret 0
       end.

(** [V4L2Wrapper::Disconnect]. *)
Definition Disconnect : M World unit :=
  modify (set_wrapper (fun w =>
    mkWrapper None None 0 (extended_query_supported_ w)));;
  let* _ := unlockAllBuffers in
  ret tt.

(** [V4L2Wrapper::IoctlLocked]: no system call without a device. *)
Definition IoctlLocked (request : ioctl_request) (data : ioctl_data)
  : M World (Z * ioctl_data) :=
  let* w := gets wrapper in
  match device_fd_ w with
  | None => ret (- ENODEV, data)
  | Some fd => do_ioctl fd request data
  end.

(** [V4L2Wrapper::StreamOn]. *)
Definition StreamOn : M World Z :=
  let* w := gets wrapper in
  match format_ w with
  | None => ret (- EINVAL)
  | Some f =>
      let* '(res, _) := IoctlLocked VIDIOC_STREAMON (D_type (sf_type f)) in
      if res <? 0 then ret (- ENODEV) else ret 0
  end.

(** [V4L2Wrapper::StreamOff]. *)
Definition StreamOff : M World Z :=
  let* w := gets wrapper in
  match format_ w with
  | None => ret (- ENODEV)
  | Some f =>
      let* '(res, _) := IoctlLocked VIDIOC_STREAMOFF (D_type (sf_type f)) in
      let* gralloc_res := unlockAllBuffers in
      if res <? 0 then ret (- ENODEV)
      else if gralloc_res <? 0 then ret gralloc_res
      else ret 0
  end.

Definition zero_query_ext_ctrl : v4l2_query_ext_ctrl :=
  mkQueryExtCtrl 0 0 [] 0 0 0 0 0 0 0.

Definition set_qe_id (id : Z) (q : v4l2_query_ext_ctrl) :=
  mkQueryExtCtrl id (qe_type q) (qe_name q) (qe_minimum q) (qe_maximum q)
                 (qe_step q) (qe_default_value q) (qe_flags q)
                 (qe_elem_size q) (qe_elems q).

(** The conversion of a basic query result to the extended shape, as
    the second half of [QueryControl] writes it member by member. *)
Definition convert_queryctrl (query : v4l2_queryctrl) : v4l2_query_ext_ctrl :=
  let maximum :=
    if qc_type query =? V4L2_CTRL_TYPE_BITMASK
    then to_uint32 (qc_maximum query) else qc_maximum query in
  let default_value :=
    if qc_type query =? V4L2_CTRL_TYPE_BITMASK
    then to_uint32 (qc_default_value query) else qc_default_value query in
  let elem_size :=
    if qc_type query =? V4L2_CTRL_TYPE_INTEGER64 then 8
    else if qc_type query =? V4L2_CTRL_TYPE_STRING then to_uint32 (maximum + 1)
    else 4 in
  mkQueryExtCtrl (qc_id query) (qc_type query) (qc_name query)
                 (qc_minimum query) maximum (to_uint32 (qc_step query))
                 default_value (qc_flags query) elem_size 1.

Definition as_query_ext_ctrl (d : ioctl_data) (dflt : v4l2_query_ext_ctrl) :=
  match d with D_query_ext_ctrl q => q | _ => dflt end.
Definition as_queryctrl (d : ioctl_data) (dflt : v4l2_queryctrl) :=
  match d with D_queryctrl q => q | _ => dflt end.
Definition as_control (d : ioctl_data) (dflt : v4l2_control) :=
  match d with D_control q => q | _ => dflt end.
Definition as_format (d : ioctl_data) (dflt : v4l2_format) :=
  match d with D_format q => q | _ => dflt end.
Definition as_requestbuffers (d : ioctl_data) (dflt : v4l2_requestbuffers) :=
  match d with D_requestbuffers q => q | _ => dflt end.
Definition as_buffer (d : ioctl_data) (dflt : v4l2_buffer) :=
  match d with D_buffer q => q | _ => dflt end.

(** The fall-back half of [QueryControl]: [VIDIOC_QUERYCTRL], then the
    conversion. *)
Definition QueryControl_basic (control_id : Z)
  : M World (Z * v4l2_query_ext_ctrl) :=
  let query := mkQueryctrl control_id 0 [] 0 0 0 0 0 in
  let* '(res, d) := IoctlLocked VIDIOC_QUERYCTRL (D_queryctrl query) in
  if negb (res =? 0) then ret (- ENODEV, zero_query_ext_ctrl)
  else ret (0, convert_queryctrl (as_queryctrl d query)).

(** [V4L2Wrapper::QueryControl]; the second component is [*result]. *)
Definition QueryControl (control_id : Z) : M World (Z * v4l2_query_ext_ctrl) :=
  let* w := gets wrapper in
  if extended_query_supported_ w then
    let result := set_qe_id control_id zero_query_ext_ctrl in
    let* '(res, d) :=
      IoctlLocked VIDIOC_QUERY_EXT_CTRL (D_query_ext_ctrl result) in
    let result := as_query_ext_ctrl d result in
    let* e := gets errno in
    if negb (e =? ENOTTY) then
      if negb (res =? 0) then ret (- ENODEV, result) else ret (0, result)
    else
      let* '(r, converted) := QueryControl_basic control_id in
      if r =? 0 then ret (0, converted) else ret (r, result)
  else QueryControl_basic control_id.

(** [V4L2Wrapper::GetControl]; the second component is [*value] when it
    is written. *)
Definition GetControl (control_id : Z) : M World (Z * option Z) :=
  let control := mkControl control_id 0 in
  let* '(res, d) := IoctlLocked VIDIOC_G_CTRL (D_control control) in
  if res <? 0 then ret (- ENODEV, None)
  else ret (0, Some (ctl_value (as_control d control))).

(** [V4L2Wrapper::SetControl]; the second component is [*result]. *)
Definition SetControl (control_id desired : Z) : M World (Z * option Z) :=
  let control := mkControl control_id desired in
  let* '(res, d) := IoctlLocked VIDIOC_S_CTRL (D_control control) in
  if res <? 0 then ret (- ENODEV, None)
  else ret (0, Some (ctl_value (as_control d control))).

(** [V4L2Wrapper::SetupBuffers]. *)
Definition SetupBuffers : M World Z :=
  let* w := gets wrapper in
  match format_ w with
  | None => ret (- ENODEV)
  | Some f =>
      let req_buffers := mkReqbufs 1 (sf_type f) V4L2_MEMORY_USERPTR in
      let* '(res, d) :=
        IoctlLocked VIDIOC_REQBUFS (D_requestbuffers req_buffers) in
      let* gralloc_res := unlockAllBuffers in
      if res <? 0 then ret (- ENODEV)
      else if gralloc_res <? 0 then ret gralloc_res
      else
        let count := rb_count (as_requestbuffers d req_buffers) in
        modify (set_wrapper (set_max_buffers_ count));;
        if count <? 1 then ret (- ENODEV) else ret 0
  end.

(** [V4L2Wrapper::SetFormat].  [result_max_buffers] is the content of
    the caller's variable on entry; the second component of the result
    is its content on return. *)
Definition SetFormat (stream : Stream) (result_max_buffers : Z)
  : M World (Z * Z) :=
  if isInputType stream then ret (- EINVAL, result_max_buffers)
  else
    let desired_format := StreamFormat_of_stream stream in
    let* w := gets wrapper in
    if match format_ w with
       | Some f => sf_eqb desired_format f
       | None => false
       end
    then ret (0, result_max_buffers)
    else
      let new_format := FillFormatRequest desired_format in
      let* '(res, d) := IoctlLocked VIDIOC_S_FMT (D_format new_format) in
      if res <? 0 then ret (- ENODEV, result_max_buffers)
      else
        let new_format := as_format d new_format in
        if negb (sf_eqb desired_format (StreamFormat_of_v4l2 new_format))
        then ret (- EINVAL, result_max_buffers)
        else
          modify (set_wrapper
                    (set_format_ (Some (StreamFormat_of_v4l2 new_format))));;
          let* res := SetupBuffers in
          if negb (res =? 0) then ret (res, result_max_buffers)
          else
            let* w := gets wrapper in
            ret (0, max_buffers_ w).

(** [V4L2Wrapper::EnqueueBuffer]. *)
Definition EnqueueBuffer (camera_buffer : Z) : M World Z :=
  let* w := gets wrapper in
  match format_ w with
  | None => ret (- ENODEV)
  | Some f =>
      let device_buffer := mkBuffer 0 (sf_type f) 0 0 0 in
      let* '(res, d) := IoctlLocked VIDIOC_QUERYBUF (D_buffer device_buffer) in
      if res <? 0 then ret (- ENODEV)
      else
        let b := as_buffer d device_buffer in
        let device_buffer :=
          mkBuffer 0 (buf_type b) V4L2_MEMORY_USERPTR (buf_userptr b)
                   (buf_length b) in
        let* '(res, device_buffer) :=
          lock camera_buffer (sf_bytes_per_line f) device_buffer in
        if negb (res =? 0) then ret res
        else
          let* '(res, _) := IoctlLocked VIDIOC_QBUF (D_buffer device_buffer) in
          if res <? 0 then
            let* _ := unlock device_buffer in ret (- ENODEV)
          else ret 0
  end.

(** [V4L2Wrapper::DequeueBuffer]; the second component is [*buffer]. *)
Definition DequeueBuffer : M World (Z * option v4l2_buffer) :=
  let* w := gets wrapper in
  match format_ w with
  | None => ret (- ENODEV, None)
  | Some f =>
      let buffer := mkBuffer 0 (sf_type f) V4L2_MEMORY_USERPTR 0 0 in
      let* '(res, d) := IoctlLocked VIDIOC_DQBUF (D_buffer buffer) in
      let buffer := as_buffer d buffer in
      if res <? 0 then ret (- ENODEV, Some buffer)
      else
        let* res := unlock buffer in
        if negb (res =? 0) then ret (res, Some buffer)
        else ret (0, Some buffer)
  end.

(** How often [request] was issued so far. *)
Definition issued_count (request : ioctl_request) (w : World) : nat :=
  length (filter (fun x => x.1 = request) (issued w)).

(** The public methods of the wrapper. *)
Inductive method : forall {A : Type}, M World A -> Prop :=
| m_Connect : method Connect
| m_Disconnect : method Disconnect
| m_StreamOn : method StreamOn
| m_StreamOff : method StreamOff
| m_QueryControl id : method (QueryControl id)
| m_GetControl id : method (GetControl id)
| m_SetControl id desired : method (SetControl id desired)
| m_SetFormat stream mb : method (SetFormat stream mb)
| m_SetupBuffers : method SetupBuffers
| m_EnqueueBuffer b : method (EnqueueBuffer b)
| m_DequeueBuffer : method DequeueBuffer.

(** The states a wrapper can be in: as the constructor leaves it (no
    descriptor, no format, [max_buffers_] zero, the extended-query flag
    not yet assigned), and after any method; [errno] may be overwritten
    by other code between two calls. *)
Inductive reachable : World -> Prop :=
| reach_new k g e ext :
    reachable (mkWorld (mkWrapper None None 0 ext) k g e [])
| reach_errno w e :
    reachable w ->
    reachable (mkWorld (wrapper w) (kernel w) (gralloc_ w) e (issued w))
| reach_call {A} (m : M World A) w :
    method m -> reachable w -> reachable (m w).2.

(** *** Vocabulary of the statements about the wrapper *)

(** [m] relates every state to the state it leaves by [R]. *)
Definition keeps {A} (R : relation World) (m : M World A) : Prop :=
  forall w, R w (m w).2.

(** The relations used below: the wrapper's members are the same; its
    descriptor and format are the same; its descriptor is the same. *)
Definition same_wrapper : relation World :=
  fun w w' => wrapper w' = wrapper w.

Definition same_fd_format : relation World :=
  fun w w' => device_fd_ (wrapper w') = device_fd_ (wrapper w) /\
              format_ (wrapper w') = format_ (wrapper w).

Definition same_fd : relation World :=
  fun w w' => device_fd_ (wrapper w') = device_fd_ (wrapper w).

(** The invariant: a wrapper without a descriptor has no format. *)
Definition no_format_unless_connected (w : World) : Prop :=
  connected (wrapper w) = false -> format_ (wrapper w) = None.

(** The state in which [QueryControl] reaches its fall-back, and the
    condition under which it does: the extended query is not
    supported, or it left ENOTTY in [errno]. *)
Definition before_fallback (control_id : Z) (w : World) : World :=
  if extended_query_supported_ (wrapper w)
  then (IoctlLocked VIDIOC_QUERY_EXT_CTRL
          (D_query_ext_ctrl (set_qe_id control_id zero_query_ext_ctrl)) w).2
  else w.

Definition falls_back (control_id : Z) (w : World) : Prop :=
  extended_query_supported_ (wrapper w) = false \/
  errno (before_fallback control_id w) = ENOTTY.

End Wrapper.

End V4L2.

(** ** Camera metadata ([android::CameraMetadata])

    A metadata block maps a tag to the values of its entry; a tag
    appears at most once. *)

Abbreviation CameraMetadata := (gmap Z (list Z)).

Definition ANDROID_SENSOR_TIMESTAMP : Z := 917520.
Definition ANDROID_CONTROL_AE_TARGET_FPS_RANGE : Z := 65541.
Definition ANDROID_CONTROL_AF_MODE : Z := 65543.
Definition ANDROID_CONTROL_CAPTURE_INTENT : Z := 65549.

Definition isEmpty (md : CameraMetadata) : bool := bool_decide (md = ∅).

(** [v4l2_camera_hal::SingleTagValue] of [metadata/metadata_common.h]:
    the value of a tag that holds exactly one; the header is not part
    of the sources at hand, the error numbers are those its callers and
    the tests of [Control] rely on. *)
Definition SingleTagValue (md : CameraMetadata) (tag : Z) : Z * option Z :=
  match md !! tag with
  | None => (- ENOENT, None)
  | Some [v] => (0, Some v)
  | Some _ => (- EINVAL, None)
  end.

(** ** The camera ([camera.cpp]) *)

Module Cam.

Definition ptr := nat.

(** *** Framework structures of [hardware/camera3.h] *)

Definition CAMERA3_TEMPLATE_PREVIEW          : Z := 1.
Definition CAMERA3_TEMPLATE_STILL_CAPTURE    : Z := 2.
Definition CAMERA3_TEMPLATE_VIDEO_RECORD     : Z := 3.
Definition CAMERA3_TEMPLATE_VIDEO_SNAPSHOT   : Z := 4.
Definition CAMERA3_TEMPLATE_ZERO_SHUTTER_LAG : Z := 5.
Definition CAMERA3_TEMPLATE_MANUAL           : Z := 6.
Definition CAMERA3_TEMPLATE_COUNT            : Z := 7.

Definition CAMERA3_MSG_ERROR_REQUEST : Z := 2.
Definition CAMERA3_BUFFER_STATUS_OK : Z := 0.
Definition CAMERA3_STREAM_ROTATION_0 : Z := 0.
Definition CAMERA3_STREAM_CONFIGURATION_NORMAL_MODE : Z := 0.
Definition GRALLOC_USAGE_SW_READ_OFTEN  : Z := 0x3.
Definition GRALLOC_USAGE_SW_WRITE_OFTEN : Z := 0x30.
Definition HAL_DATASPACE_V0_JFIF : Z := 0x8C20000.
Definition CAMERA_SYNC_TIMEOUT : Z := 5000.

(** [camera3_stream_t], the framework's side of a stream. *)
Record camera3_stream_t := mkCamera3Stream {
  stream_type : camera3_stream_type;
  width : Z; height : Z; format : Z; rotation : Z; data_space : Z;
  max_buffers : Z;
  priv : option ptr
}.

Definition set_priv (p : option ptr) (a : camera3_stream_t) :=
  mkCamera3Stream (stream_type a) (width a) (height a) (format a) (rotation a)
                  (data_space a) (max_buffers a) p.

(** [camera3_stream_configuration_t]; [num_streams] is the length of the
    array it points to. *)
Record camera3_stream_configuration_t := mkConfig {
  streams : list camera3_stream_t;
  operation_mode : Z
}.

Definition num_streams (c : camera3_stream_configuration_t) : Z :=
  Z.of_nat (length (streams c)).

Record camera3_stream_buffer_t := mkStreamBuffer {
  sb_stream : option ptr; sb_buffer : Z; sb_status : Z;
  acquire_fence : Z; release_fence : Z
}.

(** [CaptureRequest] (and [camera3_capture_request_t], whose null
    settings it copies as an empty block). *)
Record CaptureRequest := mkRequest {
  frame_number : Z;
  settings : CameraMetadata;
  input_buffer : option camera3_stream_buffer_t;
  output_buffers : list camera3_stream_buffer_t
}.

Inductive camera3_notify_msg_t :=
| CAMERA3_MSG_SHUTTER (frame : Z) (timestamp : Z)
| CAMERA3_MSG_ERROR (frame : Z) (error_stream : option ptr) (error_code : Z).

Record camera3_capture_result_t := mkResult {
  res_frame_number : Z;
  res_result : CameraMetadata;
  res_num_output_buffers : Z;
  res_output_buffers : list camera3_stream_buffer_t;
  res_input_buffer : option camera3_stream_buffer_t;
  res_partial_result : Z
}.

(** The two entries of [camera3_callback_ops_t], as the framework
    receives them. *)
Inductive callback :=
| notify (msg : camera3_notify_msg_t)
| process_capture_result (result : camera3_capture_result_t).

Definition is_notify (c : callback) : bool :=
  match c with notify _ => true | process_capture_result _ => false end.
Definition is_process_capture_result (c : callback) : bool :=
  match c with notify _ => false | process_capture_result _ => true end.

(** *** Stream helpers that [camera.cpp] calls *)

(** Modelled from the spec: the constructor [Stream::Stream(id, s)] of
    [stream.cpp], which is missing; a new stream takes the parameters of
    its [camera3_stream_t] and is not marked for reuse. *)
Definition newStream (a : camera3_stream_t) : Stream :=
  mkStream false (stream_type a) (width a) (height a) (format a) 0 0
           (rotation a) (data_space a).

(** Modelled from the spec: [Stream::isValidReuseStream] of [stream.cpp],
    which is missing; "reuses existing streams whose params match". *)
Definition isValidReuseStream (s : Stream) (a : camera3_stream_t) : bool :=
  bool_decide (stream_type a = mType s) && (format a =? mFormat s)
  && (width a =? mWidth s) && (height a =? mHeight s).

(** [struct camera_info] of [hardware/camera_common.h]: the members
    that [getInfo] and [initDeviceInfo] write. *)
Record camera_info := mkCameraInfo {
  info_facing : Z;
  info_orientation : Z;
  device_version : Z;
  static_camera_characteristics : option CameraMetadata;
  resource_cost : Z;
  conflicting_devices_length : Z
}.

Definition set_device_version (v : Z) (i : camera_info) :=
  mkCameraInfo (info_facing i) (info_orientation i) v
               (static_camera_characteristics i) (resource_cost i)
               (conflicting_devices_length i).
Definition set_static_camera_characteristics (m : option CameraMetadata)
           (i : camera_info) :=
  mkCameraInfo (info_facing i) (info_orientation i) (device_version i) m
               (resource_cost i) (conflicting_devices_length i).
Definition set_info_facing (f : Z) (i : camera_info) :=
  mkCameraInfo f (info_orientation i) (device_version i)
               (static_camera_characteristics i) (resource_cost i)
               (conflicting_devices_length i).
Definition set_info_orientation (o : Z) (i : camera_info) :=
  mkCameraInfo (info_facing i) o (device_version i)
               (static_camera_characteristics i) (resource_cost i)
               (conflicting_devices_length i).

Definition CAMERA_DEVICE_API_VERSION_3_4 : Z := 0x304.
Definition CAMERA_FACING_BACK : Z := 0.
Definition CAMERA_FACING_FRONT : Z := 1.
Definition CAMERA_FACING_EXTERNAL : Z := 2.
Definition ANDROID_LENS_FACING_FRONT : Z := 0.
Definition ANDROID_LENS_FACING_BACK : Z := 1.
Definition ANDROID_LENS_FACING_EXTERNAL : Z := 2.
Definition ANDROID_LENS_FACING : Z := 524293.
Definition ANDROID_SENSOR_ORIENTATION : Z := 917518.

(** *** The virtual methods a device fills in *)

Class CameraDevice := {
  dstate : Type;
  connect : P dstate Z;
  disconnect : P dstate unit;
  initDevice : P dstate Z;
  initTemplate : Z -> P dstate (Z * CameraMetadata);
  isSupportedStreamSet : dstate -> list Stream -> Z -> Z -> bool;
  setupStream : Stream -> Z -> P dstate (Z * Z * Stream);
  isValidRequest : CaptureRequest -> P dstate bool;
  enqueueRequest : CaptureRequest -> P dstate Z
}.

(** [sync_wait] of libsync: what waiting on a fence returns. *)
Class Sync := { sync_wait : Z -> Z -> Z }.

(** A slot of an array of [Stream*]: [new Stream*[n]] leaves every slot
    indeterminate until it is assigned. *)
Inductive slot := Indeterminate | Written (p : option ptr).

Section Camera.
Context `{CD : CameraDevice} `{SY : Sync}.

Record Camera := mkCamera {
  mId : Z;
  mSettingsSet : bool;
  mBusy : bool;
  mStreams : option (list slot);
  mNumStreams : Z;
  mTemplates : gmap Z CameraMetadata
}.

(** The camera with what its methods reach: the [Stream] objects on
    the heap, the device behind the virtual methods, and the calls
    made into the framework (most recent first). *)
Record HAL := mkHAL {
  camera : Camera;
  objects : gmap ptr Stream;
  device : dstate;
  callbacks : list callback
}.

(** [Camera::Camera(id)]. *)
Definition newCamera (id : Z) : Camera := mkCamera id false false None 0 ∅.

Definition U (A : Type) : Type := P HAL A.

Definition set_camera (f : Camera -> Camera) (s : HAL) : HAL :=
  mkHAL (f (camera s)) (objects s) (device s) (callbacks s).
Definition set_objects (f : gmap ptr Stream -> gmap ptr Stream) (s : HAL) :=
  mkHAL (camera s) (f (objects s)) (device s) (callbacks s).

(** A call into the device. *)
Definition on_device {A} (c : P dstate A) : U A :=
  fun s => match c (device s) with
           | Some (a, d') =>
               Some (a, mkHAL (camera s) (objects s) d' (callbacks s))
           | None => None
           end.

(** A call into the framework. *)
Definition call_back (c : callback) : U unit :=
  pmodify (fun s => mkHAL (camera s) (objects s) (device s) (c :: callbacks s)).

Definition set_mSettingsSet (b : bool) (c : Camera) :=
  mkCamera (mId c) b (mBusy c) (mStreams c) (mNumStreams c) (mTemplates c).
Definition set_mBusy (b : bool) (c : Camera) :=
  mkCamera (mId c) (mSettingsSet c) b (mStreams c) (mNumStreams c) (mTemplates c).
Definition set_streams (a : option (list slot)) (n : Z) (c : Camera) :=
  mkCamera (mId c) (mSettingsSet c) (mBusy c) a n (mTemplates c).

Local Open Scope part_scope.

Fixpoint ufor {A} (l : list A) (body : A -> U unit) : U unit :=
  match l with
  | [] => pret tt
  | x :: rest => body x;; ufor rest body
  end.

(** [streams[i]]. *)
Definition read_slot (a : list slot) (i : nat) : U (option ptr) :=
  match a !! i with
  | Some (Written p) => pret p
  | _ => undefined
  end.

(** [*p], [*p = st], [new Stream(mId, astream)] and [delete p]. *)
Definition deref (p : ptr) : U Stream :=
  fun s => match objects s !! p with
           | Some st => Some (st, s)
           | None => None
           end.
Definition store (p : ptr) (st : Stream) : U unit :=
  pmodify (set_objects <[p := st]>).
Definition allocStream (astream : camera3_stream_t) : U (option ptr) :=
  let* objs := pgets objects in
  let p := fresh (dom objs) in
  store p (newStream astream);;
  pret (Some p).
Definition free (p : ptr) : U unit := pmodify (set_objects (delete p)).

(** [Camera::openDevice] and [Camera::close]. *)
Definition openDevice : U Z :=
  let* c := pgets camera in
  if mBusy c then pret (- EBUSY)
  else
    let* connectResult := on_device connect in
    if negb (connectResult =? 0) then pret connectResult
    else pmodify (set_camera (set_mBusy true));; pret 0.

Definition close : U Z :=
  let* c := pgets camera in
  if negb (mBusy c) then pret (- EINVAL)
  else
    on_device disconnect;;
    pmodify (set_camera (set_mBusy false));;
    pret 0.

(** [Camera::initialize]. *)
Definition initialize : U Z :=
  let* res := on_device initDevice in
  if negb (res =? 0) then pret res else pret 0.

(** [Camera::destroyStreams]. *)
Definition destroyStreams (streams : option (list slot)) (count : Z) : U unit :=
  match streams with
  | None => pret tt
  | Some a =>
      ufor (seq 0 (Z.to_nat count)) (fun i =>
        let* p := read_slot a i in
        match p with
        | None => pret tt
        | Some p =>
            let* st := deref p in
            if negb (mReuse st) then free p else pret tt
        end)
  end.

(** [Camera::reuseStream]. *)
Definition reuseStream (astream : camera3_stream_t) : U (option ptr) :=
  match priv astream with
  | None => undefined
  | Some p =>
      let* st := deref p in
      if negb (isValidReuseStream st astream) then pret None
      else store p (setReuse true st);; pret (Some p)
  end.

(** [Camera::isValidStreamSet]. *)
Fixpoint deref_all (a : list slot) (idx : list nat) : U (list Stream) :=
  match idx with
  | [] => pret []
  | i :: rest =>
      let* p := read_slot a i in
      match p with
      | None => undefined
      | Some p =>
          let* st := deref p in
          let* sts := deref_all a rest in
          pret (st :: sts)
      end
  end.

Definition count_if {A} (f : A -> bool) (l : list A) : Z :=
  Z.of_nat (length (filter (fun x => f x = true) l)).

Definition isValidStreamSet (streams : option (list slot)) (count : Z)
           (mode : Z) : U bool :=
  match streams with
  | None => pret false
  | Some a =>
      if count =? 0 then pret false
      else
        let* sts := deref_all a (seq 0 (Z.to_nat count)) in
        let inputs := count_if isInputType sts in
        let outputs := count_if isOutputType sts in
        if outputs <? 1 then pret false
        else if 1 <? inputs then pret false
        else
          let* d := pgets device in
          pret (isSupportedStreamSet d sts count mode)
  end.

(** [Camera::setupStreams].  [uninit i] is what the local variable
    [max_buffers] of iteration [i] holds before [setupStream] is
    called with its address. *)
Fixpoint setupStreams_loop (a : list slot) (idx : list nat)
         (uninit : nat -> Z) : U Z :=
  match idx with
  | [] => pret 0
  | i :: rest =>
      let* p := read_slot a i in
      match p with
      | None => undefined
      | Some p =>
          let* st := deref p in
          let usage := 0 in
          let usage := if isOutputType st
                       then Z.lor usage GRALLOC_USAGE_SW_WRITE_OFTEN
                       else usage in
          let usage := if isInputType st
                       then Z.lor usage GRALLOC_USAGE_SW_READ_OFTEN
                       else usage in
          let* '(res, max_buffers, st') :=
            on_device (setupStream (setUsage usage st) (uninit i)) in
          store p st';;
          if negb (res =? 0) then pret res
          else
            store p (setMaxBuffers max_buffers st');;
            setupStreams_loop a rest uninit
      end
  end.

Definition setupStreams (a : list slot) (count : Z) (uninit : nat -> Z) : U Z :=
  setupStreams_loop a (seq 0 (Z.to_nat count)) uninit.

(** The first two loops of [Camera::configureStreams]. *)
Definition mark_unused : U unit :=
  let* c := pgets camera in
  ufor (seq 0 (Z.to_nat (mNumStreams c))) (fun i =>
    match mStreams c with
    | None => undefined
    | Some a =>
        let* p := read_slot a i in
        match p with
        | None => undefined
        | Some p => let* st := deref p in store p (setReuse false st)
        end
    end).

(** Fills [newStreams] from index [i] on.  The result holds whether
    every stream was processed, the array, and the framework's
    streams with [priv] as the loop left it. *)
Fixpoint fill_streams (i : nat) (todo : list camera3_stream_t)
         (newStreams : list slot)
  : U (bool * list slot * list camera3_stream_t) :=
  match todo with
  | [] => pret (true, newStreams, [])
  | astream :: rest =>
      let* p := (if 0 <? max_buffers astream
                 then reuseStream astream
                 else allocStream astream) in
      let newStreams := <[i := Written p]> newStreams in
      match p with
      | None => pret (false, newStreams, astream :: rest)
      | Some _ =>
          let* '(ok, arr, rest') := fill_streams (S i) rest newStreams in
          pret (ok, arr, set_priv p astream :: rest')
      end
  end.

(** The label [err_out] of [Camera::configureStreams]. *)
Definition err_out (newStreams : list slot) (count : Z) (res : Z) : U Z :=
  destroyStreams (Some newStreams) count;;
  pret (if res =? 0 then - EINVAL else res).

(** [Camera::configureStreams].  The second component of the result
    is the configuration as the call leaves it to the framework. *)
Definition configureStreams
           (stream_config : option camera3_stream_configuration_t)
           (uninit : nat -> Z)
  : U (Z * option camera3_stream_configuration_t) :=
  pmodify (set_camera (set_mSettingsSet false));;
  match stream_config with
  | None => pret (- EINVAL, None)
  | Some cfg =>
      if num_streams cfg =? 0 then pret (- EINVAL, Some cfg)
      else
        let newStreams := replicate (length (streams cfg)) Indeterminate in
        mark_unused;;
        let* '(ok, newStreams, streams') :=
          fill_streams 0 (streams cfg) newStreams in
        let cfg' := Some (mkConfig streams' (operation_mode cfg)) in
        if negb ok then
          let* res := err_out newStreams (num_streams cfg) 0 in
          pret (res, cfg')
        else
          let* valid := isValidStreamSet (Some newStreams) (num_streams cfg)
                                         (operation_mode cfg) in
          if negb valid then
            let* res := err_out newStreams (num_streams cfg) 0 in
            pret (res, cfg')
          else
            let* res := setupStreams newStreams (num_streams cfg) uninit in
            if negb (res =? 0) then
              let* res := err_out newStreams (num_streams cfg) res in
              pret (res, cfg')
            else
              let* c := pgets camera in
              destroyStreams (mStreams c) (mNumStreams c);;
              pmodify (set_camera
                         (set_streams (Some newStreams) (num_streams cfg)));;
              pret (0, cfg')
  end.

(** [Camera::isValidTemplateType] and
    [Camera::constructDefaultRequestSettings]; [None] is the null
    pointer. *)
Definition isValidTemplateType (type : Z) : bool :=
  (0 <? type) && (type <? CAMERA3_TEMPLATE_COUNT).


(** [Camera::preprocessCaptureBuffer]; the second component is the
    buffer as the call leaves it. *)
Definition preprocessCaptureBuffer (buffer : camera3_stream_buffer_t)
  : Z * camera3_stream_buffer_t :=
  let res := if negb (acquire_fence buffer =? -1)
             then sync_wait (acquire_fence buffer) CAMERA_SYNC_TIMEOUT
             else 0 in
  if negb (acquire_fence buffer =? -1) && negb (res =? 0) then (res, buffer)
  else (0, mkStreamBuffer (sb_stream buffer) (sb_buffer buffer)
                          CAMERA3_BUFFER_STATUS_OK (-1) (-1)).

Fixpoint preprocess_all (bs : list camera3_stream_buffer_t)
  : Z * list camera3_stream_buffer_t :=
  match bs with
  | [] => (0, [])
  | b :: rest =>
      let (res, b') := preprocessCaptureBuffer b in
      if negb (res =? 0) then (res, b' :: rest)
      else let (r, rest') := preprocess_all rest in (r, b' :: rest')
  end.

(** [Camera::processCaptureRequest]; [None] is a null request. *)
Definition processCaptureRequest (temp_request : option CaptureRequest) : U Z :=
  match temp_request with
  | None => pret (- EINVAL)
  | Some request =>
      let* c := pgets camera in
      if isEmpty (settings request) && negb (mSettingsSet c)
      then pret (- EINVAL)
      else
        let* valid := on_device (isValidRequest request) in
        if negb valid then pret (- EINVAL)
        else
          pmodify (set_camera (set_mSettingsSet true));;
          if Z.of_nat (length (output_buffers request)) <=? 0
          then pret (- EINVAL)
          else
            let (res, buffers) := preprocess_all (output_buffers request) in
            if negb (res =? 0) then pret (- ENODEV)
            else
              let request := mkRequest (frame_number request)
                                       (settings request)
                                       (input_buffer request) buffers in
              on_device (enqueueRequest request);;
              pret 0
  end.

(** [Camera::notifyShutter]: the [int64_t] read from the settings is
    passed as the [uint64_t] parameter [timestamp]. *)
Definition notifyShutter (frame_number timestamp : Z) : U unit :=
  call_back (notify (CAMERA3_MSG_SHUTTER frame_number
                                         (to_uint64 timestamp))).

(** [Camera::sendResult]. *)
Definition sendResult (request : CaptureRequest) : U unit :=
  call_back (process_capture_result
               (mkResult (frame_number request) (settings request)
                         (Z.of_nat (length (output_buffers request)))
                         (output_buffers request) (input_buffer request) 1)).

(** [Camera::completeRequestWithError]. *)
Definition completeRequestWithError (request : CaptureRequest) : U unit :=
  call_back (notify (CAMERA3_MSG_ERROR (frame_number request) None
                                       CAMERA3_MSG_ERROR_REQUEST));;
  sendResult request.

(** [Camera::completeRequest]. *)
Definition completeRequest (request : CaptureRequest) (err : Z) : U unit :=
  if negb (err =? 0) then completeRequestWithError request
  else
    let (res, timestamp) :=
      SingleTagValue (settings request) ANDROID_SENSOR_TIMESTAMP in
    if negb (res =? 0) then completeRequestWithError request
    else
      notifyShutter (frame_number request) (default 0 timestamp);;
      sendResult request.

(** *** Vocabulary of the statements about the camera *)

Definition same_camera : relation HAL := fun s s' => camera s' = camera s.

Definition same_latch : relation HAL :=
  fun s s' => mSettingsSet (camera s') = mSettingsSet (camera s).

Definition same_objects : relation HAL := fun s s' => objects s' = objects s.

Definition same_streams : relation HAL :=
  fun s s' => dom (objects s') = dom (objects s).

(** The streams live at entry are [B].  While [newStreams] is filled
    up to slot [i] and set up, every stream outside [B] is a new one,
    not marked for reuse and held by a slot below [i], [B] stays live,
    and every slot that holds a stream of [B] holds one that is marked
    for reuse. *)
Definition tracked (B : gset ptr) (i : nat) (arr : list slot)
           (objs : gmap ptr Stream) : Prop :=
  B ⊆ dom objs /\
  (forall p st, objs !! p = Some st -> p ∉ B ->
                mReuse st = false /\
                exists j, (j < i)%nat /\ arr !! j = Some (Written (Some p))) /\
  (forall j p, arr !! j = Some (Written (Some p)) -> p ∈ B ->
               exists st, objs !! p = Some st /\ mReuse st = true).

(** [destroyStreams] over slots [k .. k+m): a stream outside [B] that
    is still live sits in a slot not yet visited. *)
Definition pending (B : gset ptr) (k : nat) (arr : list slot)
           (objs : gmap ptr Stream) : Prop :=
  B ⊆ dom objs /\
  (forall p st, objs !! p = Some st -> p ∉ B ->
                mReuse st = false /\
                exists j, (k <= j)%nat /\ arr !! j = Some (Written (Some p))) /\
  (forall j p, arr !! j = Some (Written (Some p)) -> p ∈ B ->
               exists st, objs !! p = Some st /\ mReuse st = true).

(** The camera's array holds [mNumStreams] streams that are live. *)
Definition streams_well_formed (s : HAL) : Prop :=
  match mStreams (camera s) with
  | None => mNumStreams (camera s) <= 0
  | Some a =>
      forall i, (i < Z.to_nat (mNumStreams (camera s)))%nat ->
                exists p, a !! i = Some (Written (Some p)) /\
                          p ∈ dom (objects s)
  end.

(** Every stream offered for reuse points to a stream that is live. *)
Definition offers_live_streams (cfg : option camera3_stream_configuration_t)
           (s : HAL) : Prop :=
  forall c a, cfg = Some c -> a ∈ streams c -> 0 < max_buffers a ->
              exists p, priv a = Some p /\ p ∈ dom (objects s).

(** [Camera::getInfo].  The static characteristics are built by the
    device on the first call and kept in [mStaticInfo]; the state is
    [mStaticInfo] with the device.  The second component of the result
    is [*info] as the call leaves it.  The two virtual methods it
    calls are arguments. *)
Definition getInfo {D : Type}
           (initDeviceInfo : camera_info -> camera_info)
           (initStaticInfo : P D (Z * CameraMetadata))
           (info : camera_info)
  : P (option CameraMetadata * D) (Z * camera_info) :=
  let info := set_device_version CAMERA_DEVICE_API_VERSION_3_4 info in
  let info := initDeviceInfo info in
  let* mStaticInfo := pgets fst in
  let* '(failed, static_info) :=
    match mStaticInfo with
    | Some m => pret (false, m)
    | None =>
        fun st =>
          match initStaticInfo st.2 with
          | None => None
          | Some ((res, static_info), d') =>
              if negb (res =? 0) then Some ((true, static_info), (None, d'))
              else Some ((false, static_info), (Some static_info, d'))
          end
    end in
  if failed then pret (- ENODEV, info)
  else
    let info := set_static_camera_characteristics (Some static_info) info in
    match SingleTagValue static_info ANDROID_LENS_FACING with
    | (0, Some facing) =>
        match
          (if facing =? ANDROID_LENS_FACING_FRONT then Some CAMERA_FACING_FRONT
           else if facing =? ANDROID_LENS_FACING_BACK then Some CAMERA_FACING_BACK
           else if facing =? ANDROID_LENS_FACING_EXTERNAL
                then Some CAMERA_FACING_EXTERNAL
           else None)
        with
        | None => pret (- ENODEV, info)
        | Some f =>
            let info := set_info_facing f info in
            match SingleTagValue static_info ANDROID_SENSOR_ORIENTATION with
            | (0, Some orientation) =>
                pret (0, set_info_orientation orientation info)
            | (res, _) => pret (res, info)
            end
        end
    | (res, _) => pret (res, info)
    end.

(** [Camera::templateToString]. *)
Definition templateToString (type : Z) : string :=
  if type =? CAMERA3_TEMPLATE_PREVIEW then "CAMERA3_TEMPLATE_PREVIEW"
  else if type =? CAMERA3_TEMPLATE_STILL_CAPTURE
  then "CAMERA3_TEMPLATE_STILL_CAPTURE"
  else if type =? CAMERA3_TEMPLATE_VIDEO_RECORD
  then "CAMERA3_TEMPLATE_VIDEO_RECORD"
  else if type =? CAMERA3_TEMPLATE_VIDEO_SNAPSHOT
  then "CAMERA3_TEMPLATE_VIDEO_SNAPSHOT"
  else if type =? CAMERA3_TEMPLATE_ZERO_SHUTTER_LAG
  then "CAMERA3_TEMPLATE_ZERO_SHUTTER_LAG"
  else "Invalid template type!".

(** A buffer as [preprocessCaptureBuffer] leaves it on success: the
    acquire fence waited for, no release fence, status OK. *)
Definition preprocessed (b : camera3_stream_buffer_t) : camera3_stream_buffer_t :=
  mkStreamBuffer (sb_stream b) (sb_buffer b) CAMERA3_BUFFER_STATUS_OK (-1) (-1).

End Camera.

End Cam.

(** ** The V4L2 camera ([v4l2_camera.cpp]) *)

Module V4L2Cam.
Import V4L2 Cam.

Definition HAL_PIXEL_FORMAT_BLOB : Z := 0x21.
Definition HAL_PIXEL_FORMAT_IMPLEMENTATION_DEFINED : Z := 0x22.
Definition HAL_PIXEL_FORMAT_YCbCr_420_888 : Z := 0x23.
Definition ANDROID_SCALER_AVAILABLE_STREAM_CONFIGURATIONS_OUTPUT : Z := 0.

Definition ANDROID_CONTROL_AF_MODE_OFF : Z := 0.
Definition ANDROID_CONTROL_AF_MODE_AUTO : Z := 1.
Definition ANDROID_CONTROL_AF_MODE_CONTINUOUS_VIDEO : Z := 3.
Definition ANDROID_CONTROL_AF_MODE_CONTINUOUS_PICTURE : Z := 4.

Definition ANDROID_CONTROL_CAPTURE_INTENT_PREVIEW : Z := 1.
Definition ANDROID_CONTROL_CAPTURE_INTENT_STILL_CAPTURE : Z := 2.
Definition ANDROID_CONTROL_CAPTURE_INTENT_VIDEO_RECORD : Z := 3.
Definition ANDROID_CONTROL_CAPTURE_INTENT_VIDEO_SNAPSHOT : Z := 4.

Inductive FormatCategory :=
| kFormatCategoryRaw | kFormatCategoryStalling | kFormatCategoryNonStalling
| kFormatCategoryUnknown.

(** What [v4l2_camera.cpp] asks of [StreamFormat] and of the wrapper
    beyond the methods above; their bodies are not part of the sources
    at hand.  The lists stand for the [std::set]s the queries fill, in
    iteration order. *)
Class FormatQueries `{KN : Kernel} `{GR : Gralloc} `{SF : StreamFormatOps} := {
  Category : StreamFormat -> FormatCategory;
  V4L2ToHalPixelFormat : Z -> Z;
  HalToV4L2PixelFormat : Z -> Z;
  GetFormats : M World (Z * list Z);
  GetFormatFrameSizes : Z -> M World (Z * list (Z * Z));
  GetFormatFrameDurationRange : Z -> Z * Z -> M World (Z * (Z * Z))
}.

(** Insertion into a [std::set<int32_t>], kept in ascending order. *)
Fixpoint set_insert (x : Z) (l : list Z) : list Z :=
  match l with
  | [] => [x]
  | y :: rest =>
      if x <? y then x :: y :: rest
      else if x =? y then y :: rest
      else y :: set_insert x rest
  end.

Definition set_mem (x : Z) (l : list Z) : bool := existsb (Z.eqb x) l.

(** [1000000000 / duration] in 64 bits, narrowed to [int32_t]; there is
    no value for a zero duration. *)
Definition fps_of_duration (duration : Z) : option Z :=
  if duration =? 0 then None
  else Some (to_int32 (Z.quot 1000000000 duration)).

(** The ranges pushed at the end of [initCharacteristics]. *)
Definition fps_ranges (min_yuv_fps max_yuv_fps : Z) : list (Z * Z) :=
  [(min_yuv_fps, max_yuv_fps); (max_yuv_fps, max_yuv_fps)]
    ++ (if 30 <? max_yuv_fps then [(30, 30)] else []).

(** The search of [initTemplates] for the ranges closest to (5, 30) and,
    among flat ranges, to (30, 30); [None] is an array never assigned. *)
Fixpoint select_fps_ranges (ranges : list (Z * Z))
         (best_flat best_variable : Z) (flat variable : option (Z * Z))
  : option (Z * Z) * option (Z * Z) :=
  match ranges with
  | [] => (flat, variable)
  | (r0, r1) :: rest =>
      let distance := Z.abs (r0 - 5) + Z.abs (r1 - 30) in
      let '(variable, best_variable) :=
        if distance <? best_variable then (Some (r0, r1), distance)
        else (variable, best_variable) in
      let distance := Z.abs (r0 - 30) + Z.abs (r1 - 30) in
      let '(flat, best_flat) :=
        if (r0 =? r1) && (distance <? best_flat) then (Some (r0, r1), distance)
        else (flat, best_flat) in
      select_fps_ranges rest best_flat best_variable flat variable
  end.

(** The switch of [initTemplates]: capture intent, AF mode and FPS range
    of a template, or [None] where the loop skips the id. *)
Definition template_overlay {R : Type} (template_id : Z)
           (still_af_mode video_af_mode : Z) (flat_fps_range variable_fps_range : R)
  : option (Z * Z * R) :=
  if template_id =? CAMERA3_TEMPLATE_PREVIEW then
    Some (ANDROID_CONTROL_CAPTURE_INTENT_PREVIEW, still_af_mode, flat_fps_range)
  else if template_id =? CAMERA3_TEMPLATE_STILL_CAPTURE then
    Some (ANDROID_CONTROL_CAPTURE_INTENT_STILL_CAPTURE, still_af_mode,
          variable_fps_range)
  else if template_id =? CAMERA3_TEMPLATE_VIDEO_RECORD then
    Some (ANDROID_CONTROL_CAPTURE_INTENT_VIDEO_RECORD, video_af_mode,
          flat_fps_range)
  else if template_id =? CAMERA3_TEMPLATE_VIDEO_SNAPSHOT then
    Some (ANDROID_CONTROL_CAPTURE_INTENT_VIDEO_SNAPSHOT, video_af_mode,
          flat_fps_range)
  else None.

Section V4L2Camera.
Context `{FQ : FormatQueries}.

(** The HAL's block of template defaults: the entries that the first
    part of [initTemplates] writes before the per-template loop. *)
Variable base_metadata : CameraMetadata.

Record V4L2Camera := mkV4L2Camera {
  mV4L2Device : World;
  mConnection : option Z;
  mTemplatesInitialized : bool;
  mCharacteristicsInitialized : bool;
  mMaxInputStreams : Z;
  mMaxRawOutputStreams : Z;
  mMaxStallingOutputStreams : Z;
  mMaxNonStallingOutputStreams : Z;
  mAfModes : list Z;
  mFpsRanges : list (Z * Z);
  mMaxFrameDuration : Z;
  mStreamConfigs : list (Z * Z * Z * Z);
  mMinFrameDurations : list (Z * Z * Z * Z);
  mStallDurations : list (Z * Z * Z * Z);
  templates_ : gmap Z CameraMetadata;
  request_queue_ : list CaptureRequest
}.

(** [V4L2Camera::V4L2Camera]. *)
Definition newV4L2Camera (w : World) : V4L2Camera :=
  mkV4L2Camera w None false false 0 0 0 0 [] [] 0 [] [] [] ∅ [].

Definition with_device (f : World -> World) (c : V4L2Camera) :=
  mkV4L2Camera (f (mV4L2Device c)) (mConnection c) (mTemplatesInitialized c)
    (mCharacteristicsInitialized c) (mMaxInputStreams c)
    (mMaxRawOutputStreams c) (mMaxStallingOutputStreams c)
    (mMaxNonStallingOutputStreams c) (mAfModes c) (mFpsRanges c)
    (mMaxFrameDuration c) (mStreamConfigs c) (mMinFrameDurations c)
    (mStallDurations c) (templates_ c) (request_queue_ c).

Definition set_mConnection (x : option Z) (c : V4L2Camera) :=
  mkV4L2Camera (mV4L2Device c) x (mTemplatesInitialized c)
    (mCharacteristicsInitialized c) (mMaxInputStreams c)
    (mMaxRawOutputStreams c) (mMaxStallingOutputStreams c)
    (mMaxNonStallingOutputStreams c) (mAfModes c) (mFpsRanges c)
    (mMaxFrameDuration c) (mStreamConfigs c) (mMinFrameDurations c)
    (mStallDurations c) (templates_ c) (request_queue_ c).

(** The assignments at the top of [initCharacteristics] to the members
    kept here. *)
Definition set_fixed_features (c : V4L2Camera) :=
  mkV4L2Camera (mV4L2Device c) (mConnection c) (mTemplatesInitialized c)
    (mCharacteristicsInitialized c) 0 0 1 2
    (mAfModes c ++ [ANDROID_CONTROL_AF_MODE_OFF]) (mFpsRanges c)
    (mMaxFrameDuration c) (mStreamConfigs c) (mMinFrameDurations c)
    (mStallDurations c) (templates_ c) (request_queue_ c).

Definition set_mMaxFrameDuration (d : Z) (c : V4L2Camera) :=
  mkV4L2Camera (mV4L2Device c) (mConnection c) (mTemplatesInitialized c)
    (mCharacteristicsInitialized c) (mMaxInputStreams c)
    (mMaxRawOutputStreams c) (mMaxStallingOutputStreams c)
    (mMaxNonStallingOutputStreams c) (mAfModes c) (mFpsRanges c)
    d (mStreamConfigs c) (mMinFrameDurations c)
    (mStallDurations c) (templates_ c) (request_queue_ c).

(** The three [push_back]s of one frame size. *)
Definition push_size (hal_format : Z) (size : Z * Z)
           (min_frame_duration stall_duration : Z) (c : V4L2Camera) :=
  mkV4L2Camera (mV4L2Device c) (mConnection c) (mTemplatesInitialized c)
    (mCharacteristicsInitialized c) (mMaxInputStreams c)
    (mMaxRawOutputStreams c) (mMaxStallingOutputStreams c)
    (mMaxNonStallingOutputStreams c) (mAfModes c) (mFpsRanges c)
    (mMaxFrameDuration c)
    (mStreamConfigs c ++
       [(hal_format, size.1, size.2,
         ANDROID_SCALER_AVAILABLE_STREAM_CONFIGURATIONS_OUTPUT)])
    (mMinFrameDurations c ++ [(hal_format, size.1, size.2, min_frame_duration)])
    (mStallDurations c ++ [(hal_format, size.1, size.2, stall_duration)])
    (templates_ c) (request_queue_ c).

Definition finish_characteristics (ranges : list (Z * Z)) (c : V4L2Camera) :=
  mkV4L2Camera (mV4L2Device c) (mConnection c) (mTemplatesInitialized c)
    true (mMaxInputStreams c)
    (mMaxRawOutputStreams c) (mMaxStallingOutputStreams c)
    (mMaxNonStallingOutputStreams c) (mAfModes c) (mFpsRanges c ++ ranges)
    (mMaxFrameDuration c) (mStreamConfigs c) (mMinFrameDurations c)
    (mStallDurations c) (templates_ c) (request_queue_ c).

Definition set_templates (t : gmap Z CameraMetadata) (b : bool) (c : V4L2Camera) :=
  mkV4L2Camera (mV4L2Device c) (mConnection c) b
    (mCharacteristicsInitialized c) (mMaxInputStreams c)
    (mMaxRawOutputStreams c) (mMaxStallingOutputStreams c)
    (mMaxNonStallingOutputStreams c) (mAfModes c) (mFpsRanges c)
    (mMaxFrameDuration c) (mStreamConfigs c) (mMinFrameDurations c)
    (mStallDurations c) t (request_queue_ c).

Definition push_request (r : CaptureRequest) (c : V4L2Camera) :=
  mkV4L2Camera (mV4L2Device c) (mConnection c) (mTemplatesInitialized c)
    (mCharacteristicsInitialized c) (mMaxInputStreams c)
    (mMaxRawOutputStreams c) (mMaxStallingOutputStreams c)
    (mMaxNonStallingOutputStreams c) (mAfModes c) (mFpsRanges c)
    (mMaxFrameDuration c) (mStreamConfigs c) (mMinFrameDurations c)
    (mStallDurations c) (templates_ c) (request_queue_ c ++ [r]).

(** A call of a wrapper method on [mV4L2Device]. *)
Definition on_wrapper {A} (c : M World A) : P V4L2Camera A :=
  fun s => let (a, w') := c (mV4L2Device s) in
           Some (a, with_device (fun _ => w') s).

Local Open Scope part_scope.

(** [V4L2Wrapper::Connection] connects when it is built, keeps the
    result as its status, and disconnects when it is destroyed if the
    connection had succeeded. *)
Definition Connection_new : P V4L2Camera Z := on_wrapper Connect.
Definition Connection_delete (status : Z) : P V4L2Camera unit :=
  if status =? 0 then on_wrapper Disconnect else pret tt.

(** [V4L2Camera::connect] and [V4L2Camera::disconnect]. *)
Definition connect : P V4L2Camera Z :=
  let* c := pgets id in
  match mConnection c with
  | Some _ => pret (- EIO)
  | None =>
      let* status := Connection_new in
      pmodify (set_mConnection (Some status));;
      if negb (status =? 0) then pret status else pret 0
  end.

Definition disconnect : P V4L2Camera unit :=
  let* c := pgets id in
  match mConnection c with
  | Some status =>
      Connection_delete status;; pmodify (set_mConnection None)
  | None => pret tt
  end.

(** The loop of [initCharacteristics] over the frame sizes of one
    format; the result carries the error, if any, and the running
    [min_yuv_frame_duration]. *)
Fixpoint frame_sizes_loop (hal_format v4l2_format : Z)
         (frame_sizes : list (Z * Z)) (min_yuv_frame_duration : Z)
  : P V4L2Camera (Z * Z) :=
  match frame_sizes with
  | [] => pret (0, min_yuv_frame_duration)
  | frame_size :: rest =>
      let* '(res, duration_range) :=
        on_wrapper (GetFormatFrameDurationRange v4l2_format frame_size) in
      if negb (res =? 0) then
        pmodify (fun c =>
          mkV4L2Camera (mV4L2Device c) (mConnection c)
            (mTemplatesInitialized c) (mCharacteristicsInitialized c)
            (mMaxInputStreams c) (mMaxRawOutputStreams c)
            (mMaxStallingOutputStreams c) (mMaxNonStallingOutputStreams c)
            (mAfModes c) (mFpsRanges c) (mMaxFrameDuration c)
            (mStreamConfigs c ++
               [(hal_format, frame_size.1, frame_size.2,
                 ANDROID_SCALER_AVAILABLE_STREAM_CONFIGURATIONS_OUTPUT)])
            (mMinFrameDurations c) (mStallDurations c) (templates_ c)
            (request_queue_ c));;
        pret (res, min_yuv_frame_duration)
      else
        let min_frame_duration := duration_range.1 in
        let max_frame_duration := duration_range.2 in
        let* c := pgets id in
        (if max_frame_duration <? mMaxFrameDuration c
         then pmodify (set_mMaxFrameDuration max_frame_duration)
         else pret tt);;
        let min_yuv_frame_duration :=
          if (hal_format =? HAL_PIXEL_FORMAT_YCbCr_420_888)
             && (min_frame_duration <? min_yuv_frame_duration)
          then min_frame_duration else min_yuv_frame_duration in
        let stall_duration :=
          if hal_format =? HAL_PIXEL_FORMAT_BLOB then 1000000000 else 0 in
        pmodify (push_size hal_format frame_size min_frame_duration
                           stall_duration);;
        frame_sizes_loop hal_format v4l2_format rest min_yuv_frame_duration
  end.

(** The loop of [initCharacteristics] over the HAL formats. *)
Fixpoint formats_loop (hal_formats : list Z) (min_yuv_frame_duration : Z)
  : P V4L2Camera (Z * Z) :=
  match hal_formats with
  | [] => pret (0, min_yuv_frame_duration)
  | hal_format :: rest =>
      let v4l2_format := HalToV4L2PixelFormat hal_format in
      if v4l2_format =? 0 then pret (- ENODEV, min_yuv_frame_duration)
      else
        let* '(res, frame_sizes) :=
          on_wrapper (GetFormatFrameSizes v4l2_format) in
        if negb (res =? 0) then pret (res, min_yuv_frame_duration)
        else
          let* '(res, min_yuv_frame_duration) :=
            frame_sizes_loop hal_format v4l2_format frame_sizes
                             min_yuv_frame_duration in
          if negb (res =? 0) then pret (res, min_yuv_frame_duration)
          else formats_loop rest min_yuv_frame_duration
  end.

Definition hal_formats_of (v4l2_formats : list Z) : list Z :=
  set_insert HAL_PIXEL_FORMAT_IMPLEMENTATION_DEFINED
    (fold_left (fun acc v4l2_format =>
                  let hal_format := V4L2ToHalPixelFormat v4l2_format in
                  if hal_format <? 0 then acc else set_insert hal_format acc)
               v4l2_formats []).

(** [initCharacteristics] from the point where the temporary
    connection is up. *)
Definition initCharacteristics_connected : P V4L2Camera Z :=
  let* '(res, v4l2_formats) := on_wrapper GetFormats in
  if negb (res =? 0) then pret res
  else
    let hal_formats := hal_formats_of v4l2_formats in
    if negb (set_mem HAL_PIXEL_FORMAT_YCbCr_420_888 hal_formats)
    then pret (- ENODEV)
    else if negb (set_mem HAL_PIXEL_FORMAT_BLOB hal_formats)
    then pret (- ENODEV)
    else
      pmodify (set_mMaxFrameDuration INT64_MAX);;
      let* '(res, min_yuv_frame_duration) :=
        formats_loop hal_formats INT64_MAX in
      if negb (res =? 0) then pret res
      else
        let* c := pgets id in
        match fps_of_duration (mMaxFrameDuration c) with
        | None => undefined
        | Some min_yuv_fps =>
            if 15 <? min_yuv_fps then pret (- ENODEV)
            else
              match fps_of_duration min_yuv_frame_duration with
              | None => undefined
              | Some max_yuv_fps =>
                  pmodify (finish_characteristics
                             (fps_ranges min_yuv_fps max_yuv_fps));;
                  pret 0
              end
        end.

(** [V4L2Camera::initCharacteristics]. *)
Definition initCharacteristics : P V4L2Camera Z :=
  pmodify set_fixed_features;;
  let* status := Connection_new in
  if negb (status =? 0) then pret status
  else
    let* res := initCharacteristics_connected in
    Connection_delete status;;
    pret res.

(** The counting loop of [isSupportedStreamSet]: input, raw, stalling
    and non-stalling streams, or [None] at a format of no known
    category.  A raw stream falls through to the stalling case. *)
Fixpoint count_streams (sts : list Stream) (acc : Z * Z * Z * Z)
  : option (Z * Z * Z * Z) :=
  match sts with
  | [] => Some acc
  | stream :: rest =>
      let '(num_input, num_raw, num_stalling, num_non_stalling) := acc in
      let num_input := if isInputType stream then num_input + 1 else num_input in
      if isOutputType stream then
        match Category (StreamFormat_of_stream stream) with
        | kFormatCategoryRaw =>
            count_streams rest
              (num_input, num_raw + 1, num_stalling + 1, num_non_stalling)
        | kFormatCategoryStalling =>
            count_streams rest
              (num_input, num_raw, num_stalling + 1, num_non_stalling)
        | kFormatCategoryNonStalling =>
            count_streams rest
              (num_input, num_raw, num_stalling, num_non_stalling + 1)
        | kFormatCategoryUnknown => None
        end
      else count_streams rest (num_input, num_raw, num_stalling, num_non_stalling)
  end.

(** The last loop of [isSupportedStreamSet]: every stream has the
    format and size of stream 0. *)
Definition same_configuration (first : Stream) (others : list Stream) : bool :=
  forallb (fun stream =>
             negb (negb (mFormat stream =? mFormat first)
                   || negb (mWidth stream =? mWidth first)
                   || negb (mHeight stream =? mHeight first)))
          others.

(** [V4L2Camera::isSupportedStreamSet]. *)
Definition isSupportedStreamSet (c : V4L2Camera) (sts : list Stream)
           (count mode : Z) : bool :=
  if negb (mode =? CAMERA3_STREAM_CONFIGURATION_NORMAL_MODE) then false
  else if count <? 1 then false
  else
    match count_streams sts (0, 0, 0, 0) with
    | None => false
    | Some (num_input, num_raw, num_stalling, num_non_stalling) =>
        if (mMaxInputStreams c <? num_input)
           || (mMaxRawOutputStreams c <? num_raw)
           || (mMaxStallingOutputStreams c <? num_stalling)
           || (mMaxNonStallingOutputStreams c <? num_non_stalling)
        then false
        else
          match sts with
          | [] => false
          | first :: others => same_configuration first others
          end
    end.

(** [V4L2Camera::setupStream]; the result carries [*max_buffers] and
    the stream as the call leaves them. *)
Definition setupStream (stream : Stream) (max_buffers : Z)
  : P V4L2Camera (Z * Z * Stream) :=
  if negb (mRotation stream =? CAMERA3_STREAM_ROTATION_0)
  then pret (- EINVAL, max_buffers, stream)
  else
    let stream := setDataSpace HAL_DATASPACE_V0_JFIF stream in
    let* '(res, max_buffers) := on_wrapper (SetFormat stream max_buffers) in
    if negb (res =? 0) then pret (res, max_buffers, stream)
    else if max_buffers <? 1 then pret (- ENODEV, max_buffers, stream)
    else pret (0, max_buffers, stream).

(** [V4L2Camera::isValidCaptureSettings] accepts every request. *)
Definition isValidRequest (request : CaptureRequest) : P V4L2Camera bool :=
  pret true.

(** Modelled from the spec: [V4L2Camera::enqueueRequest], declared in
    [v4l2_camera.h] beside [request_queue_], whose body is missing;
    it "enqueues the request internally; returns immediately". *)
Definition enqueueRequest (request : CaptureRequest) : P V4L2Camera Z :=
  pmodify (push_request request);; pret 0.

(** The AF modes picked by [initTemplates] for still and for video
    templates; [None] when [mAfModes] has no first element. *)
Definition select_af_modes (af_modes : list Z) : option (Z * Z) :=
  match af_modes with
  | [] => None
  | first :: _ =>
      let non_continuous_af_mode :=
        if set_mem ANDROID_CONTROL_AF_MODE_AUTO af_modes
        then ANDROID_CONTROL_AF_MODE_AUTO
        else if set_mem ANDROID_CONTROL_AF_MODE_OFF af_modes
        then ANDROID_CONTROL_AF_MODE_OFF
        else first in
      Some (if set_mem ANDROID_CONTROL_AF_MODE_CONTINUOUS_PICTURE af_modes
            then ANDROID_CONTROL_AF_MODE_CONTINUOUS_PICTURE
            else non_continuous_af_mode,
            if set_mem ANDROID_CONTROL_AF_MODE_CONTINUOUS_VIDEO af_modes
            then ANDROID_CONTROL_AF_MODE_CONTINUOUS_VIDEO
            else non_continuous_af_mode)
  end.

(** Modelled from the spec: [Camera::setTemplate], which
    [initTemplates] calls and whose body is missing; the template is
    kept for the queries that follow. *)
Definition setTemplate (template_id : Z) (t : CameraMetadata) : P V4L2Camera Z :=
  pmodify (fun c => set_templates (<[template_id := t]> (templates_ c))
                                  (mTemplatesInitialized c) c);;
  pret 0.

(** The loop of [initTemplates] over the template ids. *)
Fixpoint templates_loop (ids : list Z) (still_af_mode video_af_mode : Z)
         (flat_fps_range variable_fps_range : option (Z * Z))
  : P V4L2Camera Z :=
  match ids with
  | [] => pret 0
  | template_id :: rest =>
      match template_overlay template_id still_af_mode video_af_mode
                             flat_fps_range variable_fps_range with
      | None =>
          templates_loop rest still_af_mode video_af_mode
                         flat_fps_range variable_fps_range
      | Some (_, _, None) => undefined
      | Some (intent, af_mode, Some (lo, hi)) =>
          let template_metadata :=
            <[ANDROID_CONTROL_AF_MODE := [af_mode]]>
              (<[ANDROID_CONTROL_AE_TARGET_FPS_RANGE := [lo; hi]]>
                 (<[ANDROID_CONTROL_CAPTURE_INTENT := [intent]]>
                    base_metadata)) in
          let* res := setTemplate template_id template_metadata in
          if negb (res =? 0) then pret res
          else templates_loop rest still_af_mode video_af_mode
                              flat_fps_range variable_fps_range
      end
  end.

Definition template_ids : list Z :=
  map Z.of_nat (seq 1 (Z.to_nat (CAMERA3_TEMPLATE_COUNT - 1))).

(** [V4L2Camera::initTemplates]. *)
Definition initTemplates : P V4L2Camera Z :=
  let* c := pgets id in
  let* res := (if negb (mCharacteristicsInitialized c)
               then initCharacteristics else pret 0) in
  if negb (res =? 0) then pret res
  else
    let* c := pgets id in
    let '(flat_fps_range, variable_fps_range) :=
      select_fps_ranges (mFpsRanges c) INT32_MAX INT32_MAX None None in
    match select_af_modes (mAfModes c) with
    | None => undefined
    | Some (still_af_mode, video_af_mode) =>
        let* res := templates_loop template_ids still_af_mode video_af_mode
                                   flat_fps_range variable_fps_range in
        if negb (res =? 0) then pret res
        else
          pmodify (fun c => set_templates (templates_ c) true c);;
          pret 0
    end.

(** [V4L2Camera::initDevice]. *)
Definition initDevice : P V4L2Camera Z :=
  let* c := pgets id in
  if negb (mTemplatesInitialized c) then
    let* res := initTemplates in
    if negb (res =? 0) then pret res else pret 0
  else pret 0.

(** Modelled from the spec: [V4L2Camera::initTemplate(type, out)],
    declared in [v4l2_camera.h], whose body is missing.  The templates
    are those [initTemplates] builds; an id its loop skips has none,
    so that "a query for them returns absent". *)
Definition initTemplate (type : Z) : P V4L2Camera (Z * CameraMetadata) :=
  let* res := initDevice in
  if negb (res =? 0) then pret (res, ∅)
  else
    let* c := pgets id in
    match templates_ c !! type with
    | Some t => pret (0, t)
    | None => pret (- EINVAL, ∅)
    end.

#[export] Instance V4L2CameraDevice : CameraDevice := {|
  Cam.dstate := V4L2Camera;
  Cam.connect := connect;
  Cam.disconnect := disconnect;
  Cam.initDevice := initDevice;
  Cam.initTemplate := initTemplate;
  Cam.isSupportedStreamSet := isSupportedStreamSet;
  Cam.setupStream := setupStream;
  Cam.isValidRequest := isValidRequest;
  Cam.enqueueRequest := enqueueRequest
|}.

(** [V4L2Camera::enqueueBuffer]: one buffer through the device,
    synchronously; [enqueueBuffer_on] is the sequence of calls on
    [mV4L2Device]. *)
Definition enqueueBuffer_on (camera_buffer : Z) : M World Z :=
  (let* res := EnqueueBuffer camera_buffer in
   if negb (res =? 0) then ret res
   else
     let* res := StreamOn in
     if negb (res =? 0) then ret res
     else
       let* '(res, _) := DequeueBuffer in
       if negb (res =? 0) then ret res
       else
         let* res := StreamOff in
         if negb (res =? 0) then ret res else ret 0)%hal.

Definition enqueueBuffer (camera_buffer : Z) : P V4L2Camera Z :=
  on_wrapper (enqueueBuffer_on camera_buffer).

(** [V4L2Camera::getResultSettings]: the timestamp is spoofed to 1;
    the result carries the metadata and [*timestamp]. *)
Definition getResultSettings (metadata : CameraMetadata)
  : Z * CameraMetadata * Z :=
  let frame_time := 1 in
  (0, <[ANDROID_SENSOR_TIMESTAMP := [frame_time]]> metadata, frame_time).

(** *** Vocabulary of the statements about the V4L2 camera *)

(** The distances that [initTemplates] minimizes: of a range to the
    desired variable range (5, 30) and to the desired flat range
    (30, 30). *)
Definition variable_distance (r : Z * Z) : Z := Z.abs (r.1 - 5) + Z.abs (r.2 - 30).
Definition flat_distance (r : Z * Z) : Z := Z.abs (r.1 - 30) + Z.abs (r.2 - 30).

Definition same_templates : relation V4L2Camera :=
  fun d d' => templates_ d' = templates_ d.

Definition same_template_at (k : Z) : relation V4L2Camera :=
  fun d d' => templates_ d' !! k = templates_ d !! k.

Definition same_flag : relation V4L2Camera :=
  fun d d' => mTemplatesInitialized d' = mTemplatesInitialized d.

(** The ids for which the switch of [initTemplates] builds nothing. *)
Definition unsupported_template (type : Z) : Prop :=
  type = CAMERA3_TEMPLATE_ZERO_SHUTTER_LAG \/ type = CAMERA3_TEMPLATE_MANUAL.

Definition supported_template (type : Z) : Prop :=
  CAMERA3_TEMPLATE_PREVIEW <= type <= CAMERA3_TEMPLATE_VIDEO_SNAPSHOT.

(** The device's templates are consistent: once [initTemplates] has
    run to its end, every supported id has a template. *)
Definition templates_consistent (d : V4L2Camera) : Prop :=
  mTemplatesInitialized d = true ->
  forall type, supported_template type -> is_Some (templates_ d !! type).

(** What holds of the templates in every state of the HAL: no
    template of an unsupported id is cached or built, and the device's
    templates are consistent. *)
Definition templates_ok (s : HAL) : Prop :=
  (forall k, unsupported_template k ->
             mTemplates (camera s) !! k = None /\
             templates_ (device s) !! k = None) /\
  templates_consistent (device s).

(** The frame durations that [initCharacteristics] reads from the
    device: the queries of its two loops, made in the same order on
    the same device, with the result of the last query and the ranges
    of the queries that succeeded. *)
Fixpoint size_durations (v4l2_format : Z) (frame_sizes : list (Z * Z))
         (w : World) : Z * list (Z * Z) * World :=
  match frame_sizes with
  | [] => (0, [], w)
  | frame_size :: rest =>
      let '((res, duration_range), w1) :=
        GetFormatFrameDurationRange v4l2_format frame_size w in
      if negb (res =? 0) then (res, [], w1)
      else
        let '(res', ranges, w2) := size_durations v4l2_format rest w1 in
        (res', duration_range :: ranges, w2)
  end.

Fixpoint format_durations (hal_formats : list Z) (w : World)
  : Z * list (Z * (Z * Z)) * World :=
  match hal_formats with
  | [] => (0, [], w)
  | hal_format :: rest =>
      let v4l2_format := HalToV4L2PixelFormat hal_format in
      if v4l2_format =? 0 then (- ENODEV, [], w)
      else
        let '((res, frame_sizes), w1) := GetFormatFrameSizes v4l2_format w in
        if negb (res =? 0) then (res, [], w1)
        else
          let '(res, ranges, w2) :=
            size_durations v4l2_format frame_sizes w1 in
          let here := map (pair hal_format) ranges in
          if negb (res =? 0) then (res, here, w2)
          else
            let '(res', entries, w3) := format_durations rest w2 in
            (res', here ++ entries, w3)
  end.

(** The entries of the YCbCr_420_888 format. *)
Definition yuv_entries (entries : list (Z * (Z * Z))) : list (Z * (Z * Z)) :=
  filter (fun e => e.1 = HAL_PIXEL_FORMAT_YCbCr_420_888) entries.

Definition smallest (l : list Z) : Z := fold_left Z.min l INT64_MAX.
Definition largest (l : list Z) : Z := fold_left Z.max l 0.

(** The smallest maximum frame duration among all formats and sizes,
    and the smallest minimum frame duration among the sizes of
    YCbCr_420_888. *)
Definition smallest_max_duration (entries : list (Z * (Z * Z))) : Z :=
  smallest (map (fun e => e.2.2) entries).
Definition smallest_min_yuv_duration (entries : list (Z * (Z * Z))) : Z :=
  smallest (map (fun e => e.2.1) (yuv_entries entries)).

(** The minimum and the maximum frame rate of YCbCr_420_888 as the
    durations of that format alone give them: the rate of its longest
    and of its shortest frame duration. *)
Definition yuv_min_frame_rate (entries : list (Z * (Z * Z))) : Z :=
  Z.quot 1000000000 (largest (map (fun e => e.2.2) (yuv_entries entries))).
Definition yuv_max_frame_rate (entries : list (Z * (Z * Z))) : Z :=
  Z.quot 1000000000 (smallest (map (fun e => e.2.1) (yuv_entries entries))).

End V4L2Camera.

End V4L2Cam.

(** ** Menu options ([menu_control_options.h], known through its tests) *)

Module Menu.

Section MenuControlOptions.
Context {T : Type} `{EqDecision T}.

Record MenuControlOptions := mkMenu { options_ : list T }.

Definition MetadataRepresentation (m : MenuControlOptions) : list T :=
  options_ m.

Definition IsSupported (m : MenuControlOptions) (option : T) : bool :=
  bool_decide (option ∈ options_ m).

(** The default of a template is implementation-defined per template
    id: [pick] is the implementation's choice of a position in the
    list, taken modulo its length. *)
Variable pick : Z -> nat.

(** Modelled from the spec: [MenuControlOptions::DefaultValueForTemplate],
    whose header is missing.  "Its default-for-template is
    implementation-defined per template id; when the option set is
    empty, every template returns NoDevice."  The second component is
    [*default_value] as the call leaves it. *)
Definition DefaultValueForTemplate (m : MenuControlOptions)
           (template_type : Z) (default_value : T) : Z * T :=
  match options_ m with
  | [] => (- ENODEV, default_value)
  | first :: _ =>
      (0, nth (pick template_type mod length (options_ m))%nat (options_ m) first)
  end.

End MenuControlOptions.

End Menu.

(** ** Controls ([control.h], known through [control_test.cpp]) *)

Module Ctrl.

(** What a control does to its collaborators, in order. *)
Inductive call :=
| IsSupported_called (value : Z)
| SetValue_called (value : Z)
| GetValue_called.

Definition is_SetValue (c : call) : bool :=
  match c with SetValue_called _ => true | _ => false end.

(** [ControlDelegateInterface]: the backend that reads and writes the
    device. *)
Class ControlDelegate := {
  delegate_state : Type;
  GetValue : delegate_state -> (Z * Z) * delegate_state;
  SetValue : Z -> delegate_state -> Z * delegate_state
}.

(** [ControlOptionsInterface]. *)
Record ControlOptions := mkOptions {
  IsSupported : Z -> bool;
  MetadataRepresentation : list Z;
  DefaultValueForTemplate : Z -> Z * Z
}.

Section Control.
Context `{DG : ControlDelegate}.

(** A control: a tagged delegate and, when it was given, tagged
    options. *)
Record Control := mkControlT {
  delegate_tag : Z;
  options : option (Z * ControlOptions)
}.

(** The device behind the delegate, and the calls made so far (most
    recent first). *)
Record ControlWorld := mkControlWorld {
  device_state : delegate_state;
  calls : list call
}.

Definition log_call (c : call) : M ControlWorld unit :=
  modify (fun w => mkControlWorld (device_state w) (c :: calls w)).

Definition call_IsSupported (o : ControlOptions) (v : Z) : M ControlWorld bool :=
  bind (log_call (IsSupported_called v)) (fun _ => ret (IsSupported o v)).

Definition call_SetValue (v : Z) : M ControlWorld Z :=
  fun w =>
    let (r, d') := SetValue v (device_state w) in
    (r, mkControlWorld d' (SetValue_called v :: calls w)).

Definition call_GetValue : M ControlWorld (Z * Z) :=
  fun w =>
    let (r, d') := GetValue (device_state w) in
    (r, mkControlWorld d' (GetValue_called :: calls w)).

Local Open Scope hal_scope.

(** Modelled from the spec: [Control::SupportsRequestValues], whose
    header is missing.  It "returns true iff the request's values for
    this component's control tags are all within the supported option
    set, and the value-count matches the expected arity (typically 1).
    Missing tags are treated as no request".  A control built without
    options checks the count only, as the tests have it. *)
Definition SupportsRequestValues (c : Control) (metadata : CameraMetadata)
  : M ControlWorld bool :=
  match SingleTagValue metadata (delegate_tag c) with
  | (0, Some requested) =>
      match options c with
      | Some (_, o) => call_IsSupported o requested
      | None => ret true
      end
  | (res, _) => ret (res =? - ENOENT)
  end.

(** Modelled from the spec: [Control::SetRequestValues], whose header
    is missing.  It "validates via supports_request_values then writes
    through"; it "fails with InvalidArgument if unsupported", and a
    failed write hands back what the delegate returned, as the test
    [SetRequestSettingFail] has it. *)
Definition SetRequestValues (c : Control) (metadata : CameraMetadata)
  : M ControlWorld Z :=
  let* supported := SupportsRequestValues c metadata in
  if negb supported then ret (- EINVAL)
  else
    match SingleTagValue metadata (delegate_tag c) with
    | (0, Some requested) => call_SetValue requested
    | _ => ret 0
    end.

(** Modelled from the spec: [Control::PopulateDynamicFields], whose
    header is missing; it writes the current value of the delegate's
    tag, and "fails ... when the read fails". *)
Definition PopulateDynamicFields (c : Control) (metadata : CameraMetadata)
  : M ControlWorld (Z * CameraMetadata) :=
  let* '(res, value) := call_GetValue in
  if negb (res =? 0) then ret (res, metadata)
  else ret (0, <[delegate_tag c := [value]]> metadata).

(** *** Vocabulary of the statements about controls *)

(** Whether the options of [c], if it has any, accept [v]. *)
Definition accepts (c : Control) (v : Z) : bool :=
  match options c with
  | Some (_, o) => IsSupported o v
  | None => true
  end.

(** The calls of [SetValue] made so far. *)
Definition writes (w : ControlWorld) : list call :=
  List.filter is_SetValue (calls w).

End Control.

(** The mock delegate of the tests: [SetValue] returns what the test
    told it to; its state is the list of the values handed to it. *)
Definition MockDelegate (set_result : Z) : ControlDelegate := {|
  delegate_state := list Z;
  GetValue := fun d => ((0, hd 0 d), d);
  SetValue := fun v d => (set_result, v :: d)
|}.

Definition MockOptions (supported : Z -> bool) : ControlOptions :=
  mkOptions supported [] (fun _ => (0, 0)).

End Ctrl.

(** ** Concrete devices

    A scripted driver, a gralloc helper that always succeeds and a
    stream format of four compared members, to run the methods on. *)

Module Sample.
Import V4L2 Cam V4L2Cam.

(** The driver answers the ioctls with the replies of its script, in
    order, and with success (the structure unchanged) once the script is
    used up; [open] yields descriptor 3. *)
Definition ScriptedKernel : Kernel := {|
  kstate := list ioctl_reply;
  sys_open := fun k => (inl 3, k);
  sys_ioctl := fun k _ _ data =>
    match k with
    | [] => (mkReply 0 None data, [])
    | reply :: rest => (reply, rest)
    end
|}.

Definition PlainGralloc : Gralloc := {|
  gstate := unit;
  gralloc_lock := fun g _ _ b => ((0, b), g);
  gralloc_unlock := fun g _ => (0, g);
  gralloc_unlockAllBuffers := fun g => (0, g)
|}.

Definition V4L2_BUF_TYPE_VIDEO_CAPTURE : Z := 1.

Definition format_eqb (a b : v4l2_format) : bool :=
  (fmt_type a =? fmt_type b) && (fmt_pixelformat a =? fmt_pixelformat b)
  && (fmt_width a =? fmt_width b) && (fmt_height a =? fmt_height b).

Definition PlainStreamFormat : StreamFormatOps := {|
  StreamFormat := v4l2_format;
  StreamFormat_of_stream := fun s =>
    mkFormat V4L2_BUF_TYPE_VIDEO_CAPTURE (mFormat s) (mWidth s) (mHeight s) 0;
  StreamFormat_of_v4l2 := fun f => f;
  sf_eqb := format_eqb;
  sf_type := fmt_type;
  sf_bytes_per_line := fmt_bytesperline;
  FillFormatRequest := fun f => f
|}.

Definition plain_category (f : v4l2_format) : FormatCategory :=
  if fmt_pixelformat f =? HAL_PIXEL_FORMAT_BLOB then kFormatCategoryStalling
  else if (fmt_pixelformat f =? HAL_PIXEL_FORMAT_YCbCr_420_888)
          || (fmt_pixelformat f =? HAL_PIXEL_FORMAT_IMPLEMENTATION_DEFINED)
  then kFormatCategoryNonStalling
  else kFormatCategoryUnknown.

(** A device that reports the pixel formats [formats], one frame size
    per format, and the frame durations of [durations]. *)
Definition TableQueries (formats : list Z) (durations : Z -> Z * Z)
  : @FormatQueries ScriptedKernel PlainGralloc PlainStreamFormat :=
  @Build_FormatQueries ScriptedKernel PlainGralloc PlainStreamFormat
    plain_category
    (fun f => f)
    (fun f => f)
    (ret (0, formats))
    (fun _ => ret (0, [(640, 480)]))
    (fun f _ => ret (0, durations f)).

Definition disconnected_wrapper : @V4L2Wrapper PlainStreamFormat :=
  mkWrapper None None 0 false.

Definition fresh_world (script : list ioctl_reply)
  : @World ScriptedKernel PlainGralloc PlainStreamFormat :=
  @mkWorld ScriptedKernel PlainGralloc PlainStreamFormat
           disconnected_wrapper script tt 0 [].

Definition connected_world (script : list ioctl_reply)
  : @World ScriptedKernel PlainGralloc PlainStreamFormat :=
  @mkWorld ScriptedKernel PlainGralloc PlainStreamFormat
           (mkWrapper (Some 3) None 0 false) script tt 0 [].

(** A 640x480 YCbCr_420_888 output stream. *)
Definition yuv_stream : Stream :=
  mkStream false CAMERA3_STREAM_OUTPUT 640 480 HAL_PIXEL_FORMAT_YCbCr_420_888
           0 0 0 0.

Definition PlainSync : Sync := {| sync_wait := fun _ _ => 0 |}.

(** A driver whose ranges of frame durations differ between the formats:
    YCbCr_420_888 runs from 10 to 30 frames a second, every other format
    from 12.5 to 30. *)
Definition uneven_durations (format : Z) : Z * Z :=
  if format =? HAL_PIXEL_FORMAT_YCbCr_420_888 then (33333333, 100000000)
  else (33333333, 80000000).

Definition uneven_device :=
  TableQueries [HAL_PIXEL_FORMAT_BLOB; HAL_PIXEL_FORMAT_YCbCr_420_888]
               uneven_durations.


(** A camera as constructed, on a device that is not yet open, with the
    settings latch as given. *)
Definition sample_hal
           (FQ : @FormatQueries ScriptedKernel PlainGralloc PlainStreamFormat)
           (latch : bool)
  : @HAL (@V4L2CameraDevice _ _ _ FQ ∅) :=
  @mkHAL (@V4L2CameraDevice _ _ _ FQ ∅)
         (mkCamera 0 latch false None 0 ∅) ∅
         (newV4L2Camera (fresh_world [])) [].

(** Two new output streams that differ in width. *)
Definition narrow_stream : camera3_stream_t :=
  mkCamera3Stream CAMERA3_STREAM_OUTPUT 320 480 HAL_PIXEL_FORMAT_YCbCr_420_888
                  0 0 0 None.
Definition wide_stream : camera3_stream_t :=
  mkCamera3Stream CAMERA3_STREAM_OUTPUT 640 480 HAL_PIXEL_FORMAT_YCbCr_420_888
                  0 0 0 None.

(** The driver's answer to VIDIOC_QUERYCTRL for a bitmask control with
    all 32 bits as maximum and the top bit as default. *)
Definition bitmask_reply : ioctl_reply :=
  mkReply 0 None
          (D_queryctrl (mkQueryctrl 7 V4L2_CTRL_TYPE_BITMASK [] 0
                                    (to_int32 0xFFFFFFFF) 0
                                    (to_int32 0x80000000) 0)).

(** A failing ioctl. *)
Definition busy_reply : ioctl_reply := mkReply (-1) (Some EBUSY) (D_type 0).

(** A camera whose limits are set and whose device is already open and
    connected, as [initCharacteristics] leaves the limits. *)
Definition ready_hal : @HAL (@V4L2CameraDevice _ _ _ uneven_device ∅) :=
  @mkHAL (@V4L2CameraDevice _ _ _ uneven_device ∅)
         (mkCamera 0 true false None 0 ∅) ∅
         (set_fixed_features (newV4L2Camera (connected_world []))) [].

(** A connected wrapper after [SetFormat] of the sample stream. *)
Definition streaming_world
  : @World ScriptedKernel PlainGralloc PlainStreamFormat :=
  (SetFormat yuv_stream 0 (connected_world [])).2.

(** A request for frame 1 with settings and one output buffer without a
    fence. *)
Definition sample_request : CaptureRequest :=
  mkRequest 1 {[ANDROID_SENSOR_TIMESTAMP := [7]]} None
            [mkStreamBuffer None 0 0 (-1) (-1)].

(** A camera that holds one live stream, the 640x480 sample stream at
    pointer 0, on a device that is open. *)
Definition one_stream_hal : @HAL (@V4L2CameraDevice _ _ _ uneven_device ∅) :=
  @mkHAL (@V4L2CameraDevice _ _ _ uneven_device ∅)
         (mkCamera 0 true false (Some [Written (Some 0%nat)]) 1 ∅)
         {[0%nat := yuv_stream]}
         (set_fixed_features (newV4L2Camera (connected_world []))) [].

(** The stream at pointer 0 offered for reuse: once with the width it
    has, once with another width. *)
Definition matching_reuse : camera3_stream_t :=
  mkCamera3Stream CAMERA3_STREAM_OUTPUT 640 480 HAL_PIXEL_FORMAT_YCbCr_420_888
                  0 0 1 (Some 0%nat).
Definition mismatched_reuse : camera3_stream_t :=
  mkCamera3Stream CAMERA3_STREAM_OUTPUT 320 480 HAL_PIXEL_FORMAT_YCbCr_420_888
                  0 0 1 (Some 0%nat).

(** Static characteristics of a back-facing camera mounted at 90
    degrees. *)
Definition back_facing_info : CameraMetadata :=
  {[ANDROID_LENS_FACING := [ANDROID_LENS_FACING_BACK];
    ANDROID_SENSOR_ORIENTATION := [90]]}.

End Sample.

(** * Theorems *)

(** ** Properties of the wrapper *)

Section WrapperFacts.
Import V4L2.
Context `{KN : Kernel} `{GR : Gralloc} `{SF : StreamFormatOps}.

Lemma keeps_ret {A} R `{!Reflexive R} (a : A) : keeps R (ret a).
Proof. intros w. simpl. reflexivity. Qed.

Lemma keeps_gets {A} R `{!Reflexive R} (f : World -> A) : keeps R (gets f).
Proof. intros w. simpl. reflexivity. Qed.

Lemma keeps_bind {A B} R `{!Transitive R} (c : M World A) (k : A -> M World B) :
  keeps R c -> (forall a, keeps R (k a)) -> keeps R (bind c k).
Proof.
  intros Hc Hk w. unfold bind. specialize (Hc w).
  destruct (c w) as [a w1]. simpl in Hc.
  transitivity w1; [exact Hc | apply Hk].
Qed.

Lemma keeps_weaken {A} (R R' : relation World) (m : M World A) :
  (forall w w', R w w' -> R' w w') -> keeps R m -> keeps R' m.
Proof. intros HR Hm w. apply HR, Hm. Qed.

#[local] Instance same_wrapper_pre : PreOrder same_wrapper.
Proof. split; unfold same_wrapper; [intros w; reflexivity | intros x y z; congruence]. Qed.
#[local] Instance same_fd_format_pre : PreOrder same_fd_format.
Proof.
  split; unfold same_fd_format; [intros w; split; reflexivity |].
  intros x y z [] []; split; congruence.
Qed.
#[local] Instance same_fd_pre : PreOrder same_fd.
Proof. split; unfold same_fd; [intros w; reflexivity | intros x y z; congruence]. Qed.

Lemma same_wrapper_fd_format w w' : same_wrapper w w' -> same_fd_format w w'.
Proof. unfold same_wrapper, same_fd_format. intros ->. split; reflexivity. Qed.
Lemma same_fd_format_fd w w' : same_fd_format w w' -> same_fd w w'.
Proof. unfold same_fd. intros [? ?]. assumption. Qed.

(** Splits a method into its calls, down to the primitives. *)
Ltac keeps_step :=
  match goal with
  | |- keeps _ (bind _ _) => apply keeps_bind; [typeclasses eauto | | intros ?]
  | |- keeps _ (ret _) => apply keeps_ret; typeclasses eauto
  | |- keeps _ (gets _) => apply keeps_gets; typeclasses eauto
  | |- keeps _ (match ?x with _ => _ end) => destruct x
  | |- keeps _ (if ?x then _ else _) => destruct x
  end.

Lemma do_ioctl_keeps fd request data : keeps same_wrapper (do_ioctl fd request data).
Proof.
  intros w. unfold do_ioctl, same_wrapper.
  destruct (sys_ioctl _ _ _ _) as [reply k']. reflexivity.
Qed.

Lemma IoctlLocked_keeps request data :
  keeps same_wrapper (IoctlLocked request data).
Proof.
  unfold IoctlLocked. repeat keeps_step. apply do_ioctl_keeps.
Qed.

Lemma IoctlLocked_disconnected request data (w : World) :
  connected (wrapper w) = false ->
  IoctlLocked request data w = ((- ENODEV, data), w).
Proof.
  unfold IoctlLocked, connected, bind, gets, ret.
  destruct (device_fd_ (wrapper w)); [discriminate | reflexivity].
Qed.

Lemma unlockAllBuffers_keeps : keeps same_wrapper unlockAllBuffers.
Proof.
  intros w. unfold unlockAllBuffers, same_wrapper.
  destruct (gralloc_unlockAllBuffers _) as [r g']. reflexivity.
Qed.

Lemma unlock_keeps b : keeps same_wrapper (unlock b).
Proof.
  intros w. unfold unlock, same_wrapper.
  destruct (gralloc_unlock _ _) as [r g']. reflexivity.
Qed.

Lemma lock_keeps cb bpl b : keeps same_wrapper (lock cb bpl b).
Proof.
  intros w. unfold lock, same_wrapper.
  destruct (gralloc_lock _ _ _ _) as [r g']. reflexivity.
Qed.

Lemma set_max_buffers_keeps n :
  keeps same_fd_format (modify (set_wrapper (set_max_buffers_ n))).
Proof. intros w. split; reflexivity. Qed.

Lemma set_format_keeps f : keeps same_fd (modify (set_wrapper (set_format_ f))).
Proof. intros w. reflexivity. Qed.

Lemma weaken_fd_format {A} (m : M World A) :
  keeps same_wrapper m -> keeps same_fd_format m.
Proof. apply keeps_weaken, same_wrapper_fd_format. Qed.

Lemma weaken_fd {A} (m : M World A) : keeps same_fd_format m -> keeps same_fd m.
Proof. apply keeps_weaken, same_fd_format_fd. Qed.

Create HintDb keeps.
Hint Resolve do_ioctl_keeps IoctlLocked_keeps unlockAllBuffers_keeps
     unlock_keeps lock_keeps set_max_buffers_keeps set_format_keeps
     weaken_fd_format weaken_fd : keeps.

(** Closes the goals [keeps_step] leaves at a primitive. *)
Ltac keeps_prim := solve [auto with keeps].

Ltac keeps_tac := repeat keeps_step; try keeps_prim.

Lemma StreamOn_keeps : keeps same_fd_format StreamOn.
Proof. unfold StreamOn. keeps_tac. Qed.
Lemma StreamOff_keeps : keeps same_fd_format StreamOff.
Proof. unfold StreamOff. keeps_tac. Qed.
Lemma QueryControl_keeps id : keeps same_fd_format (QueryControl id).
Proof. unfold QueryControl, QueryControl_basic. keeps_tac. Qed.
Lemma GetControl_keeps id : keeps same_fd_format (GetControl id).
Proof. unfold GetControl. keeps_tac. Qed.
Lemma SetControl_keeps id v : keeps same_fd_format (SetControl id v).
Proof. unfold SetControl. keeps_tac. Qed.
Lemma SetupBuffers_keeps : keeps same_fd_format SetupBuffers.
Proof. unfold SetupBuffers. keeps_tac. Qed.
Lemma EnqueueBuffer_keeps b : keeps same_fd_format (EnqueueBuffer b).
Proof. unfold EnqueueBuffer. keeps_tac. Qed.
Lemma DequeueBuffer_keeps : keeps same_fd_format DequeueBuffer.
Proof. unfold DequeueBuffer. keeps_tac. Qed.
Lemma SetFormat_keeps_fd stream mb : keeps same_fd (SetFormat stream mb).
Proof.
  unfold SetFormat. keeps_tac. apply weaken_fd, SetupBuffers_keeps.
Qed.

Lemma keeps_invariant {A} (m : M World A) w :
  keeps same_fd_format m ->
  no_format_unless_connected w -> no_format_unless_connected (m w).2.
Proof.
  intros Hm Hw Hc. destruct (Hm w) as [Hfd Hfmt].
  rewrite Hfmt. apply Hw. unfold connected in *. rewrite <- Hfd. exact Hc.
Qed.

Lemma SetFormat_disconnected stream mb (w : World) :
  connected (wrapper w) = false -> format_ (wrapper w) = None ->
  SetFormat stream mb w
  = ((if isInputType stream then - EINVAL else - ENODEV, mb), w).
Proof.
  intros Hc Hf. unfold SetFormat.
  destruct (isInputType stream); [reflexivity |].
  unfold bind at 1, gets at 1. rewrite Hf.
  unfold bind at 1. rewrite IoctlLocked_disconnected by exact Hc.
  reflexivity.
Qed.

Lemma reachable_no_format (w : World) :
  reachable w -> no_format_unless_connected w.
Proof.
  induction 1 as [k g e ext | w e Hw IH | A m w Hm Hw IH].
  - intros _. reflexivity.
  - exact IH.
  - destruct Hm.
    + (* Connect *)
      intros Hc. revert Hc. unfold Connect, bind, gets, modify, ret.
      destruct (connected (wrapper w)) eqn:Hcw; simpl; [congruence |].
      unfold do_open. destruct (sys_open (kernel w)) as [[fd | e] k']; simpl.
      * unfold do_ioctl. simpl.
        match goal with
        | |- context [sys_ioctl ?k ?f ?r ?d] => destruct (sys_ioctl k f r d)
        end.
        simpl. discriminate.
      * intros _. apply IH. exact Hcw.
    + (* Disconnect *)
      intros _. unfold Disconnect, bind, modify, ret, unlockAllBuffers. simpl.
      destruct (gralloc_unlockAllBuffers _). reflexivity.
    + apply keeps_invariant; [apply StreamOn_keeps | exact IH].
    + apply keeps_invariant; [apply StreamOff_keeps | exact IH].
    + apply keeps_invariant; [apply QueryControl_keeps | exact IH].
    + apply keeps_invariant; [apply GetControl_keeps | exact IH].
    + apply keeps_invariant; [apply SetControl_keeps | exact IH].
    + (* SetFormat *)
      intros Hc.
      assert (Hcw : connected (wrapper w) = false).
      { unfold connected in *. rewrite <- (SetFormat_keeps_fd stream mb w). exact Hc. }
      rewrite SetFormat_disconnected by auto. apply IH, Hcw.
    + apply keeps_invariant; [apply SetupBuffers_keeps | exact IH].
    + apply keeps_invariant; [apply EnqueueBuffer_keeps | exact IH].
    + apply keeps_invariant; [apply DequeueBuffer_keeps | exact IH].
Qed.

(** C4, as amended.  On a wrapper that is not connected every
    operation that needs the device fails and leaves the wrapper, the
    driver and the list of issued ioctls as they were: no ioctl is
    attempted.  The error is -ENODEV for StreamOff, QueryControl,
    GetControl, SetControl, SetupBuffers, EnqueueBuffer, DequeueBuffer
    and for SetFormat of a stream that is not an input; StreamOn fails
    with -EINVAL, because a wrapper without a descriptor has no format,
    and SetFormat of an input stream fails with -EINVAL. *)
Theorem disconnected_operations_fail (w : World) :
  reachable w -> connected (wrapper w) = false ->
  StreamOn w = (- EINVAL, w) /\
  StreamOff w = (- ENODEV, w) /\
  (forall id, exists result, QueryControl id w = ((- ENODEV, result), w)) /\
  (forall id, GetControl id w = ((- ENODEV, None), w)) /\
  (forall id desired, SetControl id desired w = ((- ENODEV, None), w)) /\
  (forall stream mb,
      SetFormat stream mb w
      = ((if isInputType stream then - EINVAL else - ENODEV, mb), w)) /\
  SetupBuffers w = (- ENODEV, w) /\
  (forall b, EnqueueBuffer b w = (- ENODEV, w)) /\
  DequeueBuffer w = ((- ENODEV, None), w).
Proof.
  intros Hr Hc. pose proof (reachable_no_format w Hr Hc) as Hf.
  repeat split.
  - unfold StreamOn, bind, gets. rewrite Hf. reflexivity.
  - unfold StreamOff, bind, gets. rewrite Hf. reflexivity.
  - intros id. unfold QueryControl, QueryControl_basic, bind, gets.
    destruct (extended_query_supported_ (wrapper w)).
    + rewrite IoctlLocked_disconnected by exact Hc. simpl.
      destruct (negb (errno w =? ENOTTY)); simpl; [eexists; reflexivity |].
      rewrite IoctlLocked_disconnected by exact Hc. simpl.
      eexists; reflexivity.
    + rewrite IoctlLocked_disconnected by exact Hc. simpl.
      eexists; reflexivity.
  - intros id. unfold GetControl, bind.
    rewrite IoctlLocked_disconnected by exact Hc. reflexivity.
  - intros id desired. unfold SetControl, bind.
    rewrite IoctlLocked_disconnected by exact Hc. reflexivity.
  - intros stream mb. apply SetFormat_disconnected; assumption.
  - unfold SetupBuffers, bind, gets. rewrite Hf. reflexivity.
  - intros b. unfold EnqueueBuffer, bind, gets. rewrite Hf. reflexivity.
  - unfold DequeueBuffer, bind, gets. rewrite Hf. reflexivity.
Qed.

(** A call of [SetFormat] that returns 0 leaves a format that equals
    the one asked for. *)
Lemma SetFormat_caches stream mb (w : World) r :
  SetFormat stream mb w = r ->
  r.1.1 = 0 ->
  isInputType stream = false /\
  exists f, format_ (wrapper r.2) = Some f /\
            sf_eqb (StreamFormat_of_stream stream) f = true.
Proof.
  unfold SetFormat.
  destruct (isInputType stream); [intros <-; discriminate |].
  unfold bind at 1, gets at 1.
  destruct (match format_ (wrapper w) with
            | Some f => sf_eqb (StreamFormat_of_stream stream) f
            | None => false
            end) eqn:Hskip.
  - intros <- _. split; [reflexivity |]. simpl.
    destruct (format_ (wrapper w)) as [f |]; [eauto | discriminate].
  - unfold bind at 1.
    destruct (IoctlLocked _ _ w) as [[res d] w1].
    destruct (res <? 0); [intros <-; discriminate |].
    destruct (sf_eqb _ _) eqn:Heq; [| intros <-; discriminate].
    cbn [negb]. unfold bind at 1, modify at 1.
    unfold bind at 1.
    match goal with
    | |- context [SetupBuffers ?w2] =>
        pose proof (SetupBuffers_keeps w2) as [_ Hfmt];
        destruct (SetupBuffers w2) as [res2 w3]
    end.
    destruct (negb (res2 =? 0)) eqn:Hres; simpl.
    + intros <-. simpl. intros ->. discriminate.
    + intros <- _. split; [reflexivity |].
      simpl in *. rewrite Hfmt. eauto.
Qed.

Lemma IoctlLocked_issued request data (w : World) :
  issued (IoctlLocked request data w).2 = issued w \/
  issued (IoctlLocked request data w).2 = (request, data) :: issued w.
Proof.
  unfold IoctlLocked, bind, gets, ret, do_ioctl.
  destruct (device_fd_ (wrapper w)); [| left; reflexivity].
  destruct (sys_ioctl _ _ _ _). right. reflexivity.
Qed.

Lemma unlockAllBuffers_issued (w : World) :
  issued (unlockAllBuffers w).2 = issued w.
Proof.
  unfold unlockAllBuffers. destruct (gralloc_unlockAllBuffers _). reflexivity.
Qed.

(** [SetupBuffers] issues VIDIOC_REQBUFS at most once and nothing else. *)
Lemma SetupBuffers_issued (w : World) r :
  SetupBuffers w = r ->
  exists l, issued r.2 = l ++ issued w /\
            (l = [] \/ exists d, l = [(VIDIOC_REQBUFS, d)]).
Proof.
  unfold SetupBuffers, bind at 1, gets at 1.
  destruct (format_ (wrapper w)) as [f |]; [| intros <-; exists []; auto].
  unfold bind at 1.
  match goal with
  | |- context [IoctlLocked ?r ?d w] =>
      pose proof (IoctlLocked_issued r d w) as Hi;
      destruct (IoctlLocked r d w) as [[res d'] w1]
  end.
  unfold bind at 1.
  pose proof (unlockAllBuffers_issued w1) as Hu.
  destruct (unlockAllBuffers w1) as [gres w2]. simpl in Hi, Hu.
  assert (Hw2 : exists l, issued w2 = l ++ issued w /\
                          (l = [] \/ exists d, l = [(VIDIOC_REQBUFS, d)])).
  { rewrite Hu. destruct Hi as [-> | ->]; [exists []; auto |].
    eexists [_]. split; [reflexivity | right; eauto]. }
  destruct (res <? 0); [intros <-; exact Hw2 |].
  destruct (gres <? 0); [intros <-; exact Hw2 |].
  unfold bind, modify, ret. simpl.
  destruct (_ <? 1); intros <-; exact Hw2.
Qed.

(** [SetFormat] issues VIDIOC_S_FMT at most once, then VIDIOC_REQBUFS
    at most once, and nothing else. *)
Lemma SetFormat_issued stream mb (w : World) r :
  SetFormat stream mb w = r ->
  (issued_count VIDIOC_S_FMT r.2 <= S (issued_count VIDIOC_S_FMT w))%nat /\
  (issued_count VIDIOC_REQBUFS r.2 <= S (issued_count VIDIOC_REQBUFS w))%nat.
Proof.
  unfold SetFormat.
  destruct (isInputType stream); [intros <-; simpl; lia |].
  unfold bind at 1, gets at 1.
  destruct (match format_ (wrapper w) with
            | Some f => sf_eqb (StreamFormat_of_stream stream) f
            | None => false
            end); [intros <-; simpl; lia |].
  unfold bind at 1.
  match goal with
  | |- context [IoctlLocked ?r ?d w] =>
      pose proof (IoctlLocked_issued r d w) as Hi;
      destruct (IoctlLocked r d w) as [[res d'] w1]
  end.
  simpl in Hi.
  assert (H1 : (issued_count VIDIOC_S_FMT w1 <= S (issued_count VIDIOC_S_FMT w))%nat
               /\ issued_count VIDIOC_REQBUFS w1 = issued_count VIDIOC_REQBUFS w).
  { unfold issued_count. destruct Hi as [-> | ->]; [lia |].
    rewrite !filter_cons. simpl.
    repeat case_decide; try congruence; simpl; lia. }
  destruct (res <? 0); [intros <-; simpl; lia |].
  destruct (negb (sf_eqb _ _)); [intros <-; simpl; lia |].
  unfold bind at 1, modify at 1. unfold bind at 1.
  match goal with
  | |- context [SetupBuffers ?w2] =>
      destruct (SetupBuffers_issued w2 _ eq_refl) as (l & Hl & Hcase);
      destruct (SetupBuffers w2) as [res2 w3]
  end.
  simpl in Hl.
  assert (H3 : (issued_count VIDIOC_S_FMT w3 <= S (issued_count VIDIOC_S_FMT w))%nat
               /\ (issued_count VIDIOC_REQBUFS w3
                   <= S (issued_count VIDIOC_REQBUFS w))%nat).
  { unfold issued_count in *. rewrite Hl.
    destruct Hcase as [-> | [d0 ->]]; simpl; [lia |].
    rewrite !filter_cons. simpl.
    repeat case_decide; try congruence; simpl; lia. }
  destruct (negb (res2 =? 0)); intros <-; simpl; exact H3.
Qed.

(** C5, as amended.  [SetFormat] of a stream that is not an input,
    whose format equals the cached one, returns 0 and leaves the
    wrapper, the driver and the list of issued ioctls as they were (no
    VIDIOC_S_FMT, no VIDIOC_REQBUFS, the cached format and max_buffers
    unchanged).  Hence, once a call of [SetFormat] has returned 0, a
    second call with equal stream parameters is of that kind, and the
    first call itself issued VIDIOC_S_FMT and VIDIOC_REQBUFS at most
    once each. *)
Theorem SetFormat_idempotent (w : World) (stream : Stream) (mb : Z) :
  (forall f,
      isInputType stream = false ->
      format_ (wrapper w) = Some f ->
      sf_eqb (StreamFormat_of_stream stream) f = true ->
      SetFormat stream mb w = ((0, mb), w)) /\
  (forall stream' mb',
      (SetFormat stream mb w).1.1 = 0 ->
      isInputType stream' = false ->
      StreamFormat_of_stream stream' = StreamFormat_of_stream stream ->
      let w1 := (SetFormat stream mb w).2 in
      SetFormat stream' mb' w1 = ((0, mb'), w1) /\
      (issued_count VIDIOC_S_FMT w1 <= S (issued_count VIDIOC_S_FMT w))%nat /\
      (issued_count VIDIOC_REQBUFS w1
       <= S (issued_count VIDIOC_REQBUFS w))%nat).
Proof.
  assert (Hskip : forall (w0 : World) s m f,
             isInputType s = false ->
             format_ (wrapper w0) = Some f ->
             sf_eqb (StreamFormat_of_stream s) f = true ->
             SetFormat s m w0 = ((0, m), w0)).
  { intros w0 s m f Hin Hf Heq. unfold SetFormat. rewrite Hin.
    unfold bind, gets. rewrite Hf, Heq. reflexivity. }
  split; [intros f; apply Hskip |].
  intros stream' mb' Hok Hin Hsame w1.
  destruct (SetFormat_caches stream mb w _ eq_refl Hok) as (_ & f & Hf & Heq).
  split; [| apply (SetFormat_issued stream mb w _ eq_refl)].
  apply (Hskip w1 stream' mb' f Hin Hf). rewrite Hsame. exact Heq.
Qed.

Lemma to_uint32_range x : 0 <= to_uint32 x < 2 ^ 32.
Proof. unfold to_uint32. apply Z.mod_pos_bound. lia. Qed.

Lemma to_uint32_nonneg x : 0 <= x < 2 ^ 32 -> to_uint32 x = x.
Proof. unfold to_uint32. intros. apply Z.mod_small. lia. Qed.

Lemma to_uint32_neg x : - 2 ^ 31 <= x < 0 -> to_uint32 x = x + 2 ^ 32.
Proof.
  unfold to_uint32. intros.
  rewrite <- (Z.mod_add x 1 (2 ^ 32)) by lia.
  apply Z.mod_small. lia.
Qed.

(** C3.  When [QueryControl] falls back to VIDIOC_QUERYCTRL and the
    driver reports a control, the call returns 0 with the converted
    structure.  For a control of type BITMASK, maximum and
    default_value are the 32-bit members read as unsigned (zero
    extension): they lie in [0, 2^32), a member with the sign bit set
    gains 2^32 instead of staying negative, and the patterns
    0xFFFFFFFF and 0x80000000 become 0x00000000FFFFFFFF and
    0x0000000080000000.  For every other type the signed value is
    kept. *)
Theorem QueryControl_bitmask_zero_extension
        (w : World) (control_id fd : Z) (reply : ioctl_reply) (k' : kstate)
        (query : v4l2_queryctrl) :
  device_fd_ (wrapper w) = Some fd ->
  falls_back control_id w ->
  sys_ioctl (kernel (before_fallback control_id w)) fd VIDIOC_QUERYCTRL
            (D_queryctrl (mkQueryctrl control_id 0 [] 0 0 0 0 0))
  = (reply, k') ->
  r_ret reply = 0 ->
  r_data reply = D_queryctrl query ->
  is_int32 (qc_maximum query) ->
  is_int32 (qc_default_value query) ->
  exists result,
    (QueryControl control_id w).1 = (0, result) /\
    (qc_type query = V4L2_CTRL_TYPE_BITMASK ->
     qe_maximum result = to_uint32 (qc_maximum query) /\
     qe_default_value result = to_uint32 (qc_default_value query) /\
     0 <= qe_maximum result < 2 ^ 32 /\
     0 <= qe_default_value result < 2 ^ 32 /\
     (qc_maximum query < 0 ->
      qe_maximum result = qc_maximum query + 2 ^ 32) /\
     (qc_default_value query < 0 ->
      qe_default_value result = qc_default_value query + 2 ^ 32) /\
     (qc_maximum query = to_int32 0xFFFFFFFF ->
      qe_maximum result = 0x00000000FFFFFFFF) /\
     (qc_default_value query = to_int32 0x80000000 ->
      qe_default_value result = 0x0000000080000000)) /\
    (qc_type query <> V4L2_CTRL_TYPE_BITMASK ->
     qe_maximum result = qc_maximum query /\
     qe_default_value result = qc_default_value query).
Proof.
  intros Hfd Hfb Hsys Hret Hdata Hmax Hdef.
  exists (convert_queryctrl query).
  assert (Hbasic : forall w0 : World,
             wrapper w0 = wrapper w ->
             kernel w0 = kernel (before_fallback control_id w) ->
             (QueryControl_basic control_id w0).1 = (0, convert_queryctrl query)).
  { intros w0 Hw0 Hk0.
    unfold QueryControl_basic, IoctlLocked, do_ioctl, bind, gets. cbn beta iota.
    rewrite Hw0, Hfd, Hk0, Hsys. cbn. rewrite Hret, Hdata. reflexivity. }
  split.
  - unfold QueryControl, bind at 1, gets at 1.
    unfold falls_back, before_fallback in *.
    destruct (extended_query_supported_ (wrapper w)) eqn:Hext.
    + destruct Hfb as [Hfb | Hfb]; [discriminate |].
      unfold bind at 1.
      pose proof (IoctlLocked_keeps VIDIOC_QUERY_EXT_CTRL
                    (D_query_ext_ctrl (set_qe_id control_id zero_query_ext_ctrl))
                    w) as Hkeep.
      destruct (IoctlLocked _ _ w) as [[res d] w1]. simpl in Hkeep, Hfb.
      unfold bind at 1, gets at 1. rewrite Hfb. simpl.
      unfold bind at 1.
      specialize (Hbasic w1 Hkeep eq_refl).
      destruct (QueryControl_basic control_id w1) as [[r converted] w2].
      simpl in Hbasic. injection Hbasic as -> ->. reflexivity.
    + apply Hbasic; reflexivity.
  - unfold convert_queryctrl, is_int32 in *. simpl. split.
    + intros Hty. rewrite !Hty. rewrite Z.eqb_refl.
      repeat split; try apply to_uint32_range.
      * intros. apply to_uint32_neg. lia.
      * intros. apply to_uint32_neg. lia.
      * intros ->. reflexivity.
      * intros ->. reflexivity.
    + intros Hty. apply Z.eqb_neq in Hty. rewrite Hty. auto.
Qed.

(** *** Further properties of the wrapper *)

(** [Connect] refuses a wrapper that is connected, without touching
    anything.  On a wrapper that is not connected it opens the device:
    when that fails it returns the negated error number and the wrapper
    stays without a descriptor; when it succeeds it keeps the
    descriptor, issues one VIDIOC_QUERY_EXT_CTRL to find out whether
    extended queries are supported, and returns 0 whatever the answer.
    The format and [max_buffers_] are never touched. *)
Theorem Connect_outcomes (w : World) :
  (connected (wrapper w) = true -> Connect w = (- EIO, w)) /\
  (connected (wrapper w) = false ->
   match (sys_open (kernel w)).1 with
   | inr e =>
       (Connect w).1 = - e /\
       wrapper (Connect w).2 = wrapper w /\
       issued (Connect w).2 = issued w
   | inl fd =>
       (Connect w).1 = 0 /\
       device_fd_ (wrapper (Connect w).2) = Some fd /\
       exists query,
         qe_id query
         = Z.lor V4L2_CTRL_FLAG_NEXT_CTRL V4L2_CTRL_FLAG_NEXT_COMPOUND /\
         issued (Connect w).2
         = (VIDIOC_QUERY_EXT_CTRL, D_query_ext_ctrl query) :: issued w /\
         extended_query_supported_ (wrapper (Connect w).2)
         = (r_ret (sys_ioctl (sys_open (kernel w)).2 fd VIDIOC_QUERY_EXT_CTRL
                             (D_query_ext_ctrl query)).1 =? 0)
   end /\
   format_ (wrapper (Connect w).2) = format_ (wrapper w) /\
   max_buffers_ (wrapper (Connect w).2) = max_buffers_ (wrapper w)).
Proof.
  split; intros Hc; unfold Connect, bind, gets; rewrite Hc.
  - reflexivity.
  - unfold do_open. destruct (sys_open (kernel w)) as [[fd | e] k1]; simpl.
    + unfold do_ioctl. simpl.
      destruct (sys_ioctl k1 fd _ _) as [reply k2] eqn:Hreply. simpl.
      repeat split; try reflexivity.
      exists (mkQueryExtCtrl
                (Z.lor V4L2_CTRL_FLAG_NEXT_CTRL V4L2_CTRL_FLAG_NEXT_COMPOUND)
                0 [] 0 0 0 0 0 0 0).
      split; [reflexivity |]. split; [reflexivity |].
      rewrite Hreply. reflexivity.
    + repeat split; reflexivity.
Qed.

(** In every state a wrapper can reach, a wrapper that holds a format
    is connected: [Disconnect] drops the format with the descriptor,
    and [SetFormat] caches one only after an ioctl succeeded. *)
Theorem format_needs_connection (w : World) :
  reachable w ->
  format_ (wrapper w) <> None -> connected (wrapper w) = true.
Proof.
  intros Hr Hf. destruct (connected (wrapper w)) eqn:Hc; [reflexivity |].
  exfalso. apply Hf. apply reachable_no_format; assumption.
Qed.

(** No method but [Connect] and [Disconnect] changes the descriptor,
    and of the others only [SetFormat] changes the cached format. *)
Theorem methods_keep_descriptor (w : World) :
  same_fd_format w (StreamOn w).2 /\
  same_fd_format w (StreamOff w).2 /\
  (forall id, same_fd_format w (QueryControl id w).2) /\
  (forall id, same_fd_format w (GetControl id w).2) /\
  (forall id v, same_fd_format w (SetControl id v w).2) /\
  same_fd_format w (SetupBuffers w).2 /\
  (forall b, same_fd_format w (EnqueueBuffer b w).2) /\
  same_fd_format w (DequeueBuffer w).2 /\
  (forall stream mb, same_fd w (SetFormat stream mb w).2).
Proof.
  split; [apply StreamOn_keeps |]. split; [apply StreamOff_keeps |].
  split; [intros; apply QueryControl_keeps |].
  split; [intros; apply GetControl_keeps |].
  split; [intros; apply SetControl_keeps |].
  split; [apply SetupBuffers_keeps |].
  split; [intros; apply EnqueueBuffer_keeps |].
  split; [apply DequeueBuffer_keeps |].
  intros; apply SetFormat_keeps_fd.
Qed.

Lemma IoctlLocked_gralloc request data (w : World) :
  gralloc_ (IoctlLocked request data w).2 = gralloc_ w.
Proof.
  unfold IoctlLocked, do_ioctl, bind, gets, ret.
  destruct (device_fd_ (wrapper w)) as [fd |]; [| reflexivity].
  destruct (sys_ioctl (kernel w) fd request data). reflexivity.
Qed.

Lemma IoctlLocked_connected request data (w : World) fd :
  device_fd_ (wrapper w) = Some fd ->
  issued (IoctlLocked request data w).2 = (request, data) :: issued w.
Proof.
  intros Hfd. unfold IoctlLocked, do_ioctl, bind, gets. rewrite Hfd.
  destruct (sys_ioctl (kernel w) fd request data). reflexivity.
Qed.

Lemma SetupBuffers_effects (w : World) (f : StreamFormat) (fd : Z) :
  format_ (wrapper w) = Some f ->
  device_fd_ (wrapper w) = Some fd ->
  let request := mkReqbufs 1 (sf_type f) V4L2_MEMORY_USERPTR in
  let answer := (IoctlLocked VIDIOC_REQBUFS (D_requestbuffers request) w).1 in
  issued (SetupBuffers w).2
  = (VIDIOC_REQBUFS, D_requestbuffers request) :: issued w /\
  gralloc_ (SetupBuffers w).2 = (gralloc_unlockAllBuffers (gralloc_ w)).2 /\
  ((SetupBuffers w).1 = 0 ->
   0 <= answer.1 /\
   max_buffers_ (wrapper (SetupBuffers w).2)
   = rb_count (as_requestbuffers answer.2 request) /\
   1 <= max_buffers_ (wrapper (SetupBuffers w).2)).
Proof.
  intros Hf Hfd request answer. subst answer.
  pose proof (IoctlLocked_connected VIDIOC_REQBUFS (D_requestbuffers request)
                                    w fd Hfd) as Hissued.
  pose proof (IoctlLocked_gralloc VIDIOC_REQBUFS (D_requestbuffers request) w)
    as Hgralloc.
  unfold SetupBuffers, bind, gets. rewrite Hf. fold request.
  destruct (IoctlLocked VIDIOC_REQBUFS (D_requestbuffers request) w)
    as [[res d] w1].
  simpl in Hissued, Hgralloc. unfold unlockAllBuffers. rewrite Hgralloc.
  destruct (gralloc_unlockAllBuffers (gralloc_ w)) as [gres g1].
  cbn [fst snd].
  destruct (Z.ltb_spec res 0); [simpl; split; [auto | split; [auto | discriminate]] |].
  destruct (Z.ltb_spec gres 0);
    [simpl; split; [auto | split; [auto | intros ->; lia]] |].
  unfold modify, ret. cbn [fst snd].
  destruct (Z.ltb_spec (rb_count (as_requestbuffers d request)) 1); simpl;
    (split; [exact Hissued | split; [reflexivity |]]).
  - unfold ENODEV. discriminate.
  - intros _. auto.
Qed.

(** [SetupBuffers] on a connected wrapper with a format issues exactly
    one VIDIOC_REQBUFS (for one user-pointer buffer of the format's
    type) and then releases all buffers through gralloc, whether or
    not the ioctl succeeded.  When it returns 0, [max_buffers_] is the
    count the driver answered, and it is at least 1. *)
Theorem SetupBuffers_outcomes (w : World) (f : StreamFormat) (fd : Z) :
  format_ (wrapper w) = Some f ->
  device_fd_ (wrapper w) = Some fd ->
  let request := mkReqbufs 1 (sf_type f) V4L2_MEMORY_USERPTR in
  let answer := (IoctlLocked VIDIOC_REQBUFS (D_requestbuffers request) w).1 in
  issued (SetupBuffers w).2
  = (VIDIOC_REQBUFS, D_requestbuffers request) :: issued w /\
  gralloc_ (SetupBuffers w).2 = (gralloc_unlockAllBuffers (gralloc_ w)).2 /\
  ((SetupBuffers w).1 = 0 ->
   0 <= answer.1 /\
   max_buffers_ (wrapper (SetupBuffers w).2)
   = rb_count (as_requestbuffers answer.2 request) /\
   1 <= max_buffers_ (wrapper (SetupBuffers w).2)).
Proof. exact (SetupBuffers_effects w f fd). Qed.

Lemma StreamOff_effects (w : World) (f : StreamFormat) (fd : Z) :
  format_ (wrapper w) = Some f ->
  device_fd_ (wrapper w) = Some fd ->
  let answer := (IoctlLocked VIDIOC_STREAMOFF (D_type (sf_type f)) w).1 in
  let released := gralloc_unlockAllBuffers (gralloc_ w) in
  issued (StreamOff w).2 = (VIDIOC_STREAMOFF, D_type (sf_type f)) :: issued w /\
  gralloc_ (StreamOff w).2 = released.2 /\
  wrapper (StreamOff w).2 = wrapper w /\
  (StreamOff w).1
  = (if answer.1 <? 0 then - ENODEV
     else if released.1 <? 0 then released.1 else 0).
Proof.
  intros Hf Hfd answer released. subst answer released.
  pose proof (IoctlLocked_connected VIDIOC_STREAMOFF (D_type (sf_type f))
                                    w fd Hfd) as Hissued.
  pose proof (IoctlLocked_gralloc VIDIOC_STREAMOFF (D_type (sf_type f)) w)
    as Hgralloc.
  pose proof (IoctlLocked_keeps VIDIOC_STREAMOFF (D_type (sf_type f)) w)
    as Hwrapper.
  unfold StreamOff, bind, gets. rewrite Hf.
  destruct (IoctlLocked VIDIOC_STREAMOFF (D_type (sf_type f)) w)
    as [[res d] w1].
  unfold same_wrapper in Hwrapper.
  simpl in Hissued, Hgralloc, Hwrapper. unfold unlockAllBuffers.
  rewrite Hgralloc.
  destruct (gralloc_unlockAllBuffers (gralloc_ w)) as [gres g1].
  cbn [fst snd].
  destruct (res <? 0); [simpl; auto |].
  destruct (gres <? 0); simpl; auto.
Qed.

Lemma SetupBuffers_success_max (w : World) :
  (SetupBuffers w).1 = 0 -> 1 <= max_buffers_ (wrapper (SetupBuffers w).2).
Proof.
  unfold SetupBuffers, bind, gets.
  destruct (format_ (wrapper w)) as [f |]; [| discriminate].
  destruct (IoctlLocked _ _ w) as [[res d] w1].
  destruct (unlockAllBuffers w1) as [gres w2]. cbn [fst snd].
  destruct (res <? 0); [discriminate |].
  destruct (Z.ltb_spec gres 0); [simpl; intros ->; lia |].
  unfold modify, ret. cbn [fst snd].
  match goal with
  | |- context [rb_count ?x <? 1] => destruct (Z.ltb_spec (rb_count x) 1)
  end; simpl; [discriminate | auto].
Qed.

Lemma SetFormat_success_effects (w : World) (stream : Stream) (mb : Z) :
  (SetFormat stream mb w).1.1 = 0 ->
  let w' := (SetFormat stream mb w).2 in
  isInputType stream = false /\
  (exists f, format_ (wrapper w') = Some f /\
             sf_eqb (StreamFormat_of_stream stream) f = true) /\
  ((w' = w /\ (SetFormat stream mb w).1.2 = mb /\
    exists f, format_ (wrapper w) = Some f /\
              sf_eqb (StreamFormat_of_stream stream) f = true) \/
   ((SetFormat stream mb w).1.2 = max_buffers_ (wrapper w') /\
    1 <= max_buffers_ (wrapper w') /\
    exists d1 d2,
      issued w' = (VIDIOC_REQBUFS, d2) :: (VIDIOC_S_FMT, d1) :: issued w)).
Proof.
  intros Hok w'. subst w'.
  destruct (SetFormat_caches stream mb w _ eq_refl Hok) as (Hin & Hcached).
  split; [exact Hin |]. split; [exact Hcached |]. clear Hcached.
  remember (SetFormat stream mb w) as r eqn:Hr. symmetry in Hr.
  revert Hr. unfold SetFormat. rewrite Hin.
  unfold bind at 1, gets at 1.
  destruct (match format_ (wrapper w) with
            | Some f => sf_eqb (StreamFormat_of_stream stream) f
            | None => false
            end) eqn:Hskip.
  - intros <-. left. simpl. split; [reflexivity |]. split; [reflexivity |].
    destruct (format_ (wrapper w)) as [f |]; [eauto | discriminate].
  - unfold bind at 1.
    set (data := D_format (FillFormatRequest (StreamFormat_of_stream stream))).
    pose proof (IoctlLocked_keeps VIDIOC_S_FMT data w) as Hwrapper.
    unfold same_wrapper in Hwrapper.
    destruct (device_fd_ (wrapper w)) as [fd |] eqn:Hfd.
    2:{ rewrite IoctlLocked_disconnected
          by (unfold connected; rewrite Hfd; reflexivity).
        intros <-. discriminate. }
    pose proof (IoctlLocked_connected VIDIOC_S_FMT data w fd Hfd) as Hissued.
    destruct (IoctlLocked VIDIOC_S_FMT data w) as [[res d] w1].
    simpl in Hissued, Hwrapper.
    destruct (res <? 0); [intros <-; discriminate |].
    destruct (sf_eqb _ _) eqn:Heq; [| intros <-; discriminate].
    cbn [negb]. unfold bind at 1, modify at 1. unfold bind at 1.
    match goal with
    | |- context [SetupBuffers ?x] => set (w2 := x)
    end.
    assert (Hf2 : exists f, format_ (wrapper w2) = Some f) by (eexists; reflexivity).
    destruct Hf2 as [f2 Hf2].
    assert (Hfd2 : device_fd_ (wrapper w2) = Some fd)
      by (unfold w2; simpl; rewrite Hwrapper; exact Hfd).
    destruct (SetupBuffers_effects w2 f2 fd Hf2 Hfd2) as (Hissued2 & _).
    pose proof (SetupBuffers_success_max w2) as Hmax.
    destruct (SetupBuffers w2) as [res2 w3]. simpl in Hissued2, Hmax.
    destruct (Z.eqb_spec res2 0) as [-> | Hne]; cbn [negb].
    + intros <-. right. simpl. split; [reflexivity |].
      split; [apply Hmax; reflexivity |].
      eexists _, _. rewrite Hissued2. unfold w2. simpl. rewrite Hissued.
      reflexivity.
    + intros <-. simpl in Hok. contradiction.
Qed.

(** When [SetFormat] returns 0 the stream is not an input, and the
    wrapper holds a format equal to the one requested.  Either that
    format was cached already: then nothing was issued, the wrapper is
    unchanged and the caller's [*result_max_buffers] is not written.
    Or the format was set: then VIDIOC_S_FMT and VIDIOC_REQBUFS were
    issued, in that order, and [*result_max_buffers] is the wrapper's
    [max_buffers_], which is at least 1. *)
Theorem SetFormat_success (w : World) (stream : Stream) (mb : Z) :
  (SetFormat stream mb w).1.1 = 0 ->
  let w' := (SetFormat stream mb w).2 in
  isInputType stream = false /\
  (exists f, format_ (wrapper w') = Some f /\
             sf_eqb (StreamFormat_of_stream stream) f = true) /\
  ((w' = w /\ (SetFormat stream mb w).1.2 = mb /\
    exists f, format_ (wrapper w) = Some f /\
              sf_eqb (StreamFormat_of_stream stream) f = true) \/
   ((SetFormat stream mb w).1.2 = max_buffers_ (wrapper w') /\
    1 <= max_buffers_ (wrapper w') /\
    exists d1 d2,
      issued w' = (VIDIOC_REQBUFS, d2) :: (VIDIOC_S_FMT, d1) :: issued w)).
Proof. exact (SetFormat_success_effects w stream mb). Qed.

(** With extended queries supported, [QueryControl] issues one
    VIDIOC_QUERY_EXT_CTRL for the control.  Unless [errno] then holds
    ENOTTY, that is all it does: the result is the structure as the
    driver left it, and the call returns 0 when the ioctl returned 0
    and -ENODEV otherwise; VIDIOC_QUERYCTRL is not issued. *)
Theorem QueryControl_extended (w : World) (control_id fd : Z) :
  device_fd_ (wrapper w) = Some fd ->
  extended_query_supported_ (wrapper w) = true ->
  let query := D_query_ext_ctrl (set_qe_id control_id zero_query_ext_ctrl) in
  let reply := (sys_ioctl (kernel w) fd VIDIOC_QUERY_EXT_CTRL query).1 in
  match r_errno reply with Some e => e | None => errno w end <> ENOTTY ->
  (QueryControl control_id w).1
  = (if r_ret reply =? 0 then 0 else - ENODEV,
     as_query_ext_ctrl (r_data reply)
                       (set_qe_id control_id zero_query_ext_ctrl)) /\
  issued (QueryControl control_id w).2
  = (VIDIOC_QUERY_EXT_CTRL, query) :: issued w.
Proof.
  intros Hfd Hext query reply Herrno. subst query reply.
  unfold QueryControl, bind, gets. rewrite Hext.
  unfold IoctlLocked, bind, gets, do_ioctl. rewrite Hfd.
  destruct (sys_ioctl (kernel w) fd VIDIOC_QUERY_EXT_CTRL _) as [reply k'].
  cbn [fst snd errno] in *.
  apply Z.eqb_neq in Herrno. rewrite Herrno. cbn [negb].
  destruct (r_ret reply =? 0); simpl; auto.
Qed.

(** What a successful [StreamOn], [EnqueueBuffer] and [DequeueBuffer]
    issue on a connected wrapper. *)
Lemma StreamOn_issued (w : World) (f : StreamFormat) (fd : Z) :
  format_ (wrapper w) = Some f ->
  device_fd_ (wrapper w) = Some fd ->
  issued (StreamOn w).2 = (VIDIOC_STREAMON, D_type (sf_type f)) :: issued w.
Proof.
  intros Hf Hfd. unfold StreamOn, bind, gets. rewrite Hf.
  pose proof (IoctlLocked_connected VIDIOC_STREAMON (D_type (sf_type f)) w fd Hfd)
    as Hissued.
  destruct (IoctlLocked _ _ w) as [[res d] w1]. simpl in *.
  destruct (res <? 0); exact Hissued.
Qed.

Lemma EnqueueBuffer_issued (b : Z) (w : World) (f : StreamFormat) (fd : Z) :
  format_ (wrapper w) = Some f ->
  device_fd_ (wrapper w) = Some fd ->
  (EnqueueBuffer b w).1 = 0 ->
  exists d1 d2,
    issued (EnqueueBuffer b w).2
    = (VIDIOC_QBUF, d2) :: (VIDIOC_QUERYBUF, d1) :: issued w.
Proof.
  intros Hf Hfd. unfold EnqueueBuffer, bind, gets. rewrite Hf.
  match goal with
  | |- context [IoctlLocked VIDIOC_QUERYBUF ?d w] =>
      pose proof (IoctlLocked_connected VIDIOC_QUERYBUF d w fd Hfd) as Hissued;
      pose proof (IoctlLocked_keeps VIDIOC_QUERYBUF d w) as Hwrapper;
      destruct (IoctlLocked VIDIOC_QUERYBUF d w) as [[res d'] w1]
  end.
  unfold same_wrapper in Hwrapper. simpl in Hissued, Hwrapper.
  destruct (res <? 0); [unfold ENODEV; discriminate |].
  match goal with
  | |- context [lock b ?l ?x w1] =>
      pose proof (lock_keeps b l x w1) as Hlock;
      assert (Hlissued : issued (lock b l x w1).2 = issued w1)
        by (unfold lock; destruct (gralloc_lock _ _ _ _); reflexivity);
      destruct (lock b l x w1) as [[lres lbuf] w2]
  end.
  unfold same_wrapper in Hlock. simpl in Hlock, Hlissued.
  destruct (lres =? 0) eqn:Hlres; cbn [negb];
    [| simpl; intros ->; discriminate].
  assert (Hfd2 : device_fd_ (wrapper w2) = Some fd) by congruence.
  pose proof (IoctlLocked_connected VIDIOC_QBUF (D_buffer lbuf) w2 fd Hfd2)
    as Hissued2.
  destruct (IoctlLocked VIDIOC_QBUF (D_buffer lbuf) w2) as [[res2 d2] w3].
  simpl in Hissued2.
  destruct (res2 <? 0).
  - destruct (unlock lbuf w3). simpl. unfold ENODEV. discriminate.
  - simpl. intros _. eexists _, _. rewrite Hissued2, Hlissued, Hissued.
    reflexivity.
Qed.

Lemma DequeueBuffer_issued (w : World) (f : StreamFormat) (fd : Z) :
  format_ (wrapper w) = Some f ->
  device_fd_ (wrapper w) = Some fd ->
  exists d, issued (DequeueBuffer w).2 = (VIDIOC_DQBUF, d) :: issued w.
Proof.
  intros Hf Hfd. unfold DequeueBuffer, bind, gets. rewrite Hf.
  match goal with
  | |- context [IoctlLocked VIDIOC_DQBUF ?d w] =>
      pose proof (IoctlLocked_connected VIDIOC_DQBUF d w fd Hfd) as Hissued;
      destruct (IoctlLocked VIDIOC_DQBUF d w) as [[res d'] w1]
  end.
  simpl in Hissued. eexists.
  destruct (res <? 0); [exact Hissued |].
  assert (Hu : forall x, issued (unlock x w1).2 = issued w1)
    by (intros x; unfold unlock; destruct (gralloc_unlock _ _); reflexivity).
  match goal with
  | |- context [unlock ?x w1] =>
      specialize (Hu x); destruct (unlock x w1) as [ures w2]
  end.
  simpl in Hu. destruct (negb (ures =? 0)); simpl; congruence.
Qed.

End WrapperFacts.

Section PartialFacts.
Import V4L2 Cam.
Context {S : Type}.

Lemma pkeeps_ret {A} (R : relation S) `{!Reflexive R} (a : A) :
  pkeeps R (pret a).
Proof. intros s a' s' [= _ <-]. reflexivity. Qed.

Lemma pkeeps_gets {A} (R : relation S) `{!Reflexive R} (f : S -> A) : pkeeps R (pgets f).
Proof. intros s a' s' [= _ <-]. reflexivity. Qed.

Lemma pkeeps_undefined {A} (R : relation S) : pkeeps R (@undefined S A).
Proof. intros s a s' [=]. Qed.

Lemma pkeeps_bind {A B} R `{!Transitive R} (c : P S A) (k : A -> P S B) :
  pkeeps R c -> (forall a, pkeeps R (k a)) -> pkeeps R (pbind c k).
Proof.
  intros Hc Hk s b s'. unfold pbind.
  destruct (c s) as [[a s1] |] eqn:E; [| discriminate].
  intros Hks. transitivity s1; [eapply Hc, E | eapply Hk, Hks].
Qed.

Lemma pkeeps_modify R (f : S -> S) : (forall s, R s (f s)) -> pkeeps R (pmodify f).
Proof. intros Hf s a s' [= _ <-]. apply Hf. Qed.

Lemma pbind_Some {A B} (c : P S A) (k : A -> P S B) s b s' :
  pbind c k s = Some (b, s') ->
  exists a s1, c s = Some (a, s1) /\ k a s1 = Some (b, s').
Proof.
  unfold pbind. destruct (c s) as [[a s1] |]; [eauto | discriminate].
Qed.
End PartialFacts.

Lemma pbind_eq {S A B} (c : P S A) (k : A -> P S B) s a s1 :
  c s = Some (a, s1) -> pbind c k s = k a s1.
Proof. unfold pbind. intros ->. reflexivity. Qed.

Ltac pkeeps_step :=
  match goal with
  | |- pkeeps _ (pbind _ _) => apply pkeeps_bind; [typeclasses eauto | | intros ?]
  | |- pkeeps _ (pret _) => apply pkeeps_ret; typeclasses eauto
  | |- pkeeps _ (pgets _) => apply pkeeps_gets; typeclasses eauto
  | |- pkeeps _ undefined => apply pkeeps_undefined
  | |- pkeeps _ (match ?x with _ => _ end) => destruct x
  | |- pkeeps _ (if ?x then _ else _) => destruct x
  end.

Section CameraFacts.
Import V4L2 Cam.
Context `{CD : CameraDevice} `{SY : Sync}.

#[local] Instance same_camera_pre : PreOrder same_camera.
Proof. split; unfold same_camera; [intros s; reflexivity | intros x y z; congruence]. Qed.

#[local] Instance same_latch_pre : PreOrder same_latch.
Proof. split; unfold same_latch; [intros s; reflexivity | intros x y z; congruence]. Qed.


Lemma on_device_camera {A} (c : P dstate A) : pkeeps same_camera (on_device c).
Proof.
  intros s a s'. unfold on_device.
  destruct (c (device s)) as [[a' d'] |]; [| discriminate].
  intros [= _ <-]. reflexivity.
Qed.

Lemma deref_camera p : pkeeps same_camera (deref p).
Proof.
  intros s a s'. unfold deref. destruct (objects s !! p); [| discriminate].
  intros [= _ <-]. reflexivity.
Qed.

Lemma store_camera p st : pkeeps same_camera (store p st).
Proof. apply pkeeps_modify. reflexivity. Qed.

Lemma free_camera p : pkeeps same_camera (free p).
Proof. apply pkeeps_modify. reflexivity. Qed.

Lemma read_slot_camera a i : pkeeps same_camera (read_slot a i).
Proof. unfold read_slot. repeat pkeeps_step. Qed.

Lemma ufor_keeps {A} R `{!PreOrder R} (l : list A) (body : A -> U unit) :
  (forall x, pkeeps R (body x)) -> pkeeps R (ufor l body).
Proof.
  intros Hb. induction l as [| x l IH]; simpl.
  - apply pkeeps_ret; typeclasses eauto.
  - apply pkeeps_bind; [typeclasses eauto | apply Hb | intros _; exact IH].
Qed.

Create HintDb cam.
Hint Resolve on_device_camera deref_camera store_camera free_camera
     read_slot_camera : cam.

Ltac pkeeps_tac := repeat pkeeps_step; try solve [auto with cam].

Lemma destroyStreams_camera streams count :
  pkeeps same_camera (destroyStreams streams count).
Proof.
  unfold destroyStreams. destruct streams; [| pkeeps_tac].
  apply ufor_keeps; [typeclasses eauto |]. intros i. pkeeps_tac.
Qed.

Lemma reuseStream_camera a : pkeeps same_camera (reuseStream a).
Proof. unfold reuseStream. pkeeps_tac. Qed.

Lemma allocStream_camera a : pkeeps same_camera (allocStream a).
Proof. unfold allocStream. pkeeps_tac. Qed.

Lemma deref_all_camera a idx : pkeeps same_camera (deref_all a idx).
Proof. induction idx; simpl; pkeeps_tac. Qed.

Lemma isValidStreamSet_camera streams count mode :
  pkeeps same_camera (isValidStreamSet streams count mode).
Proof. unfold isValidStreamSet. pkeeps_tac. apply deref_all_camera. Qed.

Lemma setupStreams_camera a count uninit :
  pkeeps same_camera (setupStreams a count uninit).
Proof.
  unfold setupStreams. generalize (seq 0 (Z.to_nat count)) as idx.
  induction idx; simpl; pkeeps_tac.
Qed.

Lemma mark_unused_camera : pkeeps same_camera mark_unused.
Proof.
  unfold mark_unused. pkeeps_tac.
  apply ufor_keeps; [typeclasses eauto |]. intros i. pkeeps_tac.
Qed.

Lemma fill_streams_camera todo : forall i arr,
  pkeeps same_camera (fill_streams i todo arr).
Proof.
  induction todo as [| a todo IH]; intros i arr; simpl; pkeeps_tac;
    auto using reuseStream_camera, allocStream_camera.
Qed.

Lemma err_out_camera arr count res : pkeeps same_camera (err_out arr count res).
Proof. unfold err_out. pkeeps_tac. apply destroyStreams_camera. Qed.


(** Peels the first call off a hypothesis [pbind c k s = Some _]. *)
Ltac peel H a s1 E :=
  apply pbind_Some in H as (a & s1 & E & H).

Lemma err_out_code arr count res (s : HAL) r s' :
  err_out arr count res s = Some (r, s') ->
  r = (if res =? 0 then - EINVAL else res) /\ r <> 0.
Proof.
  unfold err_out. intros H. peel H u s1 E. injection H as <- _.
  split; [reflexivity |]. destruct (res =? 0) eqn:Hr; [discriminate |].
  apply Z.eqb_neq. exact Hr.
Qed.

(** A call of [configureStreams] that fails leaves the camera's
    members as they were, the latch apart. *)
Lemma configureStreams_failure_camera stream_config uninit (s : HAL) code cfg' s' :
  configureStreams stream_config uninit s = Some ((code, cfg'), s') ->
  code <> 0 ->
  camera s' = set_mSettingsSet false (camera s).
Proof.
  unfold configureStreams. intros H Hcode.
  peel H u s0 E0. injection E0 as _ <-.
  destruct stream_config as [cfg |]; [| injection H as _ _ <-; reflexivity].
  destruct (num_streams cfg =? 0); [injection H as _ _ <-; reflexivity |].
  peel H u1 s1 E1. apply mark_unused_camera in E1.
  peel H x s2 E2. apply fill_streams_camera in E2.
  destruct x as [[ok newStreams] streams'].
  assert (Hfail : forall res (s3 : HAL),
             camera s3 = camera s2 ->
             pbind (err_out newStreams (num_streams cfg) res)
                   (fun res => pret (res, Some (mkConfig streams' (operation_mode cfg))))
                   s3 = Some ((code, cfg'), s') ->
             camera s' = set_mSettingsSet false (camera s)).
  { intros res s3 Hs3 Hx. peel Hx r s4 E4. injection Hx as _ _ <-.
    apply err_out_camera in E4. unfold same_camera in *.
    rewrite E4, Hs3, E2, E1. reflexivity. }
  destruct (negb ok); [eapply Hfail; [reflexivity | exact H] |].
  peel H valid s3 E3. apply isValidStreamSet_camera in E3.
  destruct (negb valid); [eapply Hfail; [exact E3 | exact H] |].
  peel H res s4 E4. apply setupStreams_camera in E4.
  destruct (negb (res =? 0)).
  - eapply Hfail; [| exact H]. unfold same_camera in *. congruence.
  - peel H c s5 E5. peel H u6 s6 E6. peel H u7 s7 E7.
    injection H as <- _ _. contradiction.
Qed.


(** C1.  [completeRequest] makes exactly two calls into the framework
    and nothing else: first one [notify], then one
    [process_capture_result] with the request's frame number,
    settings and buffers.  The message is a shutter message with the
    timestamp of the settings' SENSOR_TIMESTAMP entry (as the
    unsigned 64-bit parameter) when [err] is 0 and that entry holds a
    single value; in every other case, an absent entry included, it
    is an error message with code ERROR_REQUEST. *)
Theorem completeRequest_one_notify_one_result
        (request : CaptureRequest) (err : Z) (s : HAL) :
  exists msg,
    completeRequest request err s
    = Some (tt, mkHAL (camera s) (objects s) (device s)
                      (process_capture_result
                         (mkResult (frame_number request) (settings request)
                                   (Z.of_nat (length (output_buffers request)))
                                   (output_buffers request)
                                   (input_buffer request) 1)
                         :: notify msg :: callbacks s)) /\
    msg = (if err =? 0
           then match settings request !! ANDROID_SENSOR_TIMESTAMP with
                | Some [timestamp] =>
                    CAMERA3_MSG_SHUTTER (frame_number request)
                                        (to_uint64 timestamp)
                | _ => CAMERA3_MSG_ERROR (frame_number request) None
                                         CAMERA3_MSG_ERROR_REQUEST
                end
           else CAMERA3_MSG_ERROR (frame_number request) None
                                  CAMERA3_MSG_ERROR_REQUEST).
Proof.
  unfold completeRequest, SingleTagValue.
  destruct (err =? 0); simpl.
  - destruct (settings request !! ANDROID_SENSOR_TIMESTAMP) as [[| v [| v' l]] |];
      simpl; eexists; repeat split.
  - eexists; repeat split.
Qed.

(** *** Templates *)


(** *** Streams across a failing [configureStreams] *)

#[local] Instance same_objects_pre : PreOrder same_objects.
Proof. split; unfold same_objects; [intros s; reflexivity | intros x y z; congruence]. Qed.

Lemma deref_objects p : pkeeps same_objects (deref p).
Proof.
  intros s a s'. unfold deref. destruct (objects s !! p); [| discriminate].
  intros [= _ <-]. reflexivity.
Qed.

Lemma read_slot_objects a i : pkeeps same_objects (read_slot a i).
Proof. unfold read_slot. repeat pkeeps_step. Qed.


Lemma deref_all_objects a idx : pkeeps same_objects (deref_all a idx).
Proof.
  induction idx; simpl; repeat pkeeps_step;
    auto using deref_objects, read_slot_objects.
Qed.

Lemma isValidStreamSet_objects streams count mode :
  pkeeps same_objects (isValidStreamSet streams count mode).
Proof. unfold isValidStreamSet. repeat pkeeps_step. apply deref_all_objects. Qed.

Lemma deref_Some p (s : HAL) st s' :
  deref p s = Some (st, s') -> s' = s /\ objects s !! p = Some st.
Proof.
  unfold deref. destruct (objects s !! p); [| discriminate].
  intros [= <- <-]. auto.
Qed.

Lemma read_slot_Some a i (s : HAL) p s' :
  read_slot a i s = Some (p, s') -> s' = s /\ a !! i = Some (Written p).
Proof.
  unfold read_slot. destruct (a !! i) as [[| q] |]; try discriminate.
  intros [= <- <-]. auto.
Qed.

Lemma tracked_store B i arr objs p st st' :
  objs !! p = Some st ->
  (p ∉ B -> mReuse st' = mReuse st) ->
  (mReuse st = true -> mReuse st' = true) ->
  tracked B i arr objs -> tracked B i arr (<[p := st']> objs).
Proof.
  intros Hp Hout Hin (HB & Hnew & Hold). split; [| split].
  - rewrite dom_insert_L. set_solver.
  - intros q sq Hq HqB. destruct (decide (p = q)) as [-> | Hne].
    + rewrite lookup_insert_eq in Hq. injection Hq as <-.
      rewrite Hout by exact HqB. eapply Hnew; eauto.
    + rewrite lookup_insert_ne in Hq by exact Hne. eapply Hnew; eauto.
  - intros k q Hk HqB. destruct (Hold k q Hk HqB) as (sq & Hq & Hr).
    destruct (decide (p = q)) as [-> | Hne].
    + exists st'. rewrite lookup_insert_eq. split; [reflexivity |].
      apply Hin. congruence.
    + exists sq. rewrite lookup_insert_ne by exact Hne. auto.
Qed.

(** Writing slot [i] keeps what is known of the slots below it. *)
Lemma tracked_write B i arr objs (x : option ptr) :
  (i < length arr)%nat ->
  (forall p, x = Some p -> p ∈ B ->
             exists st, objs !! p = Some st /\ mReuse st = true) ->
  tracked B i arr objs -> tracked B (S i) (<[i := Written x]> arr) objs.
Proof.
  intros Hlen Hx (HB & Hnew & Hold). split; [exact HB | split].
  - intros q sq Hq HqB. destruct (Hnew q sq Hq HqB) as (Hr & j & Hj & Hslot).
    split; [exact Hr |]. exists j. split; [lia |].
    rewrite list_lookup_insert_ne by lia. exact Hslot.
  - intros j q Hj HqB. destruct (decide (i = j)) as [<- | Hne].
    + rewrite list_lookup_insert_eq in Hj by exact Hlen.
      injection Hj as ->. apply Hx; auto.
    + rewrite list_lookup_insert_ne in Hj by exact Hne. eapply Hold; eauto.
Qed.

Lemma tracked_mono B i k arr objs :
  (i <= k)%nat -> tracked B i arr objs -> tracked B k arr objs.
Proof.
  intros Hik (HB & Hnew & Hold). split; [exact HB | split; [| exact Hold]].
  intros q sq Hq HqB. destruct (Hnew q sq Hq HqB) as (Hr & j & Hj & Hslot).
  split; [exact Hr |]. exists j. split; [lia | exact Hslot].
Qed.

Lemma fill_streams_tracked B todo : forall i arr (s : HAL) ok arr' streams' s',
  (forall a, a ∈ todo -> 0 < max_buffers a ->
             exists p, priv a = Some p /\ p ∈ B) ->
  (i + length todo <= length arr)%nat ->
  tracked B i arr (objects s) ->
  fill_streams i todo arr s = Some ((ok, arr', streams'), s') ->
  tracked B (i + length todo) arr' (objects s') /\ length arr' = length arr.
Proof.
  induction todo as [| a todo IH]; intros i arr s ok arr' streams' s' Hcfg Hlen Htr H.
  - injection H as _ <- _ <-. rewrite Nat.add_0_r. auto.
  - simpl in H, Hlen. peel H p s1 E1.
    assert (Hstep : tracked B (S i) (<[i := Written p]> arr) (objects s1)).
    { destruct (0 <? max_buffers a) eqn:Hmb.
      - (* a stream offered for reuse *)
        destruct (Hcfg a) as (q & Hq & HqB); [left | lia |].
        unfold reuseStream in E1. rewrite Hq in E1.
        peel E1 st s2 E2. apply deref_Some in E2 as [-> Hst].
        destruct (negb (isValidReuseStream st a)).
        + injection E1 as <- <-.
          apply tracked_write; [lia | discriminate | exact Htr].
        + peel E1 u s3 E3. injection E3 as _ <-. injection E1 as <- <-.
          simpl. apply tracked_write; [lia | |].
          * intros ? [= <-] _. exists (setReuse true st).
            rewrite lookup_insert_eq. auto.
          * eapply tracked_store; [exact Hst | | | exact Htr];
              [intros; contradiction | reflexivity].
      - (* a new stream *)
        unfold allocStream in E1. peel E1 objs s2 E2. injection E2 as <- <-.
        peel E1 u s3 E3. injection E3 as _ <-. injection E1 as <- <-. simpl.
        pose proof (is_fresh (dom (objects s))) as Hfresh.
        set (p0 := fresh (dom (objects s))) in *.
        destruct Htr as (HB & Hnew & Hold). split; [| split].
        + rewrite dom_insert_L. set_solver.
        + intros q sq Hq HqB. destruct (decide (p0 = q)) as [<- | Hne].
          * rewrite lookup_insert_eq in Hq. injection Hq as <-.
            split; [reflexivity |]. exists i. split; [lia |].
            apply list_lookup_insert_eq. lia.
          * rewrite lookup_insert_ne in Hq by exact Hne.
            destruct (Hnew q sq Hq HqB) as (Hr & k & Hk & Hslot).
            split; [exact Hr |]. exists k. split; [lia |].
            rewrite list_lookup_insert_ne by lia. exact Hslot.
        + intros k q Hk HqB.
          assert (Hne : p0 <> q) by (intros <-; apply Hfresh, HB, HqB).
          rewrite lookup_insert_ne by exact Hne.
          destruct (decide (i = k)) as [<- | Hik].
          * rewrite list_lookup_insert_eq in Hk by lia. congruence.
          * rewrite list_lookup_insert_ne in Hk by exact Hik. eapply Hold; eauto. }
    destruct p as [p |].
    + peel H x s2 E2. destruct x as [[ok2 arr2] rest2].
      injection H as <- <- _ <-.
      apply IH in E2; [| intros; apply Hcfg; [right |]; assumption
                       | rewrite length_insert; lia | exact Hstep].
      rewrite length_insert in E2. simpl.
      replace (i + S (length todo))%nat with (S i + length todo)%nat by lia.
      exact E2.
    + injection H as _ <- _ <-. rewrite length_insert. split; [| reflexivity].
      eapply tracked_mono; [| exact Hstep]. simpl. lia.
Qed.

Lemma destroy_loop_pending B arr m : forall k (s s' : HAL),
  pending B k arr (objects s) ->
  ufor (seq k m)
       (fun i =>
          pbind (read_slot arr i) (fun p =>
          match p with
          | None => pret tt
          | Some p =>
              pbind (deref p) (fun st =>
              if negb (mReuse st) then free p else pret tt)
          end)) s = Some (tt, s') ->
  pending B (k + m) arr (objects s').
Proof.
  induction m as [| m IH]; intros k s s' Hp H.
  - injection H as <-. rewrite Nat.add_0_r. exact Hp.
  - simpl in H. peel H u s1 E1.
    replace (k + S m)%nat with (S k + m)%nat by lia.
    apply (IH (S k) s1 s'); [| exact H]. clear IH H.
    peel E1 p s2 E2. apply read_slot_Some in E2 as [-> Hslot].
    destruct Hp as (HB & Hnew & Hold).
    destruct p as [p |].
    2:{ injection E1 as _ <-. split; [exact HB | split; [| exact Hold]].
        intros q sq Hq' HqB. destruct (Hnew q sq Hq' HqB) as (Hr & j & Hj & Hs).
        split; [exact Hr |]. exists j. split; [| exact Hs].
        destruct (decide (j = k)) as [-> | ?]; [| lia].
        rewrite Hslot in Hs. discriminate. }
    peel E1 st s3 E3. apply deref_Some in E3 as [-> Hst].
    destruct (decide (p ∈ B)) as [HpB | HpB].
    + destruct (Hold k p Hslot HpB) as (st' & Hst' & Hr).
      assert (st' = st) as -> by congruence. rewrite Hr in E1.
      injection E1 as _ <-.
      split; [exact HB | split; [| exact Hold]].
      intros q sq Hq' HqB. destruct (Hnew q sq Hq' HqB) as (Hr' & j & Hj & Hs).
      split; [exact Hr' |]. exists j. split; [| exact Hs].
      destruct (decide (j = k)) as [-> | ?]; [| lia].
      rewrite Hslot in Hs. injection Hs as ->. contradiction.
    + destruct (Hnew p st Hst HpB) as (Hr & _). rewrite Hr in E1.
      injection E1 as _ <-. simpl. split; [| split].
      * rewrite dom_delete_L. set_solver.
      * intros q sq Hq' HqB.
        destruct (decide (p = q)) as [<- | Hne];
          [rewrite lookup_delete_eq in Hq'; discriminate |].
        rewrite lookup_delete_ne in Hq' by exact Hne.
        destruct (Hnew q sq Hq' HqB) as (Hr' & j & Hj & Hs).
        split; [exact Hr' |]. exists j. split; [| exact Hs].
        destruct (decide (j = k)) as [-> | ?]; [| lia].
        rewrite Hslot in Hs. injection Hs as ->. contradiction.
      * intros j q Hj HqB. destruct (Hold j q Hj HqB) as (sq & Hq' & Hr').
        exists sq. split; [| exact Hr'].
        rewrite lookup_delete_ne; [exact Hq' | intros <-; contradiction].
Qed.

(** When every new stream sits in a slot, [destroyStreams] of the
    whole array leaves exactly the streams that were live at entry. *)
Lemma destroyStreams_tracked B arr (s s' : HAL) :
  tracked B (length arr) arr (objects s) ->
  destroyStreams (Some arr) (Z.of_nat (length arr)) s = Some (tt, s') ->
  dom (objects s') = B.
Proof.
  intros (HB & Hnew & Hold) H. unfold destroyStreams in H.
  rewrite Nat2Z.id in H.
  apply (destroy_loop_pending B arr (length arr) 0 s s') in H.
  - destruct H as (HB' & Hnew' & _). apply set_eq. intros p. split.
    + intros Hp. apply elem_of_dom in Hp as [st Hst].
      destruct (decide (p ∈ B)) as [? | HpB]; [assumption |].
      destruct (Hnew' p st Hst HpB) as (_ & j & Hj & Hs).
      apply lookup_lt_Some in Hs. simpl in Hj. lia.
    + apply HB'.
  - split; [exact HB | split; [| exact Hold]].
    intros p st Hst HpB. destruct (Hnew p st Hst HpB) as (Hr & j & Hj & Hs).
    split; [exact Hr |]. exists j. split; [lia | exact Hs].
Qed.

#[local] Instance same_streams_pre : PreOrder same_streams.
Proof. split; unfold same_streams; [intros s; reflexivity | intros x y z; congruence]. Qed.

Lemma mark_unused_streams : pkeeps same_streams mark_unused.
Proof.
  unfold mark_unused. apply pkeeps_bind; [typeclasses eauto | | intros c].
  { apply pkeeps_gets. typeclasses eauto. }
  apply ufor_keeps; [typeclasses eauto |]. intros i.
  destruct (mStreams c) as [a |]; [| apply pkeeps_undefined].
  intros s u s' H. peel H p s1 E1. apply read_slot_Some in E1 as [-> _].
  destruct p as [p |]; [| discriminate].
  peel H st s2 E2. apply deref_Some in E2 as [-> Hst].
  injection H as _ <-. unfold same_streams. simpl.
  rewrite dom_insert_L. apply elem_of_dom_2 in Hst. set_solver.
Qed.

(** When every stream was processed, slot [i + k] holds a live stream
    with the width of the [k]-th stream asked for; the slots below [i]
    are as before, and no live stream changes its width. *)
Lemma fill_streams_widths todo : forall i arr (s : HAL) arr' streams' s',
  (i + length todo <= length arr)%nat ->
  fill_streams i todo arr s = Some ((true, arr', streams'), s') ->
  (forall k a, todo !! k = Some a ->
               exists p st, arr' !! (i + k)%nat = Some (Written (Some p)) /\
                            objects s' !! p = Some st /\ mWidth st = width a) /\
  (forall j, (j < i)%nat -> arr' !! j = arr !! j) /\
  (forall p st, objects s !! p = Some st ->
                exists st', objects s' !! p = Some st' /\ mWidth st' = mWidth st).
Proof.
  induction todo as [| a todo IH]; intros i arr s arr' streams' s' Hlen H.
  - injection H as <- _ <-. split; [intros k a Hk; discriminate |]. eauto.
  - simpl in H, Hlen. peel H p s1 E1.
    destruct p as [p |]; [| discriminate].
    peel H x s2 E2. destruct x as [[ok2 arr2] rest2].
    injection H as -> <- _ <-.
    apply IH in E2 as (Hslots & Hbelow & Hkeep); [| rewrite length_insert; lia].
    assert (Hstep : (exists st, objects s1 !! p = Some st /\ mWidth st = width a) /\
                    (forall q st, objects s !! q = Some st ->
                                  exists st', objects s1 !! q = Some st' /\
                                              mWidth st' = mWidth st)).
    { destruct (0 <? max_buffers a).
      - unfold reuseStream in E1. destruct (priv a) as [q |]; [| discriminate].
        peel E1 st s3 E3. apply deref_Some in E3 as [-> Hst].
        destruct (isValidReuseStream st a) eqn:Hvalid; [| discriminate].
        peel E1 u s4 E4. injection E4 as _ <-. injection E1 as <- <-. simpl.
        unfold isValidReuseStream in Hvalid.
        apply andb_prop in Hvalid as [Hvalid _].
        apply andb_prop in Hvalid as [_ Hw]. apply Z.eqb_eq in Hw.
        split.
        + exists (setReuse true st). rewrite lookup_insert_eq. auto.
        + intros r sr Hr. destruct (decide (q = r)) as [<- | Hne].
          * exists (setReuse true st). rewrite lookup_insert_eq.
            split; [reflexivity | simpl; congruence].
          * exists sr. rewrite lookup_insert_ne by exact Hne. auto.
      - unfold allocStream in E1. peel E1 objs s3 E3. injection E3 as <- <-.
        peel E1 u s4 E4. injection E4 as _ <-. injection E1 as <- <-. simpl.
        split.
        + exists (newStream a). rewrite lookup_insert_eq. auto.
        + intros r sr Hr. exists sr. split; [| reflexivity].
          rewrite lookup_insert_ne; [exact Hr |].
          intros <-. apply (is_fresh (dom (objects s))).
          apply elem_of_dom_2 in Hr. exact Hr. }
    destruct Hstep as ((st & Hst & Hw) & Hkeep1).
    split; [| split].
    + intros [| k] b Hk; simpl in Hk.
      * injection Hk as <-. destruct (Hkeep p st Hst) as (st' & Hst' & Hw').
        exists p, st'. rewrite Nat.add_0_r, Hbelow by lia.
        rewrite list_lookup_insert_eq by lia. split; [reflexivity |].
        split; [exact Hst' | congruence].
      * replace (i + S k)%nat with (S i + k)%nat by lia. apply Hslots, Hk.
    + intros j Hj. rewrite Hbelow by lia. apply list_lookup_insert_ne. lia.
    + intros q sq Hq. destruct (Hkeep1 q sq Hq) as (sq1 & Hq1 & Hw1).
      destruct (Hkeep q sq1 Hq1) as (sq2 & Hq2 & Hw2).
      exists sq2. split; [exact Hq2 | congruence].
Qed.

Lemma deref_eq p (s : HAL) st : objects s !! p = Some st -> deref p s = Some (st, s).
Proof. unfold deref. intros ->. reflexivity. Qed.

Lemma read_slot_eq a i p (s : HAL) :
  a !! i = Some (Written p) -> read_slot a i s = Some (p, s).
Proof. unfold read_slot. intros ->. reflexivity. Qed.

(** Two slots that hold live streams are read as these streams. *)
Lemma deref_all_two p0 p1 st0 st1 (s : HAL) :
  objects s !! p0 = Some st0 -> objects s !! p1 = Some st1 ->
  deref_all [Written (Some p0); Written (Some p1)] [0; 1]%nat s
  = Some ([st0; st1], s).
Proof.
  intros H0 H1. cbn [deref_all].
  rewrite (pbind_eq _ _ _ _ _ (read_slot_eq [Written (Some p0); Written (Some p1)] 0 (Some p0) s eq_refl)).
  rewrite (pbind_eq _ _ _ _ _ (deref_eq _ _ _ H0)).
  erewrite pbind_eq; [reflexivity |].
  rewrite (pbind_eq _ _ _ _ _ (read_slot_eq [Written (Some p0); Written (Some p1)] 1 (Some p1) s eq_refl)).
  rewrite (pbind_eq _ _ _ _ _ (deref_eq _ _ _ H1)).
  reflexivity.
Qed.

(** Two slots that hold distinct live streams, neither marked for
    reuse, are destroyed one after the other. *)
Lemma destroy_two p0 p1 st0 st1 (s : HAL) :
  p0 <> p1 ->
  objects s !! p0 = Some st0 -> objects s !! p1 = Some st1 ->
  mReuse st0 = false -> mReuse st1 = false ->
  destroyStreams (Some [Written (Some p0); Written (Some p1)]) 2 s
  = Some (tt, set_objects (fun o => delete p1 (delete p0 o)) s).
Proof.
  intros Hne H0 H1 Hr0 Hr1. unfold destroyStreams.
  change (seq 0 (Z.to_nat 2)) with [0; 1]%nat. cbn [ufor].
  erewrite pbind_eq.
  2:{ rewrite (pbind_eq _ _ _ _ _ (read_slot_eq [Written (Some p0); Written (Some p1)] 0 (Some p0) s eq_refl)).
      rewrite (pbind_eq _ _ _ _ _ (deref_eq _ _ _ H0)).
      rewrite Hr0. reflexivity. }
  erewrite pbind_eq.
  2:{ rewrite (pbind_eq _ _ _ _ _ (read_slot_eq [Written (Some p0); Written (Some p1)] 1 (Some p1) _ eq_refl)).
      erewrite pbind_eq.
      2:{ apply deref_eq. simpl. rewrite lookup_delete_ne by exact Hne. exact H1. }
      rewrite Hr1. reflexivity. }
  reflexivity.
Qed.

Lemma mark_unused_defined (s : HAL) :
  streams_well_formed s ->
  exists objs, mark_unused s
               = Some (tt, mkHAL (camera s) objs (device s) (callbacks s)) /\
               dom objs = dom (objects s).
Proof.
  unfold streams_well_formed, mark_unused, pbind, pgets.
  destruct (mStreams (camera s)) as [a |].
  - intros Hwf.
    assert (Hidx : forall i, i ∈ seq 0 (Z.to_nat (mNumStreams (camera s))) ->
              exists p, a !! i = Some (Written (Some p)) /\ p ∈ dom (objects s)).
    { intros i Hi. apply Hwf. apply elem_of_seq in Hi. lia. }
    clear Hwf. revert Hidx.
    generalize (seq 0 (Z.to_nat (mNumStreams (camera s)))) as idx.
    destruct s as [c objs d cb]. simpl.
    intros idx. revert objs. induction idx as [| i idx IH]; intros objs Hidx.
    + exists objs. auto.
    + destruct (Hidx i) as (p & Hslot & Hp); [left |].
      apply elem_of_dom in Hp as [st Hst].
      destruct (IH (<[p := setReuse false st]> objs)) as (objs' & Hrun & Hdom).
      { intros j Hj. destruct (Hidx j) as (q & Hq & Hlive); [right; exact Hj |].
        exists q. split; [exact Hq |]. rewrite dom_insert_L. set_solver. }
      exists objs'. split.
      * cbn [ufor]. unfold pbind in *. unfold read_slot at 1.
        rewrite Hslot. unfold pret at 1, deref at 1. cbn [objects]. rewrite Hst.
        unfold store at 1, pmodify at 1, set_objects at 1. cbn. exact Hrun.
      * rewrite Hdom, dom_insert_L. apply elem_of_dom_2 in Hst. set_solver.
  - intros Hn. replace (Z.to_nat (mNumStreams (camera s))) with 0%nat by lia.
    simpl. exists (objects s). destruct s. auto.
Qed.

(** *** Further properties of the camera *)

Lemma preprocessCaptureBuffer_cases (b : camera3_stream_buffer_t) :
  (preprocessCaptureBuffer b = (0, preprocessed b) /\
   (acquire_fence b = -1 \/
    sync_wait (acquire_fence b) CAMERA_SYNC_TIMEOUT = 0)) \/
  (preprocessCaptureBuffer b
   = (sync_wait (acquire_fence b) CAMERA_SYNC_TIMEOUT, b) /\
   acquire_fence b <> -1 /\
   sync_wait (acquire_fence b) CAMERA_SYNC_TIMEOUT <> 0).
Proof.
  unfold preprocessCaptureBuffer, preprocessed.
  destruct (Z.eqb_spec (acquire_fence b) (-1)) as [Hf | Hf]; cbn [negb andb].
  - left. auto.
  - destruct (Z.eqb_spec (sync_wait (acquire_fence b) CAMERA_SYNC_TIMEOUT) 0)
      as [Hw | Hw]; cbn [negb]; [left | right]; auto.
Qed.

Lemma preprocess_all_success (buffers : list camera3_stream_buffer_t) :
  (preprocess_all buffers).1 = 0 ->
  (preprocess_all buffers).2 = map preprocessed buffers.
Proof.
  induction buffers as [| b bs IH]; [reflexivity |].
  cbn [preprocess_all].
  destruct (preprocessCaptureBuffer_cases b) as [[-> Hok] | (-> & Hf & Hw)].
  - cbn [negb Z.eqb]. destruct (preprocess_all bs) as [r bs']. simpl in *.
    intros ->. rewrite IH by reflexivity. reflexivity.
  - apply Z.eqb_neq in Hw as Hw'. rewrite Hw'. cbn [negb]. simpl.
    intros Hz. contradiction.
Qed.

(** The loop over the output buffers of a request stops at the first
    buffer whose acquire fence cannot be waited for.  The buffers
    before it have been taken over (fences -1, status OK), that buffer
    and the ones after it are as they were, and the loop's result is
    what [sync_wait] returned.  If there is no such buffer the result
    is 0 and all buffers have been taken over. *)
Theorem preprocess_all_stops_at_first_failure
        (buffers : list camera3_stream_buffer_t) :
  exists done rest,
    buffers = done ++ rest /\
    (preprocess_all buffers).2 = map preprocessed done ++ rest /\
    Forall (fun b => acquire_fence b = -1 \/
                     sync_wait (acquire_fence b) CAMERA_SYNC_TIMEOUT = 0) done /\
    match rest with
    | [] => (preprocess_all buffers).1 = 0
    | b :: _ =>
        acquire_fence b <> -1 /\
        (preprocess_all buffers).1
        = sync_wait (acquire_fence b) CAMERA_SYNC_TIMEOUT /\
        (preprocess_all buffers).1 <> 0
    end.
Proof.
  induction buffers as [| b bs IH].
  - exists [], []. simpl. auto.
  - cbn [preprocess_all].
    destruct (preprocessCaptureBuffer_cases b) as [[-> Hok] | (-> & Hf & Hw)].
    + cbn [negb Z.eqb].
      destruct IH as (done & rest & -> & Hres & Hdone & Hrest).
      exists (b :: done), rest.
      destruct (preprocess_all (done ++ rest)) as [r bs']. simpl in *.
      split; [reflexivity |]. split; [congruence |].
      split; [constructor; assumption | exact Hrest].
    + apply Z.eqb_neq in Hw as Hw'. rewrite Hw'. cbn [negb].
      exists [], (b :: bs). simpl.
      split; [reflexivity |]. split; [reflexivity |]. split; [constructor |].
      split; [exact Hf |]. split; [reflexivity | exact Hw].
Qed.

Lemma on_device_frame {A} (c : P dstate A) (s : HAL) a s' :
  on_device c s = Some (a, s') ->
  camera s' = camera s /\ objects s' = objects s /\
  callbacks s' = callbacks s /\ c (device s) = Some (a, device s').
Proof.
  unfold on_device. destruct (c (device s)) as [[a' d'] |]; [| discriminate].
  intros [= <- <-]. auto.
Qed.

(** [processCaptureRequest] touches nothing but the settings latch and
    the device: the streams, the stream objects, the templates and the
    calls into the framework are as before.  It never clears the
    latch.  It returns 0, -EINVAL or -ENODEV.  When it returns 0 the
    latch is set and the request had an output buffer; the latch is
    set as well when the call fails with -ENODEV, at a fence. *)
Theorem processCaptureRequest_effects
        (temp_request : option CaptureRequest) (s : HAL) (res : Z) (s' : HAL) :
  processCaptureRequest temp_request s = Some (res, s') ->
  (camera s' = camera s \/ camera s' = set_mSettingsSet true (camera s)) /\
  objects s' = objects s /\
  callbacks s' = callbacks s /\
  (res = 0 \/ res = - EINVAL \/ res = - ENODEV) /\
  (res = 0 ->
   mSettingsSet (camera s') = true /\
   exists request, temp_request = Some request /\
                   output_buffers request <> []) /\
  (res = - ENODEV -> mSettingsSet (camera s') = true) /\
  (mSettingsSet (camera s) = true -> mSettingsSet (camera s') = true).
Proof.
  unfold processCaptureRequest. intros H.
  assert (Hrej : forall (s0 : HAL),
             s0 = s ->
             (camera s0 = camera s \/
              camera s0 = set_mSettingsSet true (camera s)) /\
             objects s0 = objects s /\ callbacks s0 = callbacks s /\
             (- EINVAL = 0 \/ - EINVAL = - EINVAL \/ - EINVAL = - ENODEV) /\
             (- EINVAL = 0 ->
              mSettingsSet (camera s0) = true /\
              exists request, temp_request = Some request /\
                              output_buffers request <> []) /\
             (- EINVAL = - ENODEV -> mSettingsSet (camera s0) = true) /\
             (mSettingsSet (camera s) = true -> mSettingsSet (camera s0) = true)).
  { intros s0 ->. unfold EINVAL, ENODEV.
    repeat split; auto; try discriminate. }
  destruct temp_request as [request |];
    [| injection H as <- <-; apply Hrej; reflexivity].
  peel H c s0 E0. injection E0 as <- <-.
  destruct (isEmpty (settings request) && negb (mSettingsSet (camera s)));
    [injection H as <- <-; apply Hrej; reflexivity |].
  peel H valid s1 E1.
  apply on_device_frame in E1 as (Hc1 & Ho1 & Hb1 & _).
  destruct valid; cbn [negb] in H.
  2:{ injection H as <- <-. unfold EINVAL, ENODEV.
      rewrite Hc1, Ho1, Hb1. repeat split; auto; discriminate. }
  peel H u s2 E2. injection E2 as _ <-.
  assert (Hset : forall (s3 : HAL) r,
             camera s3 = set_mSettingsSet true (camera s) ->
             objects s3 = objects s -> callbacks s3 = callbacks s ->
             r = - EINVAL \/ r = - ENODEV \/ (r = 0 /\ output_buffers request <> []) ->
             (camera s3 = camera s \/
              camera s3 = set_mSettingsSet true (camera s)) /\
             objects s3 = objects s /\ callbacks s3 = callbacks s /\
             (r = 0 \/ r = - EINVAL \/ r = - ENODEV) /\
             (r = 0 ->
              mSettingsSet (camera s3) = true /\
              exists request0, Some request = Some request0 /\
                               output_buffers request0 <> []) /\
             (r = - ENODEV -> mSettingsSet (camera s3) = true) /\
             (mSettingsSet (camera s) = true -> mSettingsSet (camera s3) = true)).
  { intros s3 r Hc Ho Hb Hr. rewrite Hc, Ho, Hb.
    split; [auto |]. split; [reflexivity |]. split; [reflexivity |].
    split; [tauto |]. split; [| auto].
    intros ->. split; [reflexivity |].
    destruct Hr as [Hr | [Hr | [_ Hr]]];
      [unfold EINVAL in Hr; discriminate | unfold ENODEV in Hr; discriminate |].
    eauto. }
  destruct (Z.of_nat (length (output_buffers request)) <=? 0) eqn:Hn.
  { injection H as <- <-. apply Hset; simpl; auto; congruence. }
  destruct (preprocess_all (output_buffers request)) as [r buffers].
  destruct (negb (r =? 0)).
  { injection H as <- <-. apply Hset; simpl; auto; congruence. }
  peel H r2 s3 E3. apply on_device_frame in E3 as (Hc3 & Ho3 & Hb3 & _).
  injection H as <- <-. apply Hset; simpl in *; try congruence.
  right. right. split; [reflexivity |].
  intros Hnil. rewrite Hnil in Hn. discriminate.
Qed.

(** When [processCaptureRequest] returns 0, the device has accepted the
    request as valid and has then been handed the request with every
    output buffer taken over (fences -1, status OK); what
    [enqueueRequest] returned is not looked at.  When it returns an
    error, [enqueueRequest] has not been called: the device is as
    [isValidRequest] left it, or untouched. *)
Theorem processCaptureRequest_hands_over
        (request : CaptureRequest) (s : HAL) (res : Z) (s' : HAL) :
  processCaptureRequest (Some request) s = Some (res, s') ->
  (res = 0 ->
   exists d1 r,
     isValidRequest request (device s) = Some (true, d1) /\
     enqueueRequest (mkRequest (frame_number request) (settings request)
                               (input_buffer request)
                               (map preprocessed (output_buffers request)))
                    d1
     = Some (r, device s')) /\
  (res <> 0 ->
   device s' = device s \/
   exists valid, isValidRequest request (device s) = Some (valid, device s')).
Proof.
  unfold processCaptureRequest. intros H.
  peel H c s0 E0. injection E0 as <- <-.
  destruct (isEmpty (settings request) && negb (mSettingsSet (camera s)));
    [injection H as <- <-; split; [unfold EINVAL; discriminate | auto] |].
  peel H valid s1 E1.
  apply on_device_frame in E1 as (_ & _ & _ & Hvalid).
  destruct valid; cbn [negb] in H;
    [| injection H as <- <-; split; [unfold EINVAL; discriminate | eauto]].
  peel H u s2 E2. injection E2 as _ <-.
  destruct (Z.of_nat (length (output_buffers request)) <=? 0);
    [injection H as <- <-; split; [unfold EINVAL; discriminate | simpl; eauto] |].
  pose proof (preprocess_all_success (output_buffers request)) as Hpre.
  destruct (preprocess_all (output_buffers request)) as [r buffers].
  simpl in Hpre.
  destruct (Z.eqb_spec r 0) as [-> | Hr]; cbn [negb] in H;
    [| injection H as <- <-; split; [unfold ENODEV; discriminate | simpl; eauto]].
  peel H r2 s3 E3. apply on_device_frame in E3 as (_ & _ & _ & Henq).
  injection H as <- <-. simpl in Henq.
  split; [| intros Hne; contradiction].
  intros _. exists (device s1), r2. rewrite <- Hpre by reflexivity. auto.
Qed.

(** What is assumed of the device's [setupStream]: it returns 0 or a
    negative error number, and it leaves the reuse mark of the stream
    alone. *)
Hypothesis setupStream_result :
  forall st mb d r mb' st' d',
    setupStream st mb d = Some ((r, mb', st'), d') ->
    r <= 0 /\ mReuse st' = mReuse st.

Lemma setupStreams_tracked B n arr uninit idx : forall (s : HAL) res s',
  tracked B n arr (objects s) ->
  setupStreams_loop arr idx uninit s = Some (res, s') ->
  tracked B n arr (objects s') /\ res <= 0.
Proof using setupStream_result.
  induction idx as [| i idx IH]; intros s res s' Htr H; simpl in H.
  - injection H as <- <-. split; [exact Htr | lia].
  - peel H p s1 E1. apply read_slot_Some in E1 as [-> _].
    destruct p as [p |]; [| discriminate].
    peel H st s2 E2. apply deref_Some in E2 as [-> Hst].
    peel H x s3 E3. unfold on_device in E3.
    destruct (setupStream _ _ (device s)) as [[[[r mb] st'] d'] |] eqn:Hhook;
      [| discriminate].
    injection E3 as <- <-.
    apply setupStream_result in Hhook as [Hr Hre]. simpl in Hre.
    peel H u s4 E4. injection E4 as _ <-.
    assert (Htr1 : tracked B n arr (<[p := st']> (objects s))).
    { eapply tracked_store; [exact Hst | | | exact Htr]; intros; congruence. }
    destruct (negb (r =? 0)).
    + injection H as <- <-. simpl. auto.
    + peel H u' s5 E5. injection E5 as _ <-.
      eapply IH; [| exact H]. simpl.
      eapply tracked_store; [apply lookup_insert_eq | | | exact Htr1];
        intros; reflexivity || assumption.
Qed.

(** A failing [configureStreams] returns a negative error number and
    leaves live exactly the streams that were live at entry. *)
Lemma configureStreams_failure_streams stream_config uninit (s : HAL) code cfg' s' :
  offers_live_streams stream_config s ->
  configureStreams stream_config uninit s = Some ((code, cfg'), s') ->
  code <> 0 ->
  code < 0 /\ dom (objects s') = dom (objects s) /\
  (code = - EINVAL \/
   exists cfg, stream_config = Some cfg /\ num_streams cfg <> 0).
Proof using setupStream_result.
  unfold configureStreams. intros Hcfg H Hcode.
  peel H u s0 E0. injection E0 as _ <-.
  destruct stream_config as [cfg |];
    [| injection H as <- _ <-; unfold EINVAL; auto with lia].
  destruct (num_streams cfg =? 0) eqn:Hn;
    [injection H as <- _ <-; unfold EINVAL; auto with lia |].
  apply Z.eqb_neq in Hn.
  peel H u1 s1 E1. apply mark_unused_streams in E1. unfold same_streams in E1.
  simpl in E1.
  set (B := dom (objects s)) in *.
  peel H x s2 E2. destruct x as [[ok newStreams] streams'].
  apply (fill_streams_tracked B) in E2 as [Htr Hlen].
  2:{ intros a Ha Hmb. apply (Hcfg cfg a eq_refl Ha Hmb). }
  2:{ rewrite length_replicate. simpl. lia. }
  2:{ split; [rewrite E1; reflexivity | split].
      - intros p st Hp HpB. apply elem_of_dom_2 in Hp. rewrite E1 in Hp. contradiction.
      - intros j p Hj. apply lookup_replicate in Hj as [? _]. discriminate. }
  rewrite length_replicate in Hlen. simpl in Htr.
  assert (Hfail : forall res (s3 : HAL),
             tracked B (length newStreams) newStreams (objects s3) ->
             res <= 0 ->
             pbind (err_out newStreams (num_streams cfg) res)
                   (fun res => pret (res, Some (mkConfig streams' (operation_mode cfg))))
                   s3 = Some ((code, cfg'), s') ->
             code < 0 /\ dom (objects s') = B /\
             (code = - EINVAL \/
              exists cfg0, Some cfg = Some cfg0 /\ num_streams cfg0 <> 0)).
  { intros res s3 Htr3 Hres Hx. peel Hx r s4 E4. injection Hx as <- _ <-.
    pose proof (err_out_code _ _ _ _ _ _ E4) as [-> _].
    split; [destruct (res =? 0) eqn:Hz; [unfold EINVAL; lia |];
            apply Z.eqb_neq in Hz; lia |].
    split; [| right; eauto].
    unfold err_out in E4. peel E4 u4 s5 E5. injection E4 as <-.
    unfold num_streams in E5. rewrite <- Hlen in E5.
    destruct u4. eapply destroyStreams_tracked; eauto. }
  rewrite Hlen in Hfail.
  destruct (negb ok); [eapply (Hfail 0); [exact Htr | lia | exact H] |].
  peel H valid s3 E3. apply isValidStreamSet_objects in E3.
  unfold same_objects in E3.
  destruct (negb valid);
    [eapply (Hfail 0); [rewrite E3; exact Htr | lia | exact H] |].
  peel H res s4 E4. unfold setupStreams in E4.
  eapply setupStreams_tracked in E4 as [Htr4 Hres]; [| rewrite E3; exact Htr].
  destruct (negb (res =? 0)).
  - eapply Hfail; [exact Htr4 | exact Hres | exact H].
  - peel H c s5 E5. peel H u6 s6 E6. peel H u7 s7 E7.
    injection H as <- _ _. contradiction.
Qed.

(** *** Streams across a successful [configureStreams] *)




End CameraFacts.

Section V4L2CameraFacts.
Import V4L2 Cam V4L2Cam.
Context `{FQ : FormatQueries} `{SY : Sync}.
Variable base_metadata : CameraMetadata.

Existing Instance V4L2CameraDevice.

Local Notation "'HAL'" := (@Cam.HAL (V4L2CameraDevice base_metadata)).
Local Notation "'mkHAL'" := (@Cam.mkHAL (V4L2CameraDevice base_metadata)).
Local Abbreviation templates_ok := (V4L2Cam.templates_ok base_metadata).

Lemma SetupBuffers_nonpos (w : World) : (SetupBuffers w).1 <= 0.
Proof.
  unfold SetupBuffers, bind, gets, modify, ret.
  destruct (format_ (wrapper w)); [| simpl; unfold ENODEV; lia].
  destruct (IoctlLocked _ _ w) as [[res d] w1].
  destruct (unlockAllBuffers w1) as [gres w2].
  destruct (res <? 0); [simpl; unfold ENODEV; lia |].
  destruct (gres <? 0) eqn:Hg; [simpl; lia |].
  destruct (_ <? 1); simpl; unfold ENODEV; lia.
Qed.

Lemma SetFormat_nonpos stream mb (w : World) : (SetFormat stream mb w).1.1 <= 0.
Proof.
  unfold SetFormat, bind, gets, modify, ret.
  destruct (isInputType stream); [simpl; unfold EINVAL; lia |].
  destruct (match format_ (wrapper w) with Some f => _ | None => _ end);
    [simpl; lia |].
  destruct (IoctlLocked _ _ w) as [[res d] w1].
  destruct (res <? 0); [simpl; unfold ENODEV; lia |].
  destruct (negb _); [simpl; unfold EINVAL; lia |].
  match goal with
  | |- context [SetupBuffers ?w2] =>
      pose proof (SetupBuffers_nonpos w2); destruct (SetupBuffers w2) as [r w3]
  end.
  destruct (negb (r =? 0)); simpl in *; lia.
Qed.

(** [V4L2Camera::setupStream] returns 0 or a negative error number
    and leaves the reuse mark of the stream alone. *)
Lemma setupStream_result (stream : Stream) mb (d : V4L2Camera) r mb' st' d' :
  setupStream stream mb d = Some ((r, mb', st'), d') ->
  r <= 0 /\ mReuse st' = mReuse stream.
Proof.
  unfold setupStream.
  destruct (negb (mRotation stream =? CAMERA3_STREAM_ROTATION_0)).
  - intros [= <- _ <- _]. unfold EINVAL. split; [lia | reflexivity].
  - unfold pbind, on_wrapper.
    pose proof (SetFormat_nonpos (setDataSpace HAL_DATASPACE_V0_JFIF stream) mb
                                 (mV4L2Device d)) as Hn.
    destruct (SetFormat _ _ _) as [[res mb1] w1]. simpl in Hn.
    destruct (negb (res =? 0)); [intros [= <- _ <- _]; auto |].
    destruct (mb1 <? 1); intros [= <- _ <- _]; unfold ENODEV; split; (lia || reflexivity).
Qed.

(** Two streams of different width are not a supported set. *)
Lemma isSupportedStreamSet_width (c : V4L2Camera) st0 st1 count mode :
  mWidth st0 <> mWidth st1 ->
  isSupportedStreamSet c [st0; st1] count mode = false.
Proof.
  intros Hw. unfold isSupportedStreamSet.
  destruct (negb _); [reflexivity |].
  destruct (count <? 1); [reflexivity |].
  destruct (count_streams _ _) as [[[[ni nr] ns] nn] |]; [| reflexivity].
  destruct (_ || _); [reflexivity |].
  simpl. rewrite andb_true_r.
  replace (mWidth st1 =? mWidth st0) with false
    by (symmetry; apply Z.eqb_neq; congruence).
  simpl. rewrite orb_true_r. reflexivity.
Qed.

Ltac peel H a s1 E :=
  apply pbind_Some in H as (a & s1 & E & H).

(** Whatever the streams are, new or reused, a configuration of two
    streams of different width is answered with -EINVAL. *)
Lemma configureStreams_two_widths a0 a1 mode uninit (s : HAL) code cfg' s' :
  width a0 <> width a1 ->
  configureStreams (Some (mkConfig [a0; a1] mode)) uninit s
  = Some ((code, cfg'), s') ->
  code = - EINVAL.
Proof.
  intros Hw H. unfold configureStreams in H.
  peel H u s0 E0. clear E0.
  change (num_streams (mkConfig [a0; a1] mode)) with 2 in H.
  cbn [Z.eqb Pos.eqb streams length replicate operation_mode] in H.
  peel H u1 s1 E1. clear E1.
  peel H x s2 E2. destruct x as [[ok newStreams] streams'].
  assert (Herr : forall (s3 : HAL),
             pbind (err_out newStreams 2 0)
                   (fun res => pret (res, Some (mkConfig streams' mode)))
                   s3 = Some ((code, cfg'), s') ->
             code = - EINVAL).
  { intros s3 Hx. peel Hx r s4 E4. injection Hx as <- _ _.
    apply err_out_code in E4 as [-> _]. reflexivity. }
  destruct ok; [| eapply Herr, H].
  cbn [negb] in H.
  apply fill_streams_widths in E2 as (Hslots & _ & _); [| simpl; lia].
  destruct (Hslots 0%nat a0 eq_refl) as (p0 & st0 & Hs0 & Hp0 & Hw0).
  destruct (Hslots 1%nat a1 eq_refl) as (p1 & st1 & Hs1 & Hp1 & Hw1).
  simpl in Hs0, Hs1.
  peel H valid s3 E3.
  assert (valid = false) as ->; [| eapply Herr, H].
  unfold isValidStreamSet in E3.
  cbn [Z.eqb Z.to_nat Pos.to_nat Pos.iter_op Nat.add seq deref_all] in E3.
  peel E3 sts s4 E4.
  peel E4 q0 s5 E5. apply read_slot_Some in E5 as [-> Hq0].
  assert (q0 = Some p0) as -> by congruence.
  peel E4 t0 s5 E5. apply deref_Some in E5 as [-> Ht0].
  assert (t0 = st0) as -> by congruence.
  peel E4 rest s5 E5.
  peel E5 q1 s6 E6. apply read_slot_Some in E6 as [-> Hq1].
  assert (q1 = Some p1) as -> by congruence.
  peel E5 t1 s6 E6. apply deref_Some in E6 as [-> Ht1].
  assert (t1 = st1) as -> by congruence.
  injection E5 as <- <-. injection E4 as <- <-.
  destruct (_ <? 1); [injection E3 as <- _; reflexivity |].
  destruct (1 <? _); [injection E3 as <- _; reflexivity |].
  peel E3 d s5 E5. injection E3 as <- _.
  apply isSupportedStreamSet_width. congruence.
Qed.

(** Two new streams of different width: the call returns, with
    -EINVAL. *)
Lemma configureStreams_two_new_streams a0 a1 mode uninit (s : HAL) :
  streams_well_formed s ->
  max_buffers a0 <= 0 -> max_buffers a1 <= 0 ->
  width a0 <> width a1 ->
  exists cfg' s',
    configureStreams (Some (mkConfig [a0; a1] mode)) uninit s
    = Some ((- EINVAL, cfg'), s').
Proof.
  intros Hwf Hm0 Hm1 Hw.
  assert (Hwf0 : streams_well_formed (set_camera (set_mSettingsSet false) s))
    by exact Hwf.
  destruct (mark_unused_defined _ Hwf0) as (objs & Hmark & _).
  unfold configureStreams.
  change (num_streams (mkConfig [a0; a1] mode)) with 2.
  cbn [Z.eqb Pos.eqb streams length replicate operation_mode].
  erewrite pbind_eq; [| reflexivity].
  rewrite (pbind_eq _ _ _ _ _ Hmark).
  set (s1 := mkHAL _ objs _ _).
  set (p0 := fresh (dom objs)).
  set (o1 := <[p0 := newStream a0]> objs).
  set (p1 := fresh (dom o1)).
  set (o2 := <[p1 := newStream a1]> o1).
  set (arr := [Written (Some p0); Written (Some p1)]).
  assert (Hne : p0 <> p1).
  { intros Heq. apply (is_fresh (dom o1)). fold p1. rewrite <- Heq.
    unfold o1. rewrite dom_insert_L. set_solver. }
  assert (H0 : o2 !! p0 = Some (newStream a0)).
  { unfold o2, o1. rewrite lookup_insert_ne by congruence. apply lookup_insert_eq. }
  assert (H1 : o2 !! p1 = Some (newStream a1)) by apply lookup_insert_eq.
  set (s2 := mkHAL (camera s1) o2 (device s1) (callbacks s1)).
  assert (Hfill : fill_streams 0 [a0; a1] [Indeterminate; Indeterminate] s1
                  = Some ((true, arr,
                           [set_priv (Some p0) a0; set_priv (Some p1) a1]), s2)).
  { cbn [fill_streams].
    replace (0 <? max_buffers a0) with false by (symmetry; apply Z.ltb_ge; lia).
    replace (0 <? max_buffers a1) with false by (symmetry; apply Z.ltb_ge; lia).
    reflexivity. }
  rewrite (pbind_eq _ _ _ _ _ Hfill). cbn [negb].
  assert (Hvalid : isValidStreamSet (Some arr) 2 mode s2 = Some (false, s2)).
  { unfold isValidStreamSet. cbn [Z.eqb].
    change (seq 0 (Z.to_nat 2)) with [0; 1]%nat.
    rewrite (pbind_eq _ _ _ _ _ (deref_all_two p0 p1 _ _ s2 H0 H1)).
    destruct (_ <? 1); [reflexivity |].
    destruct (1 <? _); [reflexivity |].
    erewrite pbind_eq; [| reflexivity]. unfold pret.
    simpl. rewrite isSupportedStreamSet_width by exact Hw. reflexivity. }
  rewrite (pbind_eq _ _ _ _ _ Hvalid). cbn [negb].
  unfold err_out.
  erewrite pbind_eq.
  2:{ erewrite pbind_eq; [reflexivity |].
      apply (destroy_two p0 p1 _ _ s2 Hne H0 H1); reflexivity. }
  unfold pret. eauto.
Qed.

(** The failures of [configureStreams] that return.  Let every stream
    offered for reuse point to a live stream.  Whenever
    [configureStreams] returns a failure, the error number is
    negative, [mStreams] and [mNumStreams] are as before, and the
    streams that are live are exactly those that were live at entry:
    every stream created by the call has been destroyed and no other
    one.  A null or an empty configuration fails with -EINVAL, and so
    does a configuration of two streams that differ in width.  (A call
    need not return: when a reused stream fails its parameter check
    before the last slot of the new array is filled, the cleanup reads
    slots that were never assigned.) *)
Theorem configureStreams_failure_preserves_streams
        (stream_config : option camera3_stream_configuration_t)
        (uninit : nat -> Z) (s : HAL) :
  offers_live_streams stream_config s ->
  (forall code cfg' s',
      configureStreams stream_config uninit s = Some ((code, cfg'), s') ->
      code <> 0 ->
      code < 0 /\
      mStreams (camera s') = mStreams (camera s) /\
      mNumStreams (camera s') = mNumStreams (camera s) /\
      dom (objects s') = dom (objects s)) /\
  (stream_config = None \/
   (exists cfg, stream_config = Some cfg /\ streams cfg = []) ->
   configureStreams stream_config uninit s
   = Some ((- EINVAL, stream_config), set_camera (set_mSettingsSet false) s)) /\
  (forall a0 a1 mode,
      stream_config = Some (mkConfig [a0; a1] mode) ->
      width a0 <> width a1 ->
      (forall code cfg' s',
          configureStreams stream_config uninit s = Some ((code, cfg'), s') ->
          code = - EINVAL) /\
      (streams_well_formed s ->
       max_buffers a0 <= 0 -> max_buffers a1 <= 0 ->
       exists cfg' s',
         configureStreams stream_config uninit s
         = Some ((- EINVAL, cfg'), s'))).
Proof.
  intros Hlive. split; [| split].
  - intros code cfg' s' H Hcode.
    destruct (@configureStreams_failure_streams
                (V4L2CameraDevice base_metadata) setupStream_result
                _ _ _ _ _ _ Hlive H Hcode) as (Hneg & Hdom & _).
    rewrite (configureStreams_failure_camera _ _ _ _ _ _ H Hcode).
    auto.
  - intros [-> | (cfg & -> & Hnil)]; [reflexivity |].
    unfold configureStreams, num_streams. rewrite Hnil. reflexivity.
  - intros a0 a1 mode -> Hw. split.
    + intros code cfg' s'. apply configureStreams_two_widths. exact Hw.
    + intros Hwf Hm0 Hm1. apply configureStreams_two_new_streams; assumption.
Qed.

(** *** Templates of the V4L2 camera *)

#[local] Instance same_templates_pre : PreOrder same_templates.
Proof. split; unfold same_templates; [intros d; reflexivity | intros x y z; congruence]. Qed.








#[local] Instance same_template_at_pre k : PreOrder (same_template_at k).
Proof.
  split; unfold same_template_at; [intros d; reflexivity | intros x y z; congruence].
Qed.










#[local] Instance same_flag_pre : PreOrder same_flag.
Proof. split; unfold same_flag; [intros d; reflexivity | intros x y z; congruence]. Qed.









Lemma new_camera_templates_ok id objs w cbs :
  templates_ok (mkHAL (newCamera id) objs (newV4L2Camera w) cbs).
Proof.
  split; [intros k _; split; apply lookup_empty |].
  intros Hflag. discriminate.
Qed.



Lemma unsupported_valid type :
  unsupported_template type -> isValidTemplateType type = true.
Proof. intros [-> | ->]; reflexivity. Qed.

Lemma unsupported_not_supported type :
  unsupported_template type -> supported_template type -> False.
Proof.
  unfold supported_template, CAMERA3_TEMPLATE_PREVIEW,
    CAMERA3_TEMPLATE_VIDEO_SNAPSHOT.
  intros [-> | ->]; unfold CAMERA3_TEMPLATE_ZERO_SHUTTER_LAG,
    CAMERA3_TEMPLATE_MANUAL; lia.
Qed.


(** *** Further properties of the V4L2 camera *)

(** When [enqueueBuffer] returns 0 on a connected device with a format,
    every one of its four steps returned 0, and the device was asked,
    in this order and nothing else: VIDIOC_QUERYBUF, VIDIOC_QBUF,
    VIDIOC_STREAMON, VIDIOC_DQBUF, VIDIOC_STREAMOFF; the stream is
    turned on and off again for the format's buffer type. *)
Theorem enqueueBuffer_sequence
        (camera_buffer : Z) (w : World) (f : StreamFormat) (fd : Z) :
  format_ (wrapper w) = Some f ->
  device_fd_ (wrapper w) = Some fd ->
  (enqueueBuffer_on camera_buffer w).1 = 0 ->
  exists d1 d2 d3,
    issued (enqueueBuffer_on camera_buffer w).2
    = (VIDIOC_STREAMOFF, D_type (sf_type f))
        :: (VIDIOC_DQBUF, d3)
        :: (VIDIOC_STREAMON, D_type (sf_type f))
        :: (VIDIOC_QBUF, d2) :: (VIDIOC_QUERYBUF, d1) :: issued w.
Proof.
  intros Hf Hfd Hok.
  remember (enqueueBuffer_on camera_buffer w) as r eqn:Hr. symmetry in Hr.
  revert Hr. unfold enqueueBuffer_on. unfold bind at 1.
  pose proof (EnqueueBuffer_issued camera_buffer w f fd Hf Hfd) as H1.
  pose proof (EnqueueBuffer_keeps camera_buffer w) as [Hfd1 Hf1].
  destruct (EnqueueBuffer camera_buffer w) as [res1 w1].
  cbn [fst snd] in *.
  destruct (Z.eqb_spec res1 0) as [-> | Hne];
    [| simpl; intros <-; contradiction].
  destruct (H1 eq_refl) as (d1 & d2 & Hi1). clear H1.
  rewrite Hfd in Hfd1. rewrite Hf in Hf1.
  cbn [negb]. unfold bind at 1.
  pose proof (StreamOn_issued w1 f fd Hf1 Hfd1) as Hi2.
  pose proof (StreamOn_keeps w1) as [Hfd2 Hf2].
  destruct (StreamOn w1) as [res2 w2]. cbn [fst snd] in *.
  destruct (Z.eqb_spec res2 0) as [-> | Hne];
    [| simpl; intros <-; contradiction].
  rewrite Hfd1 in Hfd2. rewrite Hf1 in Hf2.
  cbn [negb]. unfold bind at 1.
  destruct (DequeueBuffer_issued w2 f fd Hf2 Hfd2) as (d3 & Hi3).
  pose proof (DequeueBuffer_keeps w2) as [Hfd3 Hf3].
  destruct (DequeueBuffer w2) as [[res3 buf] w3]. cbn [fst snd] in *.
  destruct (Z.eqb_spec res3 0) as [-> | Hne];
    [| simpl; intros <-; contradiction].
  rewrite Hfd2 in Hfd3. rewrite Hf2 in Hf3.
  cbn [negb]. unfold bind at 1.
  destruct (StreamOff_effects w3 f fd Hf3 Hfd3) as (Hi4 & _).
  destruct (StreamOff w3) as [res4 w4]. cbn [fst snd] in *.
  intros <-. exists d1, d2, d3.
  destruct (negb (res4 =? 0)); simpl; rewrite Hi4, Hi3, Hi2, Hi1; reflexivity.
Qed.

(** [V4L2Camera::connect] keeps the connection object it creates even
    when connecting failed, so that after a failed [openDevice] every
    further [openDevice] is refused with -EIO without the device being
    opened again: only [disconnect] drops the object, and [close]
    refuses to run on a camera that is not busy. *)
Theorem openDevice_after_failed_connect (s : HAL) (res : Z) (s1 : HAL) :
  mBusy (camera s) = false ->
  mConnection (device s) = None ->
  openDevice s = Some (res, s1) ->
  res <> 0 ->
  mBusy (camera s1) = false /\
  mConnection (device s1) <> None /\
  openDevice s1 = Some (- EIO, s1) /\
  close s1 = Some (- EINVAL, s1).
Proof.
  intros Hbusy Hconn H Hres. unfold openDevice in H.
  apply pbind_Some in H as (c & s0 & [= <- <-] & H).
  rewrite Hbusy in H.
  apply pbind_Some in H as (r & s2 & E & H).
  unfold on_device in E. simpl in E.
  unfold connect, pbind, pgets in E. simpl in E. rewrite Hconn in E.
  unfold Connection_new, on_wrapper, pmodify in E.
  destruct (Connect (mV4L2Device (device s))) as [status w1] eqn:Hc.
  simpl in E.
  destruct (Z.eqb_spec status 0) as [-> | Hstatus]; cbn [negb] in E, H.
  - injection E as <- <-. simpl in H.
    apply pbind_Some in H as (u & s3 & _ & H). injection H as <- _.
    contradiction.
  - injection E as <- <-.
    apply Z.eqb_neq in Hstatus as Hs. rewrite Hs in H. cbn [negb] in H.
    injection H as <- <-.
    split; [exact Hbusy |]. split; [discriminate |].
    unfold openDevice, close, pbind, pgets. simpl. rewrite Hbusy. simpl.
    unfold on_device. simpl. unfold connect, pbind, pgets. simpl.
    split; reflexivity.
Qed.

(** A successful [openDevice] followed by [close] gives the camera
    back as it was: not busy, without a connection object, and the
    camera's streams, templates and latch, the stream objects and the
    calls into the framework untouched.  While the camera is open a
    second [openDevice] is refused with -EBUSY and changes nothing. *)
Theorem open_close_round_trip (s s1 : HAL) :
  mBusy (camera s) = false ->
  mConnection (device s) = None ->
  openDevice s = Some (0, s1) ->
  openDevice s1 = Some (- EBUSY, s1) /\
  exists s2,
    close s1 = Some (0, s2) /\
    camera s2 = camera s /\
    objects s2 = objects s /\
    callbacks s2 = callbacks s /\
    mConnection (device s2) = None.
Proof.
  intros Hbusy Hconn H. unfold openDevice in H.
  apply pbind_Some in H as (c & s0 & [= <- <-] & H).
  rewrite Hbusy in H.
  apply pbind_Some in H as (r & s2 & E & H).
  unfold on_device in E. simpl in E.
  unfold connect, pbind, pgets in E. simpl in E. rewrite Hconn in E.
  unfold Connection_new, on_wrapper, pmodify in E.
  destruct (Connect (mV4L2Device (device s))) as [status w1] eqn:Hc.
  simpl in E.
  destruct (Z.eqb_spec status 0) as [-> | Hstatus]; cbn [negb] in E, H.
  2:{ injection E as <- <-.
      apply Z.eqb_neq in Hstatus as Hs. rewrite Hs in H. cbn [negb] in H.
      injection H as -> _. contradiction. }
  injection E as <- <-. simpl in H.
  apply pbind_Some in H as (u & s3 & [= _ <-] & H). injection H as <-.
  split.
  - unfold openDevice, pbind, pgets. reflexivity.
  - unfold close, pbind, pgets, pmodify, on_device. simpl.
    unfold disconnect, pbind, pgets, pmodify. simpl.
    unfold Connection_delete, on_wrapper. simpl.
    unfold Disconnect, bind, modify, ret. simpl.
    unfold unlockAllBuffers. simpl.
    destruct (gralloc_unlockAllBuffers (gralloc_ w1)) as [gres g1]. simpl.
    eexists. split; [reflexivity |]. simpl.
    destruct s as [cam objs dev cbs]. destruct cam. simpl in *.
    subst. repeat split; reflexivity.
Qed.

Lemma count_if_cons {A} (f : A -> bool) (x : A) (l : list A) :
  count_if f (x :: l) = (if f x then 1 else 0) + count_if f l.
Proof.
  unfold count_if. destruct (f x) eqn:Hx.
  - rewrite filter_cons_True by exact Hx. simpl length. lia.
  - rewrite filter_cons_False by (rewrite Hx; discriminate). lia.
Qed.

(** What the counting loop of [isSupportedStreamSet] has counted. *)
Lemma count_streams_counts (sts : list Stream) :
  forall ni nr ns nn ni' nr' ns' nn',
    count_streams sts (ni, nr, ns, nn) = Some (ni', nr', ns', nn') ->
    ni' = ni + count_if isInputType sts /\
    nr <= nr' /\ ns <= ns' /\ nn <= nn' /\
    (ns' - ns) + (nn' - nn) = count_if isOutputType sts /\
    Forall (fun st =>
              isOutputType st = true ->
              Category (StreamFormat_of_stream st) <> kFormatCategoryUnknown /\
              (Category (StreamFormat_of_stream st) = kFormatCategoryRaw ->
               nr + 1 <= nr')) sts.
Proof.
  induction sts as [| st rest IH]; intros ni nr ns nn ni' nr' ns' nn' H.
  - injection H as <- <- <- <-. unfold count_if. simpl.
    repeat split; try lia. constructor.
  - cbn [count_streams] in H. rewrite !count_if_cons.
    destruct (isOutputType st) eqn:Hout.
    + destruct (Category (StreamFormat_of_stream st)) eqn:Hcat;
        [| | | discriminate];
        apply IH in H as (-> & Hr & Hs & Hn & Hlen & Hall);
        (split; [destruct (isInputType st); lia |]);
        (split; [lia |]); (split; [lia |]); (split; [lia |]);
        (split; [lia |]);
        (constructor;
         [intros _; cbn beta; rewrite Hcat;
          split; [discriminate | intros Hraw; try discriminate; lia]
         | eapply Forall_impl; [exact Hall |];
           intros st' Hst' Ho; destruct (Hst' Ho) as [Hu Hraw];
           split; [exact Hu | intros Hc; specialize (Hraw Hc); lia]]).
    + apply IH in H as (-> & Hr & Hs & Hn & Hlen & Hall).
      split; [destruct (isInputType st); lia |].
      split; [lia |]. split; [lia |]. split; [lia |].
      split; [lia |].
      constructor; [intros Ho; cbn beta in Ho; congruence | exact Hall].
Qed.

(** What an accepted stream set looks like: normal mode, at least one
    stream, every stream of the format and size of the first, no
    output stream of an unknown format category, no more input streams
    than [mMaxInputStreams], a raw stream only if the camera admits
    raw streams, and no more output streams than the limits on
    stalling and non-stalling streams add up to. *)
Theorem isSupportedStreamSet_accepted
        (c : V4L2Camera) (sts : list Stream) (count mode : Z) :
  isSupportedStreamSet c sts count mode = true ->
  mode = CAMERA3_STREAM_CONFIGURATION_NORMAL_MODE /\
  1 <= count /\
  (exists first others,
      sts = first :: others /\
      Forall (fun st => mFormat st = mFormat first /\
                        mWidth st = mWidth first /\
                        mHeight st = mHeight first) others) /\
  count_if isInputType sts <= mMaxInputStreams c /\
  count_if isOutputType sts
  <= mMaxStallingOutputStreams c + mMaxNonStallingOutputStreams c /\
  Forall (fun st =>
            isOutputType st = true ->
            Category (StreamFormat_of_stream st) <> kFormatCategoryUnknown /\
            (Category (StreamFormat_of_stream st) = kFormatCategoryRaw ->
             1 <= mMaxRawOutputStreams c)) sts.
Proof.
  unfold isSupportedStreamSet.
  destruct (Z.eqb_spec mode CAMERA3_STREAM_CONFIGURATION_NORMAL_MODE)
    as [Hmode | _]; cbn [negb]; [| discriminate].
  destruct (Z.ltb_spec count 1) as [| Hcount]; [discriminate |].
  destruct (count_streams sts (0, 0, 0, 0)) as [[[[ni nr] ns] nn] |] eqn:Hc;
    [| discriminate].
  apply count_streams_counts in Hc as (Hi & Hr & Hs & Hn & Hlen & Hall).
  destruct (_ || _) eqn:Hlimits; [discriminate |].
  apply orb_false_elim in Hlimits as [Hlimits Hnn].
  apply orb_false_elim in Hlimits as [Hlimits Hns].
  apply orb_false_elim in Hlimits as [Hni Hnr].
  apply Z.ltb_ge in Hni, Hnr, Hns, Hnn.
  destruct sts as [| first others]; [discriminate |].
  intros Hsame. split; [exact Hmode |]. split; [exact Hcount |].
  split; [| split; [lia | split; [lia |]]].
  - exists first, others. split; [reflexivity |].
    unfold same_configuration in Hsame.
    rewrite forallb_forall in Hsame. apply Forall_forall.
    intros st Hst. apply list_elem_of_In in Hst. specialize (Hsame st Hst).
    apply negb_true_iff in Hsame.
    apply orb_false_elim in Hsame as [Hsame Hh].
    apply orb_false_elim in Hsame as [Hf Hw].
    apply negb_false_iff in Hf, Hw, Hh.
    apply Z.eqb_eq in Hf, Hw, Hh. auto.
  - eapply Forall_impl; [exact Hall |].
    intros st Hst Ho. destruct (Hst Ho) as [Hu Hraw].
    split; [exact Hu | intros Hc; specialize (Hraw Hc); lia].
Qed.

(** [setupStream] refuses a rotated stream with -EINVAL before it
    touches the stream or the device.  When it returns 0 the stream
    is an output stream without rotation whose data space has been
    overwritten with V0_JFIF, the device holds a format equal to the
    stream's, and [*max_buffers] is at least 1. *)
Theorem setupStream_outcomes
        (stream : Stream) (mb : Z) (d : V4L2Camera) r mb' st' d' :
  setupStream stream mb d = Some ((r, mb', st'), d') ->
  (mRotation stream <> CAMERA3_STREAM_ROTATION_0 ->
   r = - EINVAL /\ mb' = mb /\ st' = stream /\ d' = d) /\
  (r = 0 ->
   mRotation stream = CAMERA3_STREAM_ROTATION_0 /\
   isInputType stream = false /\
   st' = setDataSpace HAL_DATASPACE_V0_JFIF stream /\
   1 <= mb' /\
   exists f, format_ (wrapper (mV4L2Device d')) = Some f /\
             sf_eqb (StreamFormat_of_stream st') f = true).
Proof.
  unfold setupStream.
  destruct (Z.eqb_spec (mRotation stream) CAMERA3_STREAM_ROTATION_0)
    as [Hrot | Hrot]; cbn [negb].
  2:{ intros [= <- <- <- <-]. split; [auto |]. unfold EINVAL. discriminate. }
  intros H. split; [intros Hne; contradiction |].
  apply pbind_Some in H as ([res m] & d1 & E & H).
  unfold on_wrapper in E.
  pose proof (SetFormat_success_effects (mV4L2Device d)
                (setDataSpace HAL_DATASPACE_V0_JFIF stream) mb) as Hset.
  destruct (SetFormat _ mb (mV4L2Device d)) as [[res' m'] w1].
  injection E as -> -> <-. cbn [fst snd] in Hset.
  destruct (Z.eqb_spec res 0) as [-> | Hres]; cbn [negb] in H;
    [| injection H as <- _ _ _; intros Hz; contradiction].
  destruct (Hset eq_refl) as (Hin & Hcached & _).
  destruct (Z.ltb_spec m 1);
    [injection H as <- _ _ _; unfold ENODEV; discriminate |].
  injection H as _ <- <- <-. intros _.
  split; [exact Hrot |]. split; [exact Hin |]. split; [reflexivity |].
  split; [assumption |]. exact Hcached.
Qed.

(** When the device already holds the stream's format, [SetFormat]
    returns at once and does not write [*max_buffers]: [setupStream]
    then judges the value the caller's variable held, and hands it
    back.  ([Camera::setupStreams] passes a local variable it has not
    initialized.) *)
Theorem setupStream_cached_format
        (stream : Stream) (mb : Z) (d : V4L2Camera) (f : StreamFormat) :
  mRotation stream = CAMERA3_STREAM_ROTATION_0 ->
  isInputType stream = false ->
  format_ (wrapper (mV4L2Device d)) = Some f ->
  sf_eqb (StreamFormat_of_stream (setDataSpace HAL_DATASPACE_V0_JFIF stream)) f
  = true ->
  setupStream stream mb d
  = Some ((if mb <? 1 then - ENODEV else 0, mb,
           setDataSpace HAL_DATASPACE_V0_JFIF stream), d).
Proof.
  intros Hrot Hin Hf Heq. unfold setupStream.
  rewrite Hrot. cbn [Z.eqb negb CAMERA3_STREAM_ROTATION_0].
  unfold pbind, on_wrapper, SetFormat.
  change (isInputType (setDataSpace HAL_DATASPACE_V0_JFIF stream))
    with (isInputType stream).
  rewrite Hin. unfold bind, gets. rewrite Hf, Heq. unfold ret.
  cbn [Z.eqb negb].
  assert (Hd : with_device (fun _ => mV4L2Device d) d = d) by (destruct d; reflexivity).
  rewrite Hd. destruct (mb <? 1); reflexivity.
Qed.

Lemma select_fps_ranges_invariant (ranges : list (Z * Z)) :
  forall bf bv flat var flat' var',
    select_fps_ranges ranges bf bv flat var = (flat', var') ->
    match flat with Some f => flat_distance f = bf | None => True end ->
    match var with Some v => variable_distance v = bv | None => True end ->
    match flat' with
    | Some f' =>
        (Some f' = flat \/ (f'.1 = f'.2 /\ f' ∈ ranges)) /\
        flat_distance f' <= bf /\
        (forall r, r ∈ ranges -> r.1 = r.2 -> flat_distance f' <= flat_distance r)
    | None =>
        flat = None /\
        forall r, r ∈ ranges -> r.1 = r.2 -> bf <= flat_distance r
    end /\
    match var' with
    | Some v' =>
        (Some v' = var \/ v' ∈ ranges) /\
        variable_distance v' <= bv /\
        (forall r, r ∈ ranges -> variable_distance v' <= variable_distance r)
    | None =>
        var = None /\
        forall r, r ∈ ranges -> bv <= variable_distance r
    end.
Proof.
  induction ranges as [| [r0 r1] rest IH];
    intros bf bv flat var flat' var' H Hf Hv.
  - injection H as <- <-. split.
    + destruct flat as [f |].
      * split; [auto |]. split; [lia |]. intros r Hr. inversion Hr.
      * split; [reflexivity |]. intros r Hr. inversion Hr.
    + destruct var as [v |].
      * split; [auto |]. split; [lia |]. intros r Hr. inversion Hr.
      * split; [reflexivity |]. intros r Hr. inversion Hr.
  - cbn [select_fps_ranges] in H.
    fold (variable_distance (r0, r1)) in H.
    fold (flat_distance (r0, r1)) in H.
    set (var1 := if variable_distance (r0, r1) <? bv then Some (r0, r1) else var)
      in *.
    set (bv1 := if variable_distance (r0, r1) <? bv
                then variable_distance (r0, r1) else bv) in *.
    set (flat1 := if (r0 =? r1) && (flat_distance (r0, r1) <? bf)
                  then Some (r0, r1) else flat) in *.
    set (bf1 := if (r0 =? r1) && (flat_distance (r0, r1) <? bf)
                then flat_distance (r0, r1) else bf) in *.
    assert (H' : select_fps_ranges rest bf1 bv1 flat1 var1 = (flat', var')).
    { rewrite <- H.
      unfold var1, bv1, flat1, bf1, variable_distance, flat_distance.
      cbn [fst snd].
      destruct (Z.abs (r0 - 5) + Z.abs (r1 - 30) <? bv);
        destruct ((r0 =? r1) && (Z.abs (r0 - 30) + Z.abs (r1 - 30) <? bf));
        reflexivity. }
    clear H.
    assert (Hf1 : match flat1 with
                  | Some f => flat_distance f = bf1
                  | None => True
                  end).
    { unfold flat1, bf1. destruct (_ && _); [reflexivity | exact Hf]. }
    assert (Hv1 : match var1 with
                  | Some v => variable_distance v = bv1
                  | None => True
                  end).
    { unfold var1, bv1. destruct (_ <? _); [reflexivity | exact Hv]. }
    destruct (IH _ _ _ _ _ _ H' Hf1 Hv1) as [IHf IHv]. clear IH H'.
    split.
    + assert (Hstep : bf1 <= bf /\
                      (r0 = r1 -> bf1 <= flat_distance (r0, r1)) /\
                      (flat1 = flat \/
                       flat1 = Some (r0, r1) /\ r0 = r1)).
      { unfold bf1, flat1.
        destruct (Z.eqb_spec r0 r1) as [He | He]; cbn [andb].
        - destruct (Z.ltb_spec (flat_distance (r0, r1)) bf);
            repeat split; auto; lia.
        - repeat split; auto; try lia. }
      destruct Hstep as (Hle & Hhere & Hflat1).
      destruct flat' as [f' |].
      * destruct IHf as (Hmem & Hd & Hmin).
        split; [| split; [lia |]].
        -- destruct Hmem as [Hmem | [Hfl Hmem]].
           ++ destruct Hflat1 as [Hsame | [Hnew Heq]].
              ** left. congruence.
              ** right. rewrite Hnew in Hmem. injection Hmem as ->.
                 split; [exact Heq | left].
           ++ right. split; [exact Hfl | right; exact Hmem].
        -- intros r Hr Hrf. apply elem_of_cons in Hr as [-> | Hr].
           ++ specialize (Hhere Hrf). lia.
           ++ apply Hmin; assumption.
      * destruct IHf as (Hnone & Hmin).
        destruct Hflat1 as [Hsame | [Hnew _]]; [| congruence].
        split; [congruence |].
        intros r Hr Hrf. apply elem_of_cons in Hr as [-> | Hr].
        -- clear - Hnone Hrf. subst flat1. simpl in Hrf. subst r1.
           rewrite Z.eqb_refl in Hnone. cbn [andb] in Hnone.
           destruct (Z.ltb_spec (flat_distance (r0, r0)) bf);
             [discriminate | assumption].
        -- assert (Hbf : bf1 = bf)
             by (clear - Hnone; subst flat1 bf1;
                 destruct (_ && _); [discriminate | reflexivity]).
           specialize (Hmin r Hr Hrf). lia.
    + assert (Hstep : bv1 <= bv /\ bv1 <= variable_distance (r0, r1) /\
                      (var1 = var \/ var1 = Some (r0, r1))).
      { unfold bv1, var1.
        destruct (Z.ltb_spec (variable_distance (r0, r1)) bv);
          repeat split; auto; lia. }
      destruct Hstep as (Hle & Hhere & Hvar1).
      destruct var' as [v' |].
      * destruct IHv as (Hmem & Hd & Hmin).
        split; [| split; [lia |]].
        -- destruct Hmem as [Hmem | Hmem]; [| right; right; exact Hmem].
           destruct Hvar1 as [Hsame | Hnew].
           ++ left. congruence.
           ++ right. rewrite Hnew in Hmem. injection Hmem as ->. left.
        -- intros r Hr. apply elem_of_cons in Hr as [-> | Hr];
             [lia | apply Hmin; assumption].
      * destruct IHv as (Hnone & Hmin).
        destruct Hvar1 as [Hsame | Hnew]; [| congruence].
        split; [congruence |].
        intros r Hr. apply elem_of_cons in Hr as [-> | Hr].
        -- clear - Hnone. subst var1.
           destruct (Z.ltb_spec (variable_distance (r0, r1)) bv);
             [discriminate | assumption].
        -- assert (Hbv : bv1 = bv)
             by (clear - Hnone; subst var1 bv1;
                 destruct (_ <? _); [discriminate | reflexivity]).
           specialize (Hmin r Hr). lia.
Qed.

(** The search of [initTemplates] over the advertised FPS ranges, for
    ranges whose distances stay below INT32_MAX: the variable range it
    picks is one of the ranges and none is closer to (5, 30); the flat
    range it picks is one of the flat ranges and no flat range is
    closer to (30, 30).  It picks no variable range only when there is
    no range, and no flat range only when no range is flat: then the
    template would be built from an array that was never assigned. *)
Theorem select_fps_ranges_closest
        (ranges : list (Z * Z)) (flat var : option (Z * Z)) :
  select_fps_ranges ranges INT32_MAX INT32_MAX None None = (flat, var) ->
  Forall (fun r => variable_distance r < INT32_MAX /\
                   flat_distance r < INT32_MAX) ranges ->
  match var with
  | Some v =>
      v ∈ ranges /\
      forall r, r ∈ ranges -> variable_distance v <= variable_distance r
  | None => ranges = []
  end /\
  match flat with
  | Some f =>
      f ∈ ranges /\ f.1 = f.2 /\
      forall r, r ∈ ranges -> r.1 = r.2 -> flat_distance f <= flat_distance r
  | None => forall r, r ∈ ranges -> r.1 <> r.2
  end.
Proof.
  intros H Hbound.
  destruct (select_fps_ranges_invariant ranges _ _ _ _ _ _ H I I) as [Hf Hv].
  rewrite Forall_forall in Hbound.
  split.
  - destruct var as [v |].
    + destruct Hv as ([Hv | Hv] & _ & Hmin); [discriminate | auto].
    + destruct Hv as [_ Hv]. destruct ranges as [| r rest]; [reflexivity |].
      specialize (Hv r (list_elem_of_here _ _)).
      destruct (Hbound r (list_elem_of_here _ _)). lia.
  - destruct flat as [f |].
    + destruct Hf as ([Hf | [Hfl Hf]] & _ & Hmin); [discriminate | auto].
    + destruct Hf as [_ Hf]. intros r Hr Hflat.
      specialize (Hf r Hr Hflat). destruct (Hbound r Hr). lia.
Qed.

Lemma set_mem_spec (x : Z) (l : list Z) : set_mem x l = true <-> x ∈ l.
Proof.
  unfold set_mem. rewrite existsb_exists. split.
  - intros (y & Hy & Heq). apply Z.eqb_eq in Heq. subst y.
    apply list_elem_of_In. exact Hy.
  - intros Hx. exists x. split; [apply list_elem_of_In; exact Hx | apply Z.eqb_refl].
Qed.

(** The AF modes [initTemplates] picks for the still and for the video
    templates are among the modes the camera advertises, by the
    priority continuous, then auto, then off, then the first mode
    advertised; there is no choice only when no mode is advertised,
    where the code reads the first element of an empty vector. *)
Theorem select_af_modes_priority (af_modes : list Z) :
  match select_af_modes af_modes with
  | None => af_modes = []
  | Some (still, video) =>
      still ∈ af_modes /\ video ∈ af_modes /\
      (ANDROID_CONTROL_AF_MODE_CONTINUOUS_PICTURE ∈ af_modes ->
       still = ANDROID_CONTROL_AF_MODE_CONTINUOUS_PICTURE) /\
      (ANDROID_CONTROL_AF_MODE_CONTINUOUS_VIDEO ∈ af_modes ->
       video = ANDROID_CONTROL_AF_MODE_CONTINUOUS_VIDEO) /\
      (ANDROID_CONTROL_AF_MODE_CONTINUOUS_PICTURE ∉ af_modes ->
       ANDROID_CONTROL_AF_MODE_CONTINUOUS_VIDEO ∉ af_modes ->
       still = video /\
       (ANDROID_CONTROL_AF_MODE_AUTO ∈ af_modes ->
        still = ANDROID_CONTROL_AF_MODE_AUTO) /\
       (ANDROID_CONTROL_AF_MODE_AUTO ∉ af_modes ->
        ANDROID_CONTROL_AF_MODE_OFF ∈ af_modes ->
        still = ANDROID_CONTROL_AF_MODE_OFF) /\
       (ANDROID_CONTROL_AF_MODE_AUTO ∉ af_modes ->
        ANDROID_CONTROL_AF_MODE_OFF ∉ af_modes ->
        head af_modes = Some still))
  end.
Proof.
  unfold select_af_modes. destruct af_modes as [| first rest]; [reflexivity |].
  set (l := first :: rest).
  assert (Hfirst : first ∈ l) by apply list_elem_of_here.
  pose proof (set_mem_spec ANDROID_CONTROL_AF_MODE_AUTO l) as Hauto.
  pose proof (set_mem_spec ANDROID_CONTROL_AF_MODE_OFF l) as Hoff.
  pose proof (set_mem_spec ANDROID_CONTROL_AF_MODE_CONTINUOUS_PICTURE l) as Hcp.
  pose proof (set_mem_spec ANDROID_CONTROL_AF_MODE_CONTINUOUS_VIDEO l) as Hcv.
  destruct (set_mem ANDROID_CONTROL_AF_MODE_AUTO l);
    destruct (set_mem ANDROID_CONTROL_AF_MODE_OFF l);
    destruct (set_mem ANDROID_CONTROL_AF_MODE_CONTINUOUS_PICTURE l);
    destruct (set_mem ANDROID_CONTROL_AF_MODE_CONTINUOUS_VIDEO l);
    repeat match goal with
           | H : true = true <-> _ |- _ =>
               let H' := fresh in
               pose proof (proj1 H eq_refl) as H'; clear H
           | H : false = true <-> ?P |- _ =>
               let H' := fresh in
               assert (H' : ~ P) by (intros Hp; apply H in Hp; discriminate);
               clear H
           end;
    repeat split; intros; auto; try contradiction.
Qed.


End V4L2CameraFacts.

(** ** The frame rates of the static characteristics *)

Section FrameRates.
Import V4L2 Cam V4L2Cam.
Context `{FQ : FormatQueries}.

Lemma fold_min_comm (l : list Z) (a b : Z) :
  fold_left Z.min l (Z.min a b) = Z.min (fold_left Z.min l a) b.
Proof.
  revert a. induction l as [| x l IH]; intros a; simpl; [reflexivity |].
  rewrite <- IH. f_equal. lia.
Qed.

Lemma yuv_entries_pair (hal_format : Z) (ranges : list (Z * Z)) :
  yuv_entries (map (pair hal_format) ranges)
  = if hal_format =? HAL_PIXEL_FORMAT_YCbCr_420_888
    then map (pair hal_format) ranges else [].
Proof.
  unfold yuv_entries. induction ranges as [| r l IH]; simpl.
  - destruct (_ =? _); reflexivity.
  - destruct (Z.eqb_spec hal_format HAL_PIXEL_FORMAT_YCbCr_420_888) as [E | E].
    + rewrite filter_cons_True by exact E. rewrite IH. reflexivity.
    + rewrite filter_cons_False by exact E. exact IH.
Qed.

Lemma fps_of_duration_quot (duration : Z) :
  duration <> 0 -> fps_of_duration duration = Some (Z.quot 1000000000 duration).
Proof.
  intros Hd. unfold fps_of_duration.
  destruct (Z.eqb_spec duration 0) as [E | _]; [contradiction |].
  f_equal. unfold to_int32.
  assert (H : - 1000000000 <= Z.quot 1000000000 duration <= 1000000000).
  { destruct (Z.lt_total duration 0) as [Hn | [Hz | Hp]]; [| contradiction |].
    - rewrite <- (Z.opp_involutive duration), Z.quot_opp_r by lia.
      assert (H := Z.quot_pos 1000000000 (- duration)).
      assert (H' := Z.quot_le_upper_bound 1000000000 (- duration) 1000000000).
      nia.
    - assert (H := Z.quot_pos 1000000000 duration).
      assert (H' := Z.quot_le_upper_bound 1000000000 duration 1000000000).
      nia. }
  rewrite Z.mod_small; lia.
Qed.

Lemma min_ltb (a b : Z) : (if a <? b then a else b) = Z.min b a.
Proof. destruct (Z.ltb_spec a b); lia. Qed.

(** The loop over the frame sizes reads what [size_durations] reads,
    and keeps the running minima of the two durations. *)
Lemma frame_sizes_loop_durations hal_format v4l2_format frame_sizes :
  forall m (c : V4L2Camera),
    let survey := size_durations v4l2_format frame_sizes (mV4L2Device c) in
    exists c',
      frame_sizes_loop hal_format v4l2_format frame_sizes m c
      = Some ((survey.1.1,
               if hal_format =? HAL_PIXEL_FORMAT_YCbCr_420_888
               then fold_left Z.min (map fst survey.1.2) m else m), c') /\
      mV4L2Device c' = survey.2 /\
      mMaxFrameDuration c'
      = fold_left Z.min (map snd survey.1.2) (mMaxFrameDuration c) /\
      mFpsRanges c' = mFpsRanges c.
Proof.
  induction frame_sizes as [| frame_size rest IH]; intros m c; cbn zeta.
  - exists c. simpl. destruct (_ =? _); auto.
  - cbn [frame_sizes_loop size_durations].
    unfold pbind at 1. unfold on_wrapper at 1.
    destruct (GetFormatFrameDurationRange v4l2_format frame_size (mV4L2Device c))
      as [[res range] w1].
    destruct (res =? 0) eqn:Hres; cbn [negb].
    + set (c1 := with_device (fun _ => w1) c).
      unfold pbind at 1. unfold pgets at 1.
      set (c2 := if range.2 <? mMaxFrameDuration c1
                 then set_mMaxFrameDuration range.2 c1 else c1).
      assert (E2 : pbind (if range.2 <? mMaxFrameDuration c1
                          then pmodify (set_mMaxFrameDuration range.2)
                          else pret tt)
                         (fun _ =>
                            pbind (pmodify (push_size hal_format frame_size range.1
                                     (if hal_format =? HAL_PIXEL_FORMAT_BLOB
                                      then 1000000000 else 0)))
                              (fun _ => frame_sizes_loop hal_format v4l2_format rest
                                 (if (hal_format =? HAL_PIXEL_FORMAT_YCbCr_420_888)
                                     && (range.1 <? m) then range.1 else m))) c1
                   = frame_sizes_loop hal_format v4l2_format rest
                       (if (hal_format =? HAL_PIXEL_FORMAT_YCbCr_420_888)
                           && (range.1 <? m) then range.1 else m)
                       (push_size hal_format frame_size range.1
                          (if hal_format =? HAL_PIXEL_FORMAT_BLOB
                           then 1000000000 else 0) c2)).
      { unfold c2. destruct (range.2 <? mMaxFrameDuration c1); reflexivity. }
      change (id c1) with c1. rewrite E2. clear E2.
      set (m2 := if (hal_format =? HAL_PIXEL_FORMAT_YCbCr_420_888)
                    && (range.1 <? m) then range.1 else m).
      set (c3 := push_size _ _ _ _ c2).
      destruct (IH m2 c3) as (c' & Hrun & Hdev & Hmax & Hfps).
      assert (Hdev3 : mV4L2Device c3 = w1).
      { unfold c3, c2. destruct (_ <? _); reflexivity. }
      assert (Hmax3 : mMaxFrameDuration c3 = Z.min (mMaxFrameDuration c) range.2).
      { unfold c3, c2. rewrite <- min_ltb.
        change (mMaxFrameDuration c1) with (mMaxFrameDuration c).
        destruct (_ <? _); reflexivity. }
      assert (Hfps3 : mFpsRanges c3 = mFpsRanges c).
      { unfold c3, c2. destruct (_ <? _); reflexivity. }
      rewrite Hdev3 in Hrun, Hdev, Hmax.
      destruct (size_durations v4l2_format rest w1) as [[res' ranges] w2].
      exists c'. cbn [fst snd map fold_left] in *.
      split; [| split; [exact Hdev | split; [| congruence]]].
      * rewrite Hrun. f_equal. f_equal. f_equal. unfold m2.
        destruct (hal_format =? HAL_PIXEL_FORMAT_YCbCr_420_888); cbn [andb];
          [| reflexivity].
        rewrite min_ltb. reflexivity.
      * rewrite Hmax, Hmax3. reflexivity.
    + assert (Hm : (if hal_format =? HAL_PIXEL_FORMAT_YCbCr_420_888 then m else m)
                   = m) by (destruct (_ =? _); reflexivity).
      eexists. cbn. rewrite Hm.
      split; [reflexivity |]. cbn. auto.
Qed.

Lemma map_pair_min hal_format (ranges : list (Z * Z)) :
  map (fun e : Z * (Z * Z) => e.2.1) (map (pair hal_format) ranges)
  = map fst ranges.
Proof. rewrite map_map. reflexivity. Qed.

Lemma map_pair_max hal_format (ranges : list (Z * Z)) :
  map (fun e : Z * (Z * Z) => e.2.2) (map (pair hal_format) ranges)
  = map snd ranges.
Proof. rewrite map_map. reflexivity. Qed.

Lemma yuv_min_pair hal_format ranges m :
  fold_left Z.min
    (map (fun e : Z * (Z * Z) => e.2.1)
         (yuv_entries (map (pair hal_format) ranges))) m
  = if hal_format =? HAL_PIXEL_FORMAT_YCbCr_420_888
    then fold_left Z.min (map fst ranges) m else m.
Proof.
  rewrite yuv_entries_pair. destruct (_ =? _); [| reflexivity].
  rewrite map_pair_min. reflexivity.
Qed.

(** The loop over the formats reads what [format_durations] reads. *)
Lemma formats_loop_durations hal_formats :
  forall m (c : V4L2Camera),
    let survey := format_durations hal_formats (mV4L2Device c) in
    exists c',
      formats_loop hal_formats m c
      = Some ((survey.1.1,
               fold_left Z.min
                 (map (fun e => e.2.1) (yuv_entries survey.1.2)) m), c') /\
      mV4L2Device c' = survey.2 /\
      mMaxFrameDuration c'
      = fold_left Z.min (map (fun e => e.2.2) survey.1.2)
                  (mMaxFrameDuration c) /\
      mFpsRanges c' = mFpsRanges c.
Proof.
  induction hal_formats as [| hal_format rest IH]; intros m c; cbn zeta.
  - exists c. simpl. auto.
  - cbn [formats_loop format_durations].
    destruct (HalToV4L2PixelFormat hal_format =? 0).
    { exists c. simpl. auto. }
    unfold pbind at 1. unfold on_wrapper at 1.
    destruct (GetFormatFrameSizes (HalToV4L2PixelFormat hal_format)
                                  (mV4L2Device c)) as [[res frame_sizes] w1].
    destruct (res =? 0) eqn:Hres; cbn [negb].
    2:{ eexists. cbn. split; [reflexivity |]. cbn. auto. }
    set (c1 := with_device (fun _ => w1) c).
    destruct (frame_sizes_loop_durations hal_format
                (HalToV4L2PixelFormat hal_format) frame_sizes m c1)
      as (c2 & Hrun & Hdev & Hmax & Hfps).
    change (mV4L2Device c1) with w1 in Hrun, Hdev, Hmax.
    change (mMaxFrameDuration c1) with (mMaxFrameDuration c) in Hmax.
    change (mFpsRanges c1) with (mFpsRanges c) in Hfps.
    unfold pbind at 1. rewrite Hrun.
    destruct (size_durations (HalToV4L2PixelFormat hal_format) frame_sizes w1)
      as [[res2 ranges] w2].
    cbn [fst snd] in *.
    destruct (res2 =? 0) eqn:Hres2; cbn [negb].
    2:{ exists c2. cbn [fst snd]. rewrite yuv_min_pair, map_pair_max.
        unfold pret. auto. }
    set (m2 := if hal_format =? HAL_PIXEL_FORMAT_YCbCr_420_888
               then fold_left Z.min (map fst ranges) m else m).
    destruct (IH m2 c2) as (c' & Hrun' & Hdev' & Hmax' & Hfps').
    rewrite Hdev in Hrun', Hdev', Hmax'.
    destruct (format_durations rest w2) as [[res' entries] w3].
    cbn [fst snd] in *.
    exists c'. split; [| split; [exact Hdev' | split; [| congruence]]].
    + rewrite Hrun'. f_equal. f_equal. f_equal.
      unfold yuv_entries. rewrite filter_app, map_app, fold_left_app.
      fold (yuv_entries (map (pair hal_format) ranges)).
      rewrite yuv_min_pair. reflexivity.
    + rewrite Hmax', Hmax, map_app, fold_left_app, map_pair_max. reflexivity.
Qed.

(** C7 (amended).  On a device that connects, reports its formats
    (YCbCr_420_888 and BLOB among them) and answers every query for
    frame sizes and durations, [initCharacteristics] takes
    [min_yuv_fps] from the smallest maximum frame duration among all
    formats and sizes and [max_yuv_fps] from the smallest minimum frame
    duration among the sizes of YCbCr_420_888.  It rejects the device
    with -ENODEV and adds no range when [min_yuv_fps > 15]; otherwise it
    returns 0 and adds exactly the ranges [min, max], [max, max] and,
    when [max > 30], [30, 30]. *)
Theorem initCharacteristics_frame_rates
        (d : V4L2Camera) (w1 w2 w3 : World) (v4l2_formats : list Z)
        (entries : list (Z * (Z * Z))) :
  Connect (mV4L2Device d) = (0, w1) ->
  GetFormats w1 = ((0, v4l2_formats), w2) ->
  set_mem HAL_PIXEL_FORMAT_YCbCr_420_888 (hal_formats_of v4l2_formats) = true ->
  set_mem HAL_PIXEL_FORMAT_BLOB (hal_formats_of v4l2_formats) = true ->
  format_durations (hal_formats_of v4l2_formats) w2 = (0, entries, w3) ->
  smallest_max_duration entries <> 0 ->
  let min_yuv_fps := Z.quot 1000000000 (smallest_max_duration entries) in
  let max_yuv_fps := Z.quot 1000000000 (smallest_min_yuv_duration entries) in
  (15 < min_yuv_fps ->
   exists d', initCharacteristics d = Some (- ENODEV, d') /\
              mFpsRanges d' = mFpsRanges d) /\
  (min_yuv_fps <= 15 -> smallest_min_yuv_duration entries <> 0 ->
   exists d', initCharacteristics d = Some (0, d') /\
              mFpsRanges d'
              = mFpsRanges d
                  ++ [(min_yuv_fps, max_yuv_fps); (max_yuv_fps, max_yuv_fps)]
                  ++ (if 30 <? max_yuv_fps then [(30, 30)] else [])).
Proof.
  intros Hconnect Hformats Hyuv Hblob Hsurvey Hmax min_yuv_fps max_yuv_fps.
  set (d1 := with_device (fun _ => w1) (set_fixed_features d)).
  set (d2 := set_mMaxFrameDuration INT64_MAX (with_device (fun _ => w2) d1)).
  destruct (formats_loop_durations (hal_formats_of v4l2_formats) INT64_MAX d2)
    as (d3 & Hrun & Hdev & Hdur & Hfps).
  change (mV4L2Device d2) with w2 in Hrun, Hdev, Hdur.
  rewrite Hsurvey in Hrun, Hdev, Hdur. cbn [fst snd] in Hrun, Hdev, Hdur.
  change (mMaxFrameDuration d2) with INT64_MAX in Hdur.
  change (mFpsRanges d2) with (mFpsRanges d) in Hfps.
  fold (smallest (map (fun e : Z * (Z * Z) => e.2.2) entries)) in Hdur.
  fold (smallest_max_duration entries) in Hdur.
  fold (smallest (map (fun e : Z * (Z * Z) => e.2.1) (yuv_entries entries)))
    in Hrun.
  fold (smallest_min_yuv_duration entries) in Hrun.
  assert (Hconnected :
            initCharacteristics_connected d1
            = pbind (pgets id) (fun c =>
                match fps_of_duration (mMaxFrameDuration c) with
                | None => undefined
                | Some min_fps =>
                    if 15 <? min_fps then pret (- ENODEV)
                    else
                      match fps_of_duration (smallest_min_yuv_duration entries) with
                      | None => undefined
                      | Some max_fps =>
                          pbind (pmodify (finish_characteristics
                                            (fps_ranges min_fps max_fps)))
                                (fun _ => pret 0)
                      end
                end) d3).
  { unfold initCharacteristics_connected.
    unfold pbind at 1. unfold on_wrapper at 1.
    change (mV4L2Device d1) with w1. rewrite Hformats. cbn [negb Z.eqb].
    rewrite Hyuv, Hblob. cbn [negb].
    unfold pbind at 1. unfold pmodify at 1.
    unfold pbind at 1.
    change (set_mMaxFrameDuration INT64_MAX (with_device (fun _ => w2) d1))
      with d2.
    rewrite Hrun. cbn [negb Z.eqb]. reflexivity. }
  assert (Hinit : forall res d4,
             initCharacteristics_connected d1 = Some (res, d4) ->
             exists d', initCharacteristics d = Some (res, d') /\
                        mFpsRanges d' = mFpsRanges d4).
  { intros res d4 H4. unfold initCharacteristics, Connection_new.
    unfold pbind at 1. unfold pmodify at 1.
    unfold pbind at 1. unfold on_wrapper at 1.
    change (mV4L2Device (set_fixed_features d)) with (mV4L2Device d).
    rewrite Hconnect. cbn [negb Z.eqb].
    unfold pbind at 1. fold d1. rewrite H4.
    unfold Connection_delete. cbn [Z.eqb].
    unfold pbind, on_wrapper. destruct (Disconnect (mV4L2Device d4)) as [u w4].
    eexists. split; reflexivity. }
  unfold pbind at 1 in Hconnected. unfold pgets at 1 in Hconnected.
  change (id d3) with d3 in Hconnected.
  rewrite Hdur, (fps_of_duration_quot _ Hmax) in Hconnected.
  fold min_yuv_fps in Hconnected.
  split.
  - intros Hhigh. apply Z.ltb_lt in Hhigh. rewrite Hhigh in Hconnected.
    destruct (Hinit _ _ Hconnected) as (d' & Hd' & Hranges).
    exists d'. split; [exact Hd' | congruence].
  - intros Hlow Hmin.
    assert (Hlow' : (15 <? min_yuv_fps) = false) by (apply Z.ltb_ge; exact Hlow).
    rewrite Hlow', (fps_of_duration_quot _ Hmin) in Hconnected.
    fold max_yuv_fps in Hconnected.
    destruct (Hinit _ _ Hconnected) as (d' & Hd' & Hranges).
    exists d'. split; [exact Hd' |].
    rewrite Hranges. cbn. rewrite Hfps. reflexivity.
Qed.

End FrameRates.

(** ** Menu options and controls *)

Section MenuFacts.
Context {T : Type} `{EqDecision T}.
Variable pick : Z -> nat.

Lemma DefaultValueForTemplate_member (options : list T) (tid : Z) (dv : T) :
  options <> [] ->
  exists v, Menu.DefaultValueForTemplate pick (Menu.mkMenu options) tid dv = (0, v) /\
            v ∈ options.
Proof.
  intros Hne. unfold Menu.DefaultValueForTemplate. simpl.
  destruct options as [| first rest]; [contradiction |].
  eexists. split; [reflexivity |].
  apply list_elem_of_In, nth_In.
  apply Nat.mod_upper_bound. simpl. lia.
Qed.

Lemma DefaultValueForTemplate_empty (tid : Z) (dv : T) :
  Menu.DefaultValueForTemplate pick (Menu.mkMenu []) tid dv = (- ENODEV, dv).
Proof. reflexivity. Qed.
End MenuFacts.

(** C8.  Whatever the implementation's choice per template id, for
    every template id in [1, CAMERA3_TEMPLATE_COUNT) the options
    {1, 10, 19, 30}, like every non-empty list of options, yield 0 and a
    default that is one of the options; the empty list yields -ENODEV and
    leaves the output as it was. *)
Theorem DefaultValueForTemplate_in_options
        (pick : Z -> nat) (template_id default_value : Z) :
  1 <= template_id < Cam.CAMERA3_TEMPLATE_COUNT ->
  (exists v,
      Menu.DefaultValueForTemplate pick (Menu.mkMenu [1; 10; 19; 30])
                                   template_id default_value = (0, v) /\
      v ∈ [1; 10; 19; 30]) /\
  (forall options : list Z,
      options <> [] ->
      exists v,
        Menu.DefaultValueForTemplate pick (Menu.mkMenu options)
                                     template_id default_value = (0, v) /\
        v ∈ options) /\
  Menu.DefaultValueForTemplate pick (Menu.mkMenu []) template_id default_value
  = (- ENODEV, default_value).
Proof.
  intros _. split; [| split].
  - apply DefaultValueForTemplate_member. discriminate.
  - intros options. apply DefaultValueForTemplate_member.
  - reflexivity.
Qed.

Lemma DefaultValueForTemplate_in_options_witness :
  (exists v,
      Menu.DefaultValueForTemplate (fun t => Z.to_nat t) (Menu.mkMenu [1; 10; 19; 30])
                                   Cam.CAMERA3_TEMPLATE_STILL_CAPTURE 0 = (0, v) /\
      v ∈ [1; 10; 19; 30]) /\
  Menu.DefaultValueForTemplate (fun t => Z.to_nat t) (Menu.mkMenu [])
                               Cam.CAMERA3_TEMPLATE_STILL_CAPTURE 0
  = (- ENODEV, 0).
Proof.
  destruct (DefaultValueForTemplate_in_options
              (fun t => Z.to_nat t) Cam.CAMERA3_TEMPLATE_STILL_CAPTURE 0)
    as (Hmenu & _ & Hempty).
  - unfold Cam.CAMERA3_TEMPLATE_STILL_CAPTURE, Cam.CAMERA3_TEMPLATE_COUNT. lia.
  - split; [exact Hmenu | exact Hempty].
Defined.

Section ControlFacts.
Import Ctrl.
Context `{DG : ControlDelegate}.

(** C6.  [SetRequestValues] writes through exactly when the metadata
    holds the control's tag with one value that the options accept.
    Without the tag it returns 0 and does nothing.  With a number of
    values other than one it returns -EINVAL and does nothing.  With
    one value that the options reject it returns -EINVAL, makes no
    call of [SetValue] and leaves the device as it was.  Otherwise it
    calls [SetValue] once, with that value, and returns what the call
    returned. *)
Theorem SetRequestValues_writes_through
        (c : Control) (metadata : CameraMetadata) (w : ControlWorld) :
  let r := SetRequestValues c metadata w in
  match metadata !! delegate_tag c with
  | None => r = (0, w)
  | Some [v] =>
      if accepts c v
      then r.1 = (SetValue v (device_state w)).1 /\
           device_state r.2 = (SetValue v (device_state w)).2 /\
           writes r.2 = SetValue_called v :: writes w
      else r.1 = - EINVAL /\
           device_state r.2 = device_state w /\
           writes r.2 = writes w
  | Some _ => r = (- EINVAL, w)
  end.
Proof.
  unfold SetRequestValues, SupportsRequestValues, SingleTagValue, accepts,
    writes, bind, ret.
  destruct (metadata !! delegate_tag c) as [[| v [| v' rest]] |]; simpl;
    try reflexivity.
  destruct (options c) as [[tag o] |]; simpl.
  - unfold call_IsSupported, log_call, bind, modify, ret. simpl.
    destruct (IsSupported o v); simpl.
    + unfold call_SetValue. simpl.
      destruct (SetValue v (device_state w)) as [res d']. simpl. auto.
    + auto.
  - unfold call_SetValue.
    destruct (SetValue v (device_state w)) as [res d']. simpl. auto.
Qed.
End ControlFacts.

(** ** Camera information and template names *)

Section InfoFacts.
Import Cam.
Context {D : Type}.
Variable initDeviceInfo : camera_info -> camera_info.
Variable initStaticInfo : P D (Z * CameraMetadata).

(** [getInfo] asks the device for the static characteristics only
    while it has none: once [mStaticInfo] is set, a call changes
    nothing and the device is not asked.  The characteristics are kept
    when the device returned 0, whatever happens afterwards; when it
    did not, the call fails with -ENODEV and keeps nothing.  A call
    that returns 0 has handed out the characteristics kept, the
    orientation found in them, and the facing that corresponds to
    their LENS_FACING: front, back or external. *)
Theorem getInfo_outcomes (info : camera_info) (st : option CameraMetadata * D)
        (res : Z) (info' : camera_info) (st' : option CameraMetadata * D) :
  getInfo initDeviceInfo initStaticInfo info st = Some ((res, info'), st') ->
  (forall m, st.1 = Some m -> st' = st) /\
  (st.1 = None ->
   exists r m,
     initStaticInfo st.2 = Some ((r, m), st'.2) /\
     (r <> 0 -> res = - ENODEV /\ st'.1 = None) /\
     (r = 0 -> st'.1 = Some m)) /\
  (res = 0 ->
   exists m facing orientation,
     st'.1 = Some m /\
     static_camera_characteristics info' = Some m /\
     m !! ANDROID_LENS_FACING = Some [facing] /\
     m !! ANDROID_SENSOR_ORIENTATION = Some [orientation] /\
     info_orientation info' = orientation /\
     (facing = ANDROID_LENS_FACING_FRONT /\ info_facing info' = CAMERA_FACING_FRONT \/
      facing = ANDROID_LENS_FACING_BACK /\ info_facing info' = CAMERA_FACING_BACK \/
      facing = ANDROID_LENS_FACING_EXTERNAL /\
      info_facing info' = CAMERA_FACING_EXTERNAL)).
Proof.
  unfold getInfo. intros H.
  apply pbind_Some in H as (cached & s0 & [= <- <-] & H).
  apply pbind_Some in H as ([failed static_info] & s1 & E & H).
  assert (Hinit :
            (forall m, st.1 = Some m -> s1 = st /\ failed = false /\ static_info = m) /\
            (st.1 = None ->
             exists r,
               initStaticInfo st.2 = Some ((r, static_info), s1.2) /\
               (r <> 0 -> failed = true /\ s1.1 = None) /\
               (r = 0 -> failed = false /\ s1.1 = Some static_info))).
  { destruct st as [[m |] d]; simpl in *.
    - injection E as <- <- <-. split; [intros ? [= <-]; auto | discriminate].
    - split; [discriminate |]. intros _.
      destruct (initStaticInfo d) as [[[r m] d'] |]; [| discriminate].
      exists r. destruct (Z.eqb_spec r 0) as [-> | Hr]; cbn [negb] in E;
        injection E as <- <- <-; simpl; repeat split; auto; try contradiction;
        intros; contradiction. }
  destruct Hinit as [Hcached Hfresh].
  assert (Hs1 : st' = s1).
  { destruct failed; [injection H as _ _ <-; reflexivity |].
    destruct (SingleTagValue static_info ANDROID_LENS_FACING) as [[| ? | ?] [f |]];
      try (injection H as _ _ <-; reflexivity).
    destruct (if f =? _ then _ else _);
      [| injection H as _ _ <-; reflexivity].
    destruct (SingleTagValue static_info ANDROID_SENSOR_ORIENTATION)
      as [[| ? | ?] [o |]]; injection H as _ _ <-; reflexivity. }
  subst s1.
  split; [intros m Hm; apply (Hcached m Hm) |].
  split.
  { intros Hnone. destruct (Hfresh Hnone) as (r & Hrun & Hbad & Hgood).
    exists r, static_info. split; [exact Hrun |]. split.
    - intros Hr. destruct (Hbad Hr) as [-> Hn]. injection H as <- _.
      auto.
    - intros Hr. apply Hgood, Hr. }
  intros ->. destruct failed; [unfold ENODEV in H; discriminate |].
  assert (Hkept : st'.1 = Some static_info).
  { destruct (st.1) as [m |] eqn:Hst.
    - destruct (Hcached m eq_refl) as (-> & _ & ->). exact Hst.
    - destruct (Hfresh eq_refl) as (r & _ & Hbad & Hgood).
      destruct (Z.eq_dec r 0) as [Hr | Hr];
        [apply Hgood, Hr | destruct (Hbad Hr); discriminate]. }
  unfold SingleTagValue in H.
  destruct (static_info !! ANDROID_LENS_FACING) as [[| facing [| ? ?]] |] eqn:Hf;
    try (unfold ENOENT, EINVAL in H; discriminate).
  destruct (static_info !! ANDROID_SENSOR_ORIENTATION)
    as [[| orientation [| ? ?]] |] eqn:Ho;
    try (destruct (if facing =? _ then _ else _);
         unfold ENOENT, EINVAL, ENODEV in H; discriminate).
  exists static_info, facing, orientation.
  destruct (Z.eqb_spec facing ANDROID_LENS_FACING_FRONT) as [-> | ?];
    [| destruct (Z.eqb_spec facing ANDROID_LENS_FACING_BACK) as [-> | ?];
       [| destruct (Z.eqb_spec facing ANDROID_LENS_FACING_EXTERNAL) as [-> | ?];
          [| unfold ENODEV in H; discriminate]]];
    injection H as <-; simpl; repeat split; auto.
Qed.
End InfoFacts.

(** Every template type from PREVIEW to ZERO_SHUTTER_LAG has a name of
    its own.  MANUAL, which [isValidTemplateType] accepts, has none: it
    is the one valid type that [templateToString] calls invalid. *)
Theorem templateToString_names (type : Z) :
  (Cam.templateToString type = "Invalid template type!"%string <->
   ~ (Cam.CAMERA3_TEMPLATE_PREVIEW <= type
      <= Cam.CAMERA3_TEMPLATE_ZERO_SHUTTER_LAG)) /\
  (Cam.isValidTemplateType type = true /\
   Cam.templateToString type = "Invalid template type!"%string <->
   type = Cam.CAMERA3_TEMPLATE_MANUAL).
Proof.
  assert (Hname : Cam.templateToString type = "Invalid template type!"%string <->
                  ~ (1 <= type <= 5)).
  { unfold Cam.templateToString, Cam.CAMERA3_TEMPLATE_PREVIEW,
      Cam.CAMERA3_TEMPLATE_STILL_CAPTURE, Cam.CAMERA3_TEMPLATE_VIDEO_RECORD,
      Cam.CAMERA3_TEMPLATE_VIDEO_SNAPSHOT, Cam.CAMERA3_TEMPLATE_ZERO_SHUTTER_LAG.
    destruct (Z.eqb_spec type 1); [split; [discriminate | lia] |].
    destruct (Z.eqb_spec type 2); [split; [discriminate | lia] |].
    destruct (Z.eqb_spec type 3); [split; [discriminate | lia] |].
    destruct (Z.eqb_spec type 4); [split; [discriminate | lia] |].
    destruct (Z.eqb_spec type 5); [split; [discriminate | lia] |].
    split; [lia | reflexivity]. }
  split; [exact Hname |].
  rewrite Hname. unfold Cam.isValidTemplateType, Cam.CAMERA3_TEMPLATE_COUNT,
    Cam.CAMERA3_TEMPLATE_MANUAL.
  rewrite andb_true_iff, !Z.ltb_lt. lia.
Qed.

Section ConcreteDevices.
Import V4L2 Cam V4L2Cam Sample.

(** ** The claims on concrete devices *)

Lemma disconnected_operations_fail_witness :
  StreamOn (fresh_world []) = (- EINVAL, fresh_world []) /\
  StreamOff (fresh_world []) = (- ENODEV, fresh_world []) /\
  DequeueBuffer (fresh_world []) = ((- ENODEV, None), fresh_world []).
Proof.
  destruct (disconnected_operations_fail (fresh_world []))
    as (Hon & Hoff & _ & _ & _ & _ & _ & _ & Hdq).
  - apply reach_new.
  - reflexivity.
  - auto.
Defined.

(** On a wrapper that was never connected [StreamOn] fails with -EINVAL,
    not with -ENODEV; so does [SetFormat] of an input stream. *)
Lemma StreamOn_disconnected_not_ENODEV :
  connected (wrapper (fresh_world [])) = false /\
  (StreamOn (fresh_world [])).1 = - EINVAL /\
  (StreamOn (fresh_world [])).1 <> - ENODEV.
Proof. split; [reflexivity |]. split; [reflexivity |]. vm_compute. discriminate. Qed.

(** When the driver refuses the first VIDIOC_S_FMT, the format is not
    cached and a second call with the same stream issues the ioctl
    again: two calls, two VIDIOC_S_FMT. *)
Lemma SetFormat_twice_after_failure :
  let w0 := connected_world [busy_reply] in
  let w1 := (SetFormat yuv_stream 0 w0).2 in
  let w2 := (SetFormat yuv_stream 0 w1).2 in
  (SetFormat yuv_stream 0 w0).1.1 = - ENODEV /\
  (SetFormat yuv_stream 0 w1).1.1 = 0 /\
  issued_count VIDIOC_S_FMT w0 = 0%nat /\
  issued_count VIDIOC_S_FMT w2 = 2%nat.
Proof. vm_compute. repeat split. Qed.

Lemma QueryControl_bitmask_zero_extension_witness :
  exists result,
    (QueryControl 7 (connected_world [bitmask_reply])).1 = (0, result) /\
    qe_maximum result = 0x00000000FFFFFFFF /\
    qe_default_value result = 0x0000000080000000.
Proof.
  destruct (QueryControl_bitmask_zero_extension
              (connected_world [bitmask_reply]) 7 3 bitmask_reply []
              (mkQueryctrl 7 V4L2_CTRL_TYPE_BITMASK [] 0
                           (to_int32 0xFFFFFFFF) 0 (to_int32 0x80000000) 0))
    as (result & Hret & Hmask & _).
  - reflexivity.
  - left. reflexivity.
  - reflexivity.
  - reflexivity.
  - reflexivity.
  - vm_compute. split; [discriminate | reflexivity].
  - vm_compute. split; [discriminate | reflexivity].
  - exists result. split; [exact Hret |].
    destruct (Hmask eq_refl) as (_ & _ & _ & _ & _ & _ & Hmax & Hdef).
    split; [apply Hmax | apply Hdef]; reflexivity.
Defined.


(** C2 (a defect of the code).  A camera holds one live stream; the
    framework offers that stream for reuse with another width, followed
    by a new stream: an input the code expects, since [reuseStream]
    checks the parameters of a reused stream.  The camera's array is
    well formed and the stream offered for reuse is live.  The loop
    that fills the new array stops at slot 0, with a null pointer
    written there and slot 1 never assigned; the cleanup at [err_out]
    then reads slot 1, so the call has no defined result: it neither
    returns -EINVAL nor keeps the streams as the claim says.  With the
    same two streams in the other order the failing stream sits in the
    last slot, every slot has been assigned, and the call does what the
    claim says: it returns -EINVAL, [mStreams] and [mNumStreams] are as
    before and the stream at pointer 0 is the only live one. *)
Theorem configureStreams_reuse_failure_undefined :
  streams_well_formed one_stream_hal /\
  offers_live_streams (Some (mkConfig [mismatched_reuse; wide_stream] 0))
                      one_stream_hal /\
  fst <$> (mark_unused;;
           fill_streams 0 [mismatched_reuse; wide_stream]
                        (replicate 2 Indeterminate))%part one_stream_hal
  = Some (false, [Written None; Indeterminate],
          [mismatched_reuse; wide_stream]) /\
  (forall s : @HAL (@V4L2CameraDevice _ _ _ uneven_device ∅),
      read_slot [Written None; Indeterminate] 1 s = None) /\
  (forall uninit,
      configureStreams (Some (mkConfig [mismatched_reuse; wide_stream] 0))
                       uninit one_stream_hal
      = None) /\
  (forall uninit,
      (fun r => (r.1.1, mStreams (camera r.2), mNumStreams (camera r.2),
                 dom (objects r.2)))
        <$> configureStreams
              (Some (mkConfig [wide_stream; mismatched_reuse] 0))
              uninit one_stream_hal
      = Some (- EINVAL, Some [Written (Some 0%nat)], 1, {[0%nat]})).
Proof.
  split.
  { intros i Hi. exists 0%nat.
    assert (i = 0%nat) as -> by (simpl in Hi; lia).
    split; [reflexivity |]. apply elem_of_dom. eexists. reflexivity. }
  split.
  { intros c a [= <-] Hin Hpos. simpl in Hin.
    apply elem_of_cons in Hin as [-> | Hin].
    - exists 0%nat. split; [reflexivity |].
      apply elem_of_dom. eexists. reflexivity.
    - apply list_elem_of_singleton in Hin as ->.
      vm_compute in Hpos. discriminate. }
  split; [reflexivity |].
  split; [reflexivity |].
  split; intros uninit; reflexivity.
Qed.




Lemma initCharacteristics_frame_rates_witness :
  exists d',
    initCharacteristics (FQ := uneven_device) (newV4L2Camera (fresh_world []))
    = Some (0, d') /\
    mFpsRanges d' = [(12, 30); (30, 30)].
Proof.
  destruct (initCharacteristics_frame_rates (FQ := uneven_device)
              (newV4L2Camera (fresh_world []))
              (Connect (fresh_world [])).2
              (Connect (fresh_world [])).2
              (Connect (fresh_world [])).2
              [HAL_PIXEL_FORMAT_BLOB; HAL_PIXEL_FORMAT_YCbCr_420_888]
              [(HAL_PIXEL_FORMAT_BLOB, (33333333, 80000000));
               (HAL_PIXEL_FORMAT_IMPLEMENTATION_DEFINED, (33333333, 80000000));
               (HAL_PIXEL_FORMAT_YCbCr_420_888, (33333333, 100000000))])
    as (_ & Haccept).
  - vm_compute. reflexivity.
  - vm_compute. reflexivity.
  - vm_compute. reflexivity.
  - vm_compute. reflexivity.
  - vm_compute. reflexivity.
  - vm_compute. discriminate.
  - destruct Haccept as (d' & Hrun & Hranges).
    + vm_compute. discriminate.
    + vm_compute. discriminate.
    + exists d'. split; [exact Hrun | exact Hranges].
Defined.

(** On a driver whose only YCbCr_420_888 size runs from 10 to 30 frames a
    second, while BLOB runs from 12.5 to 30, the device is accepted with
    the ranges [12, 30] and [30, 30]: the lower end is not the minimum
    frame rate of YCbCr_420_888, which is 10. *)
Lemma frame_rates_not_of_yuv_alone :
  let entries :=
    [(HAL_PIXEL_FORMAT_BLOB, (33333333, 80000000));
     (HAL_PIXEL_FORMAT_IMPLEMENTATION_DEFINED, (33333333, 80000000));
     (HAL_PIXEL_FORMAT_YCbCr_420_888, (33333333, 100000000))] in
  (format_durations (FQ := uneven_device)
     (hal_formats_of (FQ := uneven_device)
        [HAL_PIXEL_FORMAT_BLOB; HAL_PIXEL_FORMAT_YCbCr_420_888])
     (Connect (fresh_world [])).2).1 = (0, entries) /\
  yuv_min_frame_rate entries = 10 /\
  yuv_max_frame_rate entries = 30 /\
  exists d',
    initCharacteristics (FQ := uneven_device) (newV4L2Camera (fresh_world []))
    = Some (0, d') /\
    mFpsRanges d' = [(12, 30); (30, 30)] /\
    mFpsRanges d'
    <> [(yuv_min_frame_rate entries, yuv_max_frame_rate entries);
        (yuv_max_frame_rate entries, yuv_max_frame_rate entries)].
Proof.
  cbv zeta. split; [vm_compute; reflexivity |].
  split; [vm_compute; reflexivity |]. split; [vm_compute; reflexivity |].
  eexists. split; [vm_compute; reflexivity |].
  split; [reflexivity |]. vm_compute. discriminate.
Qed.

(** ** The further properties on concrete devices *)

(** A run whose result is known has a final state. *)
Lemma run_result {S A B : Type} (f : A -> B) (c : option (A * S)) (b : B) :
  (fun r => f r.1) <$> c = Some b -> exists a s', c = Some (a, s') /\ f a = b.
Proof.
  destruct c as [[a s'] |]; [| discriminate].
  intros [= <-]. exists a, s'. auto.
Qed.

Lemma configureStreams_failure_preserves_streams_witness :
  exists cfg' s',
    configureStreams (Some (mkConfig [matching_reuse; narrow_stream] 0))
                     (fun _ => 0) one_stream_hal
    = Some ((- EINVAL, cfg'), s') /\
    mStreams (camera s') = Some [Written (Some 0%nat)] /\
    mNumStreams (camera s') = 1 /\
    dom (objects s') = {[0%nat]}.
Proof.
  destruct (run_result fst
              (configureStreams (Some (mkConfig [matching_reuse; narrow_stream] 0))
                                (fun _ => 0) one_stream_hal) (- EINVAL))
    as ([code cfg'] & s' & Hrun & Hcode); [vm_compute; reflexivity |].
  cbn [fst] in Hcode. subst code. exists cfg', s'. split; [exact Hrun |].
  destruct (configureStreams_failure_preserves_streams (FQ := uneven_device) ∅
              (Some (mkConfig [matching_reuse; narrow_stream] 0))
              (fun _ => 0) one_stream_hal)
    as (Hfail & _ & _).
  - intros c a [= <-] Hin Hpos. simpl in Hin.
    apply elem_of_cons in Hin as [-> | Hin].
    + exists 0%nat. split; [reflexivity |].
      apply elem_of_dom. eexists. reflexivity.
    + apply list_elem_of_singleton in Hin as ->.
      vm_compute in Hpos. discriminate.
  - destruct (Hfail _ _ _ Hrun) as (_ & Hstreams & Hnum & Hdom).
    { unfold EINVAL. lia. }
    rewrite Hstreams, Hnum, Hdom. repeat split.
Defined.

Lemma format_needs_connection_witness :
  connected (wrapper (SetFormat yuv_stream 0 (Connect (fresh_world [])).2).2)
  = true.
Proof.
  apply format_needs_connection.
  - apply reach_call; [constructor |].
    apply reach_call; [constructor | apply reach_new].
  - vm_compute. discriminate.
Defined.

Lemma SetupBuffers_outcomes_witness :
  issued (SetupBuffers streaming_world).2
  = (VIDIOC_REQBUFS, D_requestbuffers (mkReqbufs 1 1 V4L2_MEMORY_USERPTR))
      :: issued streaming_world /\
  1 <= max_buffers_ (wrapper (SetupBuffers streaming_world).2).
Proof.
  destruct (SetupBuffers_outcomes streaming_world
              (mkFormat 1 HAL_PIXEL_FORMAT_YCbCr_420_888 640 480 0) 3)
    as (Hissued & _ & Hok).
  - reflexivity.
  - reflexivity.
  - split; [exact Hissued |]. apply Hok. reflexivity.
Defined.

Lemma SetFormat_success_witness :
  (SetFormat yuv_stream 0 (connected_world [])).1 = (0, 1) /\
  exists d1 d2,
    issued (SetFormat yuv_stream 0 (connected_world [])).2
    = [(VIDIOC_REQBUFS, d2); (VIDIOC_S_FMT, d1)].
Proof.
  destruct (SetFormat_success (connected_world []) yuv_stream 0)
    as (_ & _ & [(Hsame & _) | (_ & _ & Hissued)]).
  - reflexivity.
  - exfalso. revert Hsame. vm_compute. discriminate.
  - split; [reflexivity | exact Hissued].
Defined.

Lemma QueryControl_extended_witness :
  (QueryControl 7 (Connect (fresh_world [])).2).1.1 = 0 /\
  issued (QueryControl 7 (Connect (fresh_world [])).2).2
  = (VIDIOC_QUERY_EXT_CTRL,
     D_query_ext_ctrl (set_qe_id 7 zero_query_ext_ctrl))
      :: issued (Connect (fresh_world [])).2.
Proof.
  destruct (QueryControl_extended (Connect (fresh_world [])).2 7 3)
    as (Hres & Hissued).
  - reflexivity.
  - reflexivity.
  - vm_compute. discriminate.
  - split; [rewrite Hres; reflexivity | exact Hissued].
Defined.

Lemma enqueueBuffer_sequence_witness :
  exists d1 d2 d3,
    issued (enqueueBuffer_on 5 streaming_world).2
    = (VIDIOC_STREAMOFF, D_type 1) :: (VIDIOC_DQBUF, d3)
        :: (VIDIOC_STREAMON, D_type 1)
        :: (VIDIOC_QBUF, d2) :: (VIDIOC_QUERYBUF, d1) :: issued streaming_world.
Proof.
  apply (enqueueBuffer_sequence 5 streaming_world
           (mkFormat 1 HAL_PIXEL_FORMAT_YCbCr_420_888 640 480 0) 3);
    reflexivity.
Defined.

Lemma openDevice_after_failed_connect_witness :
  exists s1,
    openDevice ready_hal = Some (- EIO, s1) /\
    openDevice s1 = Some (- EIO, s1) /\
    close s1 = Some (- EINVAL, s1).
Proof.
  assert (H : exists s1, openDevice ready_hal = Some (- EIO, s1))
    by (eexists; reflexivity).
  destruct H as [s1 H]. exists s1. split; [exact H |].
  destruct (openDevice_after_failed_connect (FQ := uneven_device) ∅
              ready_hal (- EIO) s1 eq_refl eq_refl H)
    as (_ & _ & Hopen & Hclose).
  - vm_compute. discriminate.
  - split; assumption.
Defined.

Lemma open_close_round_trip_witness :
  exists s1 s2,
    openDevice (sample_hal uneven_device false) = Some (0, s1) /\
    openDevice s1 = Some (- EBUSY, s1) /\
    close s1 = Some (0, s2) /\
    camera s2 = camera (sample_hal uneven_device false) /\
    mConnection (device s2) = None.
Proof.
  assert (H : exists s1,
             openDevice (sample_hal uneven_device false) = Some (0, s1))
    by (eexists; reflexivity).
  destruct H as [s1 H].
  destruct (open_close_round_trip (FQ := uneven_device) ∅
              (sample_hal uneven_device false) s1 eq_refl eq_refl H)
    as (Hbusy & s2 & Hclose & Hcamera & _ & _ & Hconn).
  exists s1, s2. repeat split; assumption.
Defined.

Lemma isSupportedStreamSet_accepted_witness :
  count_if isOutputType [yuv_stream]
  <= mMaxStallingOutputStreams (device ready_hal)
     + mMaxNonStallingOutputStreams (device ready_hal).
Proof.
  destruct (isSupportedStreamSet_accepted (FQ := uneven_device)
              (device ready_hal) [yuv_stream] 1 0)
    as (_ & _ & _ & _ & Houtputs & _).
  - reflexivity.
  - exact Houtputs.
Defined.

Lemma setupStream_outcomes_witness :
  exists d',
    V4L2Cam.setupStream yuv_stream 0 (device ready_hal)
    = Some ((0, 1, setDataSpace HAL_DATASPACE_V0_JFIF yuv_stream), d') /\
    exists f, format_ (wrapper (mV4L2Device d')) = Some f /\
              sf_eqb (StreamFormat_of_stream
                        (setDataSpace HAL_DATASPACE_V0_JFIF yuv_stream)) f
              = true.
Proof.
  assert (H : exists d',
             V4L2Cam.setupStream yuv_stream 0 (device ready_hal)
             = Some ((0, 1, setDataSpace HAL_DATASPACE_V0_JFIF yuv_stream), d'))
    by (eexists; vm_compute; reflexivity).
  destruct H as [d' H]. exists d'. split; [exact H |].
  destruct (setupStream_outcomes yuv_stream 0 (device ready_hal) _ _ _ _ H)
    as (_ & Hok).
  destruct (Hok eq_refl) as (_ & _ & _ & _ & Hformat). exact Hformat.
Defined.

Lemma setupStream_cached_format_witness :
  V4L2Cam.setupStream yuv_stream 0 (newV4L2Camera streaming_world)
  = Some ((- ENODEV, 0, setDataSpace HAL_DATASPACE_V0_JFIF yuv_stream),
          newV4L2Camera streaming_world).
Proof.
  apply (setupStream_cached_format yuv_stream 0
           (newV4L2Camera streaming_world)
           (mkFormat 1 HAL_PIXEL_FORMAT_YCbCr_420_888 640 480 0));
    reflexivity.
Defined.

Lemma select_fps_ranges_closest_witness :
  select_fps_ranges [(12, 30); (30, 30)] INT32_MAX INT32_MAX None None
  = (Some (30, 30), Some (12, 30)) /\
  variable_distance (12, 30) <= variable_distance (30, 30).
Proof.
  split; [reflexivity |].
  destruct (select_fps_ranges_closest [(12, 30); (30, 30)]
              (Some (30, 30)) (Some (12, 30)) eq_refl)
    as [[_ Hclosest] _].
  - repeat constructor.
  - apply Hclosest. apply elem_of_cons. right. apply elem_of_cons. left.
    reflexivity.
Defined.


Lemma processCaptureRequest_effects_witness :
  exists s',
    processCaptureRequest (SY := PlainSync) (Some sample_request) ready_hal
    = Some (0, s') /\
    mSettingsSet (camera s') = true /\
    objects s' = objects ready_hal.
Proof.
  destruct (run_result id
              (processCaptureRequest (SY := PlainSync) (Some sample_request)
                                     ready_hal) 0)
    as (r & s' & H & Hr); [vm_compute; reflexivity |].
  unfold id in Hr. subst r. exists s'. split; [exact H |].
  destruct (processCaptureRequest_effects (SY := PlainSync)
              (Some sample_request) ready_hal 0 s' H)
    as (_ & Hobjects & _ & _ & Hok & _).
  destruct (Hok eq_refl) as [Hlatch _].
  split; [exact Hlatch | exact Hobjects].
Defined.

Lemma processCaptureRequest_hands_over_witness :
  exists s' d1 r,
    processCaptureRequest (SY := PlainSync) (Some sample_request) ready_hal
    = Some (0, s') /\
    isValidRequest sample_request (device ready_hal) = Some (true, d1) /\
    enqueueRequest
      (mkRequest 1 {[ANDROID_SENSOR_TIMESTAMP := [7]]} None
                 [preprocessed (mkStreamBuffer None 0 0 (-1) (-1))])
      d1
    = Some (r, device s').
Proof.
  destruct (run_result id
              (processCaptureRequest (SY := PlainSync) (Some sample_request)
                                     ready_hal) 0)
    as (r & s' & H & Hr); [vm_compute; reflexivity |].
  unfold id in Hr. subst r.
  destruct (processCaptureRequest_hands_over (SY := PlainSync)
              sample_request ready_hal 0 s' H)
    as [Hok _].
  destruct (Hok eq_refl) as (d1 & r & Hvalid & Hqueued).
  exists s', d1, r. split; [exact H |]. split; [exact Hvalid | exact Hqueued].
Defined.

Lemma getInfo_outcomes_witness :
  exists info' st',
    getInfo (D := unit) id (pret (0, back_facing_info))
            (mkCameraInfo 0 0 0 None 0 0) (None, tt)
    = Some ((0, info'), st') /\
    st'.1 = Some back_facing_info /\
    static_camera_characteristics info' = Some back_facing_info.
Proof.
  assert (H : exists info' st',
             getInfo (D := unit) id (pret (0, back_facing_info))
                     (mkCameraInfo 0 0 0 None 0 0) (None, tt)
             = Some ((0, info'), st'))
    by (eexists _, _; vm_compute; reflexivity).
  destruct H as (info' & st' & H). exists info', st'. split; [exact H |].
  destruct (getInfo_outcomes id (pret (0, back_facing_info))
              (mkCameraInfo 0 0 0 None 0 0) (None, tt) 0 info' st' H)
    as (_ & Hfirst & Hok).
  destruct (Hfirst eq_refl) as (r & m & Hasked & _ & Hkept).
  injection Hasked as <- <- _.
  destruct (Hok eq_refl) as (m & _ & _ & Hm & Hinfo & _).
  rewrite Hkept in Hm by reflexivity. injection Hm as <-.
  split; [apply Hkept; reflexivity | exact Hinfo].
Defined.

End ConcreteDevices.
